(** * SafeLink backend: detection and learning pipeline

    A shallow embedding of the parts of the SafeLink backend that the
    specification's properties talk about, and the properties themselves.

    Conventions of the embedding.
    - Python dictionaries are stdpp finite maps ([gmap]); a [defaultdict] is
      a map read with a default.
    - A [collections.deque] is a list whose head is the left end.
    - Clock readings ([time.time()]), time windows and anomaly scores are
      rationals ([Q]): the proofs need order arithmetic on them.  Every
      function that reads the clock takes the reading as an argument.
    - Floats that are only compared against literals (training metrics, the
      confidence parsed out of an alert) are binary64 values ([float]).
    - A Python exception is an explicit error result.
    - [str] values are byte strings (the UTF-8 encoding of the text). *)

From Stdlib Require Import ZArith QArith Lqa Floats String Ascii List Bool Lia.
From Stdlib Require Import DecimalString Sorted.
From Stdlib Require Import Uint63.
From stdpp Require Import gmap strings list sorting.

Set Warnings "-inexact-float".
Open Scope string_scope.
Open Scope list_scope.

(** ** Python built-ins used by the sources *)

Module Py.

(** [a > b] on clock readings and scores. *)
Definition Qgtb (a b : Q) : bool := negb (Qle_bool a b).

(** [a < b]. *)
Definition Qltb (a b : Q) : bool := negb (Qle_bool b a).

(** [min(a, b)]: Python returns the first argument unless the second is
    strictly smaller. *)
Definition Qmin (a b : Q) : Q := if Qltb b a then b else a.

(** [str(n)] for a non-negative integer. *)
Definition str_of_nat (n : nat) : string :=
  NilZero.string_of_uint (Nat.to_uint n).

(** [sep.join(parts)]. *)
Fixpoint join (sep : string) (parts : list string) : string :=
  match parts with
  | [] => ""
  | [p] => p
  | p :: rest => p +:+ sep +:+ join sep rest
  end.

(** [needle in hay] for strings. *)
Fixpoint contains (needle hay : string) : bool :=
  String.prefix needle hay ||
  match hay with
  | EmptyString => false
  | String _ rest => contains needle rest
  end.

(** [ch.upper()] on an ASCII letter; other bytes are unchanged. *)
Definition upper_ascii (c : ascii) : ascii :=
  let n := nat_of_ascii c in
  if (97 <=? n)%nat && (n <=? 122)%nat then ascii_of_nat (n - 32) else c.

(** [s.upper()], on ASCII text. *)
Fixpoint upper (s : string) : string :=
  match s with
  | EmptyString => EmptyString
  | String c rest => String (upper_ascii c) (upper rest)
  end.

(** [float(s)] on a plain decimal literal [digits.digits] of at most 15
    digits: the quotient of two integers that binary64 holds exactly, which
    the division rounds correctly.  Other strings are left to Python
    ([None] here); the properties below hold for every parser. *)
Definition digit_val (c : ascii) : option Z :=
  let n := nat_of_ascii c in
  if (48 <=? n)%nat && (n <=? 57)%nat then Some (Z.of_nat n - 48)%Z
  else None.

Fixpoint decimal_digits (s : string) (seen_point : bool) (num : Z)
    (frac count : nat) : option (Z * nat * nat) :=
  match s with
  | EmptyString => Some (num, frac, count)
  | String c rest =>
      if bool_decide (c = "."%char) then
        if seen_point then None
        else decimal_digits rest true num frac count
      else
        match digit_val c with
        | Some v =>
            decimal_digits rest seen_point (num * 10 + v)%Z
              (if seen_point then S frac else frac) (S count)
        | None => None
        end
  end.

Definition float_of_decimal (s : string) : option float :=
  match decimal_digits s false 0 0 0 with
  | Some (num, frac, count) =>
      if (0 <? count)%nat && (count <=? 15)%nat
      then Some (PrimFloat.div (PrimFloat.of_uint63 (Uint63.of_Z num))
                   (PrimFloat.of_uint63 (Uint63.of_Z (10 ^ Z.of_nat frac))))
      else None
  | None => None
  end.

(** [ch.lower()] on an ASCII letter; other bytes are unchanged. *)
Definition lower_ascii (c : ascii) : ascii :=
  let n := nat_of_ascii c in
  if (65 <=? n)%nat && (n <=? 90)%nat then ascii_of_nat (n + 32) else c.

(** [s.lower()], on ASCII text. *)
Fixpoint lower (s : string) : string :=
  match s with
  | EmptyString => EmptyString
  | String c rest => String (lower_ascii c) (lower rest)
  end.

(** [s.replace(c, "")] for a one-character [c]. *)
Fixpoint remove_char (c : ascii) (s : string) : string :=
  match s with
  | EmptyString => EmptyString
  | String x rest =>
      if bool_decide (x = c) then remove_char c rest
      else String x (remove_char c rest)
  end.

(** [s.split(c)] for a one-character separator: the pieces between the
    separators, empty pieces included; never an empty list. *)
Fixpoint split_char (c : ascii) (s : string) : list string :=
  match s with
  | EmptyString => [""]
  | String x rest =>
      if bool_decide (x = c) then "" :: split_char c rest
      else match split_char c rest with
           | piece :: pieces => String x piece :: pieces
           | [] => [String x ""]
           end
  end.

(** A [dict] display [{k1: v1, k2: v2, ...}]: a key written twice keeps
    the later value. *)
Definition dict_of {V} (items : list (string * V)) : gmap string V :=
  fold_left (fun m kv => <[kv.1 := kv.2]> m) items ∅.

(** [int(s, 16)] on a plain run of hexadecimal digits.  Other strings are
    left to Python ([None] here). *)
Definition hex_val (c : ascii) : option Z :=
  let n := nat_of_ascii c in
  if (48 <=? n)%nat && (n <=? 57)%nat then Some (Z.of_nat n - 48)%Z
  else if (97 <=? n)%nat && (n <=? 102)%nat then Some (Z.of_nat n - 87)%Z
  else if (65 <=? n)%nat && (n <=? 70)%nat then Some (Z.of_nat n - 55)%Z
  else None.

Fixpoint hex_digits (s : string) (acc : Z) : option Z :=
  match s with
  | EmptyString => Some acc
  | String c rest =>
      match hex_val c with
      | Some v => hex_digits rest (acc * 16 + v)%Z
      | None => None
      end
  end.

Definition int_of_hex (s : string) : option Z :=
  match s with
  | EmptyString => None
  | _ => hex_digits s 0
  end.

(** A call [f(..., k1=v1, k2=v2)]: [params] are the parameters that the
    positional arguments have left unbound, each with its default.  The
    keywords are bound in turn; a keyword that names none of them raises
    [TypeError] (here [None]).  The result gives every parameter its
    value. *)
Fixpoint set_param {A} (k : string) (v : A) (params : list (string * A))
    : option (list (string * A)) :=
  match params with
  | [] => None
  | (name, old) :: rest =>
      if bool_decide (name = k) then Some ((name, v) :: rest)
      else match set_param k v rest with
           | Some rest' => Some ((name, old) :: rest')
           | None => None
           end
  end.

Fixpoint bind_keywords {A} (params : list (string * A))
    (kwargs : list (string * A)) : option (list (string * A)) :=
  match kwargs with
  | [] => Some params
  | (k, v) :: rest =>
      match set_param k v params with
      | Some params' => bind_keywords params' rest
      | None => None
      end
  end.

(** The value bound to a parameter. *)
Fixpoint arg {A} (d : A) (k : string) (args : list (string * A)) : A :=
  match args with
  | [] => d
  | (name, v) :: rest => if bool_decide (name = k) then v else arg d k rest
  end.
End Py.

(** ** Frames *)

Module Scapy.

(** The fields of the ARP layer that the filter and the analyzers read
    ([psrc], [pdst], [hwsrc], [hwdst], [op]).  The sniffer only hands over
    frames that carry an ARP layer. *)
Record ARP := {
  psrc : string;
  pdst : string;
  hwsrc : string;
  hwdst : string;
  op : Z
}.

End Scapy.

(** ** core/dfa_filter.py *)

Module DFA.
Import Scapy.

(** [DFAFilter]: [ip_mac] maps ip -> mac, [grat_counts] maps a source MAC to
    the deque of its observation times. *)
Record DFAFilter := {
  ip_mac : gmap string string;
  grat_counts : gmap string (list Q);
  grat_threshold : Z;
  grat_window : Q
}.

(** [DFAFilter(gratuitous_threshold=5, grat_window=5.0)]. *)
Definition init (gratuitous_threshold : Z) (window : Q) : DFAFilter :=
  {| ip_mac := ∅; grat_counts := ∅;
     grat_threshold := gratuitous_threshold; grat_window := window |}.

Definition new : DFAFilter := init 5 5.

(** The [details] dictionary of a verdict. *)
Inductive details :=
| DConflict (ip prev_mac new_mac : string)
| DFlood (mac : string) (count : nat)
| DEmpty.

(** What [check] returns: [(is_suspicious, reason, details)].  The reason
    is kept symbolic; [reason_text] renders it. *)
Inductive reason :=
| RConflict (ip prev_mac new_mac : string)
| RFlood (mac : string) (count : nat) (window : Q)
| ROk.

Definition verdict : Type := bool * reason * details.

(** [while dq and (now - dq[0] > self.grat_window): dq.popleft()]. *)
Fixpoint prune (now window : Q) (dq : list Q) : list Q :=
  match dq with
  | [] => []
  | t :: rest =>
      if Py.Qgtb (now - t) window then prune now window rest else dq
  end.

(** [DFAFilter.check], with [now = time.time()] passed in. *)
Definition check (now : Q) (pkt : ARP) (s : DFAFilter) : verdict * DFAFilter :=
  let src_ip := psrc pkt in
  let src_mac := hwsrc pkt in
  (* Rule 1: IP-MAC mapping conflict *)
  let rule1 : option verdict * gmap string string :=
    match ip_mac s !! src_ip with
    | Some prev_mac =>
        if bool_decide (prev_mac ≠ src_mac)
        then (Some (true, RConflict src_ip prev_mac src_mac,
                    DConflict src_ip prev_mac src_mac),
              <[src_ip := src_mac]> (ip_mac s))
        else (None, ip_mac s)
    | None => (None, <[src_ip := src_mac]> (ip_mac s))
    end in
  match rule1 with
  | (Some v, bindings) =>
      (v, {| ip_mac := bindings; grat_counts := grat_counts s;
             grat_threshold := grat_threshold s;
             grat_window := grat_window s |})
  | (None, bindings) =>
      (* Rule 2: count ARP packets from the same source in the window *)
      let dq := default [] (grat_counts s !! src_mac) in
      let dq := prune now (grat_window s) (dq ++ [now]) in
      let s' := {| ip_mac := bindings;
                   grat_counts := <[src_mac := dq]> (grat_counts s);
                   grat_threshold := grat_threshold s;
                   grat_window := grat_window s |} in
      if (Z.of_nat (length dq) >? grat_threshold s)%Z
      then ((true, RFlood src_mac (length dq) (grat_window s),
             DFlood src_mac (length dq)), s')
      else ((false, ROk, DEmpty), s')
  end.

(** A frame stream: each frame with the clock reading of its check. *)
Fixpoint run (frames : list (Q * ARP)) (s : DFAFilter)
  : list verdict * DFAFilter :=
  match frames with
  | [] => ([], s)
  | (now, pkt) :: rest =>
      let '(v, s1) := check now pkt s in
      let '(vs, s2) := run rest s1 in
      (v :: vs, s2)
  end.

Definition is_conflict (v : verdict) : bool :=
  match v with (_, RConflict _ _ _, _) => true | _ => false end.

Definition is_flood (v : verdict) : bool :=
  match v with (_, RFlood _ _ _, _) => true | _ => false end.

Definition is_suspicious (v : verdict) : bool := v.1.1.

Section Text.
(** [str(x)] of a float, as the f-strings use it. *)
Variable str_float : Q -> string.

Definition reason_text (r : reason) : string :=
  match r with
  | RConflict ip prev new =>
      "IP-MAC conflict: " +:+ ip +:+ " previous " +:+ prev +:+ " now " +:+ new
  | RFlood mac count window =>
      "Excessive gratuitous ARPs from " +:+ mac +:+ " (" +:+
      Py.str_of_nat count +:+ " in " +:+ str_float window +:+ "s)"
  | ROk => "ok"
  end.
End Text.

End DFA.

(** ** core/arp_analyzer.py *)

Module ARPAnalyzer.

Record ARPPacketInfo := {
  timestamp : Q;
  src_mac : string;
  dst_mac : string;
  src_ip : string;
  dst_ip : string;
  opcode : Z;
  is_gratuitous : bool;
  is_probe : bool;
  inter_arrival_time : Q
}.

(** [self.stats]. *)
Record Stats := {
  total_packets : Z;
  gratuitous_count : Z;
  probe_count : Z;
  request_count : Z;
  reply_count : Z;
  unmatched_replies : Z;
  avg_inter_arrival : Q
}.

Record ARPAnalyzer := {
  max_history : nat;
  timing_window : Z;
  packet_history : gmap string (list ARPPacketInfo);
  last_packet_time : gmap string Q;
  pending_requests : gmap (string * string) Q;
  stats : Stats
}.

(** [ARPAnalyzer(max_history=1000, timing_window=60)]. *)
Definition init (max_hist : nat) (window : Z) : ARPAnalyzer :=
  {| max_history := max_hist; timing_window := window;
     packet_history := ∅; last_packet_time := ∅; pending_requests := ∅;
     stats := {| total_packets := 0; gratuitous_count := 0; probe_count := 0;
                 request_count := 0; reply_count := 0; unmatched_replies := 0;
                 avg_inter_arrival := 0 |} |}.

Definition new : ARPAnalyzer := init 1000 60.

(** [_is_gratuitous_arp]. *)
Definition _is_gratuitous_arp (src_ip dst_ip : string) (opcode : Z)
    (dst_mac : string) : bool :=
  if bool_decide (src_ip = dst_ip) then true
  else if (opcode =? 2)%Z &&
          bool_decide (Py.upper dst_mac = "FF:FF:FF:FF:FF:FF") then true
  else false.

(** [_is_arp_probe]. *)
Definition _is_arp_probe (src_ip : string) (opcode : Z) : bool :=
  (opcode =? 1)%Z && bool_decide (src_ip = "0.0.0.0").

(** [_update_statistics]. *)
Definition _update_statistics (packet_info : ARPPacketInfo) (opcode : Z)
    (st : Stats) : Stats :=
  let total := (total_packets st + 1)%Z in
  let avg := avg_inter_arrival st in
  {| total_packets := total;
     gratuitous_count :=
       if is_gratuitous packet_info then (gratuitous_count st + 1)%Z
       else gratuitous_count st;
     probe_count :=
       if is_probe packet_info then (probe_count st + 1)%Z
       else probe_count st;
     request_count :=
       if (opcode =? 1)%Z then (request_count st + 1)%Z else request_count st;
     reply_count :=
       if (opcode =? 1)%Z then reply_count st
       else if (opcode =? 2)%Z then (reply_count st + 1)%Z
       else reply_count st;
     unmatched_replies := unmatched_replies st;
     avg_inter_arrival :=
       if Py.Qgtb (inter_arrival_time packet_info) 0
       then ((avg * inject_Z (total - 1) + inter_arrival_time packet_info)
             / inject_Z total)%Q
       else avg |}.

(** [deque(maxlen=n).append(x)]: a full deque drops its left end. *)
Definition deque_append {A} (maxlen : nat) (dq : list A) (x : A) : list A :=
  let l := dq ++ [x] in drop (length l - maxlen) l.

Definition bump_unmatched (st : Stats) : Stats :=
  {| total_packets := total_packets st;
     gratuitous_count := gratuitous_count st;
     probe_count := probe_count st;
     request_count := request_count st;
     reply_count := reply_count st;
     unmatched_replies := (unmatched_replies st + 1)%Z;
     avg_inter_arrival := avg_inter_arrival st |}.

(** [analyze_packet], with [current_time = time.time()] passed in. *)
Definition analyze_packet (current_time : Q)
    (src_mac dst_mac src_ip dst_ip : string) (opcode : Z) (a : ARPAnalyzer)
    : ARPPacketInfo * ARPAnalyzer :=
  (* Calculate inter-arrival time *)
  let inter_arrival :=
    match last_packet_time a !! src_ip with
    | Some last => (current_time - last)%Q
    | None => 0%Q
    end in
  let last_packet_time' := <[src_ip := current_time]> (last_packet_time a) in
  let packet_info :=
    {| timestamp := current_time; src_mac := src_mac; dst_mac := dst_mac;
       src_ip := src_ip; dst_ip := dst_ip; opcode := opcode;
       is_gratuitous := _is_gratuitous_arp src_ip dst_ip opcode dst_mac;
       is_probe := _is_arp_probe src_ip opcode;
       inter_arrival_time := inter_arrival |} in
  let stats1 := _update_statistics packet_info opcode (stats a) in
  (* Store in history *)
  let history' :=
    <[src_ip := deque_append (max_history a)
                  (default [] (packet_history a !! src_ip)) packet_info]>
      (packet_history a) in
  (* Track requests for reply matching *)
  let '(pending', stats2) :=
    if (opcode =? 1)%Z
    then (<[(src_ip, dst_ip) := current_time]> (pending_requests a), stats1)
    else if (opcode =? 2)%Z
    then match pending_requests a !! (dst_ip, src_ip) with
         | None => (pending_requests a, bump_unmatched stats1)
         | Some _ => (delete (dst_ip, src_ip) (pending_requests a), stats1)
         end
    else (pending_requests a, stats1) in
  (packet_info,
   {| max_history := max_history a; timing_window := timing_window a;
      packet_history := history'; last_packet_time := last_packet_time';
      pending_requests := pending'; stats := stats2 |}).

(** [x ** 0.5], kept symbolic: the value is not a rational. *)
Inductive root := Sqrt (x : Q).

(** The dictionary returned by [get_timing_features]. *)
Record TimingFeatures := {
  min_inter_arrival : Q;
  max_inter_arrival : Q;
  avg_inter_arrival_f : Q;
  std_inter_arrival : root;
  packet_rate : Q
}.

Definition no_timing : TimingFeatures :=
  {| min_inter_arrival := 0; max_inter_arrival := 0; avg_inter_arrival_f := 0;
     std_inter_arrival := Sqrt 0; packet_rate := 0 |}.

(** [min(xs)] and [max(xs)] of a non-empty list, [sum(xs)]. *)
Definition list_min (x : Q) (xs : list Q) : Q :=
  fold_left (fun m y => if Py.Qltb y m then y else m) xs x.
Definition list_max (x : Q) (xs : list Q) : Q :=
  fold_left (fun m y => if Py.Qgtb y m then y else m) xs x.
Definition list_sum (xs : list Q) : Q := fold_left Qplus xs 0%Q.

Definition len {A} (l : list A) : Q := inject_Z (Z.of_nat (length l)).

(** [get_timing_features]. *)
Definition get_timing_features (src_ip : string) (a : ARPAnalyzer)
    : TimingFeatures :=
  match packet_history a !! src_ip with
  | None => no_timing
  | Some packets =>
      if (length packets <? 2)%nat then no_timing
      else
        let inter_arrivals :=
          filter (fun x => Py.Qgtb x 0 = true)
                 (map inter_arrival_time packets) in
        match inter_arrivals with
        | [] => no_timing
        | x :: xs =>
            let avg_iat := (list_sum inter_arrivals / len inter_arrivals)%Q in
            let variance :=
              (list_sum (map (fun y => (y - avg_iat) * (y - avg_iat))
                             inter_arrivals)
               / len inter_arrivals)%Q in
            let time_span :=
              match packets, last packets with
              | first :: _, Some final =>
                  (timestamp final - timestamp first)%Q
              | _, _ => 0%Q
              end in
            {| min_inter_arrival := list_min x xs;
               max_inter_arrival := list_max x xs;
               avg_inter_arrival_f := avg_iat;
               std_inter_arrival := Sqrt variance;
               packet_rate :=
                 if Py.Qgtb time_span 0 then (len packets / time_span)%Q
                 else 0 |}
        end
  end.

(** The entries of [result["anomalies"]]; the two that carry a number are
    rendered by [anomaly_text]. *)
Inductive anomaly :=
| Gratuitous
| Probe
| HighRate (rate : Q)
| Rapid (interval : Q)
| Unsolicited.

(** The dictionary returned by [detect_anomalies]. *)
Record Anomalies := {
  has_anomaly : bool;
  anomalies : list anomaly;
  severity : Q;
  features : TimingFeatures
}.

(** The state of [result] after the first four checks of
    [detect_anomalies] (gratuitous, probe, packet rate, inter-arrival). *)
Definition checks_before_reply (packet_info : ARPPacketInfo)
    (a : ARPAnalyzer) : list anomaly * Q :=
  let r := ([], 0%Q) in
  let r := if is_gratuitous packet_info
           then (r.1 ++ [Gratuitous], (r.2 + 0.4)%Q) else r in
  let r := if is_probe packet_info
           then (r.1 ++ [Probe], (r.2 + 0.1)%Q) else r in
  let timing_features := get_timing_features (src_ip packet_info) a in
  let r := if Py.Qgtb (packet_rate timing_features) 10
           then (r.1 ++ [HighRate (packet_rate timing_features)],
                 (r.2 + 0.3)%Q)
           else r in
  let r := if Py.Qgtb (inter_arrival_time packet_info) 0 &&
              Py.Qltb (inter_arrival_time packet_info) 0.1
           then (r.1 ++ [Rapid (inter_arrival_time packet_info)],
                 (r.2 + 0.2)%Q)
           else r in
  r.

(** [detect_anomalies]. *)
Definition detect_anomalies (packet_info : ARPPacketInfo) (a : ARPAnalyzer)
    : Anomalies :=
  let r := checks_before_reply packet_info a in
  (* Check for unsolicited replies *)
  let r :=
    if (opcode packet_info =? 2)%Z
    then match pending_requests a !! (dst_ip packet_info, src_ip packet_info) with
         | None => (r.1 ++ [Unsolicited], (r.2 + 0.5)%Q)
         | Some _ => r
         end
    else r in
  {| has_anomaly := (0 <? length r.1)%nat;
     anomalies := r.1;
     severity := Py.Qmin r.2 1;
     features := get_timing_features (src_ip packet_info) a |}.

Section Text.
(** [f"{x:.2f}"] and [f"{x:.1f}"]. *)
Variables (fmt_2f fmt_1f : Q -> string).

Definition anomaly_text (x : anomaly) : string :=
  match x with
  | Gratuitous => "Gratuitous ARP detected"
  | Probe => "ARP probe detected"
  | HighRate rate => "High packet rate: " +:+ fmt_2f rate +:+ " pkt/s"
  | Rapid interval =>
      "Rapid packets: " +:+ fmt_1f (interval * 1000)%Q +:+ "ms interval"
  | Unsolicited => "Unsolicited ARP reply (no matching request)"
  end.
End Text.

(** The dictionary returned by [get_statistics]: a copy of [self.stats]
    with four more entries. *)
Record Statistics := {
  s_stats : Stats;
  tracked_ips : nat;
  n_pending_requests : nat;
  gratuitous_percentage : Q;
  probe_percentage : Q
}.

(** [get_statistics]. *)
Definition get_statistics (a : ARPAnalyzer) : Statistics :=
  let total := inject_Z (Z.max (total_packets (stats a)) 1) in
  {| s_stats := stats a;
     tracked_ips := size (packet_history a);
     n_pending_requests := size (pending_requests a);
     gratuitous_percentage :=
       (inject_Z (gratuitous_count (stats a)) / total * 100)%Q;
     probe_percentage :=
       (inject_Z (probe_count (stats a)) / total * 100)%Q |}.

(** [cleanup_old_entries(max_age)], with [current_time = time.time()]
    passed in: the requests older than [max_age] seconds are deleted. *)
Definition cleanup_old_entries (current_time : Q) (max_age : Z)
    (a : ARPAnalyzer) : ARPAnalyzer :=
  {| max_history := max_history a; timing_window := timing_window a;
     packet_history := packet_history a;
     last_packet_time := last_packet_time a;
     pending_requests :=
       filter (fun entry =>
                 Py.Qgtb (current_time - entry.2) (inject_Z max_age) = false)
              (pending_requests a);
     stats := stats a |}.

End ARPAnalyzer.

(** ** core/packet_sniffer.py *)

Module Sniffer.
Import Scapy.

(** What [mac_checker.detect_anomalies] returns.  The vendor checker is not
    part of the embedding: its result for the frame is an input of the
    handler. *)
Record VendorAnomalies := {
  v_has_anomaly : bool;
  v_anomalies : list string;
  src_vendor : option string;
  dst_vendor : option string;
  v_confidence : Q
}.

(** [enhanced_details], and the keys that the branches add to it. *)
Record EnhancedDetails := {
  d_opcode : Z;
  d_is_gratuitous : bool;
  d_is_probe : bool;
  d_inter_arrival_time : Q;
  d_src_vendor : option string;
  d_dst_vendor : option string;
  arp_anomaly_severity : Q;
  vendor_anomaly_confidence : Q;
  d_arp_anomalies : option (list ARPAnalyzer.anomaly);
  d_vendor_anomalies : option (list string);
  ann_prob : option Q
}.

(** The reason handed to [alert_system.alert], before rendering. *)
Inductive alert_reason :=
| DfaReason (r : DFA.reason)
| ArpAnomalyReason (items : list ARPAnalyzer.anomaly)
| VendorAnomalyReason (items : list string)
| AnnReason (prob : Q).

(** One call [alert_system.alert(module, reason, ip=, mac=, details=)]. *)
Record AlertCall := {
  a_module : string;
  a_reason : alert_reason;
  a_ip : option string;
  a_mac : option string;
  a_dfa_details : DFA.details;
  a_details : EnhancedDetails
}.

(** [x or y] on optional strings: an empty string is falsy. *)
Definition py_or (x y : option string) : option string :=
  match x with
  | Some "" => y
  | Some s => Some s
  | None => y
  end.

(** [details.get("ip")], [details.get("new_mac")], [details.get("mac")]. *)
Definition get_ip (d : DFA.details) : option string :=
  match d with DFA.DConflict ip _ _ => Some ip | _ => None end.
Definition get_new_mac (d : DFA.details) : option string :=
  match d with DFA.DConflict _ _ new_mac => Some new_mac | _ => None end.
Definition get_mac (d : DFA.details) : option string :=
  match d with DFA.DFlood mac _ => Some mac | _ => None end.

(** The two module-level singletons and the filter the handler closes
    over. *)
Record State := {
  arp_analyzer : ARPAnalyzer.ARPAnalyzer;
  dfa : DFA.DFAFilter
}.

Definition new : State :=
  {| arp_analyzer := ARPAnalyzer.new; dfa := DFA.new |}.

(** [_handle_pkt] on a frame with an ARP layer.  [t_analyzer] and [t_dfa]
    are the clock readings of [analyze_packet] and [dfa.check]; [vendor] is
    the vendor checker's result and [ann] the classifier's [(label, prob)],
    [None] when the call raises (the handler's [except] then prints the
    error and returns).  The result is the alert raised, if any. *)
Definition _handle_pkt (t_analyzer t_dfa : Q) (pkt : ARP)
    (vendor : option VendorAnomalies) (ann : option (Z * Q)) (st : State)
    : option AlertCall * State :=
  let src_ip := psrc pkt in
  let dst_ip := pdst pkt in
  let src_mac := hwsrc pkt in
  let dst_mac := hwdst pkt in
  let opcode := op pkt in
  (* Analyze ARP packet for advanced features *)
  let '(packet_info, analyzer') :=
    ARPAnalyzer.analyze_packet t_analyzer src_mac dst_mac src_ip dst_ip opcode
      (arp_analyzer st) in
  (* Check for ARP anomalies *)
  let arp_anomalies := ARPAnalyzer.detect_anomalies packet_info analyzer' in
  match vendor with
  | None => (None, {| arp_analyzer := analyzer'; dfa := dfa st |})
  | Some vendor_anomalies =>
      let enhanced_details :=
        {| d_opcode := opcode;
           d_is_gratuitous := ARPAnalyzer.is_gratuitous packet_info;
           d_is_probe := ARPAnalyzer.is_probe packet_info;
           d_inter_arrival_time := ARPAnalyzer.inter_arrival_time packet_info;
           d_src_vendor := src_vendor vendor_anomalies;
           d_dst_vendor := dst_vendor vendor_anomalies;
           arp_anomaly_severity := ARPAnalyzer.severity arp_anomalies;
           vendor_anomaly_confidence := v_confidence vendor_anomalies;
           d_arp_anomalies := None; d_vendor_anomalies := None;
           ann_prob := None |} in
      let with_extra arp_items vendor_items prob :=
        {| d_opcode := d_opcode enhanced_details;
           d_is_gratuitous := d_is_gratuitous enhanced_details;
           d_is_probe := d_is_probe enhanced_details;
           d_inter_arrival_time := d_inter_arrival_time enhanced_details;
           d_src_vendor := d_src_vendor enhanced_details;
           d_dst_vendor := d_dst_vendor enhanced_details;
           arp_anomaly_severity := arp_anomaly_severity enhanced_details;
           vendor_anomaly_confidence :=
             vendor_anomaly_confidence enhanced_details;
           d_arp_anomalies := arp_items; d_vendor_anomalies := vendor_items;
           ann_prob := prob |} in
      (* DFA check (primary detection) *)
      let '((is_bad, reason, details), dfa') := DFA.check t_dfa pkt (dfa st) in
      let st' := {| arp_analyzer := analyzer'; dfa := dfa' |} in
      if is_bad then
        (Some {| a_module := "DFA"; a_reason := DfaReason reason;
                 a_ip := get_ip details;
                 a_mac := py_or (get_new_mac details) (get_mac details);
                 a_dfa_details := details;
                 a_details := enhanced_details |}, st')
      (* Check for high-severity ARP anomalies *)
      else if ARPAnalyzer.has_anomaly arp_anomalies &&
              Py.Qgtb (ARPAnalyzer.severity arp_anomalies) 0.5 then
        (Some {| a_module := "ARP_ANOMALY";
                 a_reason :=
                   ArpAnomalyReason (ARPAnalyzer.anomalies arp_anomalies);
                 a_ip := Some src_ip; a_mac := Some src_mac;
                 a_dfa_details := DFA.DEmpty;
                 a_details :=
                   with_extra (Some (ARPAnalyzer.anomalies arp_anomalies))
                              None None |}, st')
      (* Check for vendor anomalies *)
      else if v_has_anomaly vendor_anomalies &&
              Py.Qgtb (v_confidence vendor_anomalies) 0.4 then
        (Some {| a_module := "VENDOR_ANOMALY";
                 a_reason := VendorAnomalyReason (v_anomalies vendor_anomalies);
                 a_ip := Some src_ip; a_mac := Some src_mac;
                 a_dfa_details := DFA.DEmpty;
                 a_details :=
                   with_extra None (Some (v_anomalies vendor_anomalies))
                              None |}, st')
      else
        (* Pass to ANN (secondary detection) *)
        match ann with
        | Some (predicted, prob) =>
            if (predicted =? 1)%Z then
              (Some {| a_module := "ANN"; a_reason := AnnReason prob;
                       a_ip := Some src_ip; a_mac := Some src_mac;
                       a_dfa_details := DFA.DEmpty;
                       a_details := with_extra None None (Some prob) |}, st')
            else (None, st')
        | None => (None, st')
        end
  end.

Section Text.
Variables (str_float fmt_2f fmt_1f fmt_4f : Q -> string).

(** The [reason] argument of the call. *)
Definition reason_text (r : alert_reason) : string :=
  match r with
  | DfaReason r => DFA.reason_text str_float r
  | ArpAnomalyReason items =>
      "ARP anomaly: " +:+
      Py.join ", " (map (ARPAnalyzer.anomaly_text fmt_2f fmt_1f) items)
  | VendorAnomalyReason items =>
      "MAC vendor anomaly: " +:+ Py.join ", " items
  | AnnReason prob => "Model predicted spoof (prob=" +:+ fmt_4f prob +:+ ")"
  end.
End Text.

End Sniffer.

(** ** core/mac_vendor.py *)

Module MACVendor.
Import Sniffer.

(** [MACVendorChecker.OUI_DATABASE], in the order of the source. *)
Definition OUI_DATABASE : gmap string string :=
  Py.dict_of
    [("00:00:0C", "Cisco"); ("00:01:42", "Cisco"); ("00:01:43", "Cisco");
     ("00:01:63", "Cisco"); ("00:01:64", "Cisco"); ("00:01:96", "Cisco");
     ("00:01:97", "Cisco"); ("00:01:C7", "Cisco"); ("00:02:16", "Cisco");
     ("00:02:17", "Cisco"); ("00:02:3D", "Cisco"); ("00:02:4A", "Cisco");
     ("00:02:4B", "Cisco"); ("00:02:B9", "Cisco"); ("00:02:BA", "Cisco");
     ("00:02:FC", "Cisco"); ("00:02:FD", "Cisco"); ("00:03:31", "Cisco");
     ("00:03:32", "Cisco"); ("00:03:6B", "Cisco"); ("00:03:6C", "Cisco");
     ("00:03:9F", "Cisco"); ("00:03:A0", "Cisco"); ("00:03:E3", "Cisco");
     ("00:03:E4", "Cisco"); ("00:03:FD", "Cisco"); ("00:03:FE", "Cisco");
     ("00:00:0D", "HP"); ("00:01:E6", "HP"); ("00:01:E7", "HP");
     ("00:02:A5", "HP"); ("00:04:EA", "HP"); ("00:08:02", "HP");
     ("00:08:83", "HP"); ("00:0B:CD", "HP"); ("00:0E:7F", "HP");
     ("00:0F:20", "HP"); ("00:10:83", "HP"); ("00:11:0A", "HP");
     ("00:12:79", "HP"); ("00:13:21", "HP"); ("00:14:38", "HP");
     ("00:14:C2", "HP"); ("00:15:60", "HP"); ("00:16:35", "HP");
     ("00:17:08", "HP"); ("00:17:A4", "HP"); ("00:18:FE", "HP");
     ("00:19:BB", "HP"); ("00:1A:4B", "HP"); ("00:1B:3F", "HP");
     ("00:1C:2E", "HP"); ("00:1E:0B", "HP"); ("00:1F:29", "HP");
     ("00:21:5A", "HP"); ("00:22:64", "HP"); ("00:23:7D", "HP");
     ("00:24:81", "HP"); ("00:25:B3", "HP"); ("00:26:55", "HP");
     ("00:06:5B", "Dell"); ("00:08:74", "Dell"); ("00:0B:DB", "Dell");
     ("00:0D:56", "Dell"); ("00:0F:1F", "Dell"); ("00:11:43", "Dell");
     ("00:12:3F", "Dell"); ("00:13:72", "Dell"); ("00:14:22", "Dell");
     ("00:15:C5", "Dell"); ("00:16:F0", "Dell"); ("00:18:8B", "Dell");
     ("00:19:B9", "Dell"); ("00:1A:A0", "Dell"); ("00:1C:23", "Dell");
     ("00:1D:09", "Dell"); ("00:1E:4F", "Dell"); ("00:21:70", "Dell");
     ("00:21:9B", "Dell"); ("00:22:19", "Dell"); ("00:23:AE", "Dell");
     ("00:24:E8", "Dell"); ("00:25:64", "Dell"); ("00:26:B9", "Dell");
     ("00:02:B3", "Intel"); ("00:03:47", "Intel"); ("00:04:23", "Intel");
     ("00:07:E9", "Intel"); ("00:0C:F1", "Intel"); ("00:0E:0C", "Intel");
     ("00:11:11", "Intel"); ("00:12:F0", "Intel"); ("00:13:02", "Intel");
     ("00:13:20", "Intel"); ("00:13:CE", "Intel"); ("00:13:E8", "Intel");
     ("00:15:00", "Intel"); ("00:15:17", "Intel"); ("00:16:6F", "Intel");
     ("00:16:76", "Intel"); ("00:16:EA", "Intel"); ("00:16:EB", "Intel");
     ("00:18:DE", "Intel"); ("00:19:D1", "Intel"); ("00:19:D2", "Intel");
     ("00:1B:21", "Intel"); ("00:1B:77", "Intel"); ("00:1C:BF", "Intel");
     ("00:1D:E0", "Intel"); ("00:1D:E1", "Intel"); ("00:1E:64", "Intel");
     ("00:1E:65", "Intel"); ("00:1E:67", "Intel"); ("00:1F:3A", "Intel");
     ("00:1F:3B", "Intel"); ("00:1F:3C", "Intel"); ("00:10:18", "Broadcom");
     ("00:14:A4", "Broadcom"); ("00:17:42", "Broadcom"); ("00:19:A6", "Broadcom");
     ("00:1C:C0", "Broadcom"); ("00:1E:8C", "Broadcom"); ("00:21:91", "Broadcom");
     ("00:23:CD", "Broadcom"); ("00:25:9C", "Broadcom"); ("00:E0:4C", "Realtek");
     ("52:54:00", "Realtek"); ("00:01:6C", "Realtek"); ("00:0B:6A", "Realtek");
     ("00:0C:76", "Realtek"); ("00:0E:2E", "Realtek"); ("00:11:D8", "Realtek");
     ("00:13:46", "Realtek"); ("00:15:E9", "Realtek"); ("00:19:21", "Realtek");
     ("00:1C:4A", "Realtek"); ("00:1D:60", "Realtek"); ("00:1F:1F", "Realtek");
     ("00:21:27", "Realtek"); ("00:24:1D", "Realtek"); ("00:03:93", "Apple");
     ("00:0A:27", "Apple"); ("00:0A:95", "Apple"); ("00:0D:93", "Apple");
     ("00:10:FA", "Apple"); ("00:11:24", "Apple"); ("00:14:51", "Apple");
     ("00:16:CB", "Apple"); ("00:17:F2", "Apple"); ("00:19:E3", "Apple");
     ("00:1B:63", "Apple"); ("00:1C:B3", "Apple"); ("00:1D:4F", "Apple");
     ("00:1E:52", "Apple"); ("00:1E:C2", "Apple"); ("00:1F:5B", "Apple");
     ("00:1F:F3", "Apple"); ("00:21:E9", "Apple"); ("00:22:41", "Apple");
     ("00:23:12", "Apple"); ("00:23:32", "Apple"); ("00:23:6C", "Apple");
     ("00:23:DF", "Apple"); ("00:24:36", "Apple"); ("00:25:00", "Apple");
     ("00:25:4B", "Apple"); ("00:25:BC", "Apple"); ("00:26:08", "Apple");
     ("00:26:4A", "Apple"); ("00:26:B0", "Apple"); ("00:26:BB", "Apple");
     ("00:0C:29", "VMware"); ("00:05:69", "VMware"); ("00:1C:14", "VMware");
     ("00:50:56", "VMware"); ("08:00:27", "VirtualBox"); ("00:03:FF", "Microsoft");
     ("00:0D:3A", "Microsoft"); ("00:12:5A", "Microsoft"); ("00:15:5D", "Microsoft");
     ("00:17:FA", "Microsoft"); ("00:1D:D8", "Microsoft"); ("00:22:48", "Microsoft");
     ("00:25:AE", "Microsoft"); ("00:05:5D", "D-Link"); ("00:0D:88", "D-Link");
     ("00:11:95", "D-Link"); ("00:13:46", "D-Link"); ("00:15:E9", "D-Link");
     ("00:17:9A", "D-Link"); ("00:19:5B", "D-Link"); ("00:1B:11", "D-Link");
     ("00:1C:F0", "D-Link"); ("00:1E:58", "D-Link"); ("00:21:91", "D-Link");
     ("00:22:B0", "D-Link"); ("00:24:01", "D-Link"); ("00:26:5A", "D-Link");
     ("00:27:19", "TP-Link"); ("10:FE:ED", "TP-Link"); ("14:CF:92", "TP-Link");
     ("18:D6:C7", "TP-Link"); ("1C:3B:F3", "TP-Link"); ("24:A4:3C", "TP-Link");
     ("50:C7:BF", "TP-Link"); ("54:A0:50", "TP-Link"); ("64:66:B3", "TP-Link");
     ("84:16:F9", "TP-Link"); ("90:F6:52", "TP-Link"); ("C0:25:E9", "TP-Link");
     ("E8:DE:27", "TP-Link"); ("F4:F2:6D", "TP-Link"); ("F8:1A:67", "TP-Link")].

(** [MACVendorChecker]: [self.cache] maps a MAC, as it was passed, to the
    vendor found for it ([None] for an OUI that is not in the table). *)
Record MACVendorChecker := {
  cache : gmap string (option string)
}.

Definition new : MACVendorChecker := {| cache := ∅ |}.

(** [normalize_mac]. *)
Definition normalize_mac (mac : string) : string :=
  (* Remove common separators *)
  let mac_clean :=
    Py.upper (Py.remove_char "." (Py.remove_char "-" (Py.remove_char ":" mac))) in
  (* Add colons every 2 characters *)
  if (String.length mac_clean =? 12)%nat
  then Py.join ":"
         (map (fun i => String.substring i 2 mac_clean) [0; 2; 4; 6; 8; 10]%nat)
  else mac.

(** [get_oui]. *)
Definition get_oui (mac : string) : string :=
  let normalized := normalize_mac mac in
  let parts := Py.split_char ":" normalized in
  if (3 <=? length parts)%nat then Py.upper (Py.join ":" (take 3 parts))
  else "".

(** [lookup_vendor]. *)
Definition lookup_vendor (mac : string) (c : MACVendorChecker)
    : option string * MACVendorChecker :=
  (* Check cache first *)
  match cache c !! mac with
  | Some vendor => (vendor, c)
  | None =>
      let oui := get_oui mac in
      if bool_decide (oui = "") then (None, c)
      else
        let vendor := OUI_DATABASE !! oui in
        (* Cache result *)
        (vendor, {| cache := <[mac := vendor]> (cache c) |})
  end.

(** [check_consistency]; [expected_vendor] is a string or [None]. *)
Definition check_consistency (mac : string) (expected_vendor : option string)
    (c : MACVendorChecker) : (bool * string) * MACVendorChecker :=
  let '(vendor, c) := lookup_vendor mac c in
  match vendor with
  | None =>
      ((false, "Unknown vendor for MAC " +:+ mac +:+ " (OUI: " +:+
               get_oui mac +:+ ")"), c)
  | Some vendor =>
      match expected_vendor with
      | Some (String _ _ as expected) =>
          if bool_decide (Py.lower vendor ≠ Py.lower expected)
          then ((false, "Vendor mismatch for MAC " +:+ mac +:+ ": expected " +:+
                        expected +:+ ", got " +:+ vendor), c)
          else ((true, "MAC " +:+ mac +:+ " vendor: " +:+ vendor), c)
      | _ => ((true, "MAC " +:+ mac +:+ " vendor: " +:+ vendor), c)
      end
  end.

(** [is_known_vendor]. *)
Definition is_known_vendor (mac : string) (c : MACVendorChecker)
    : bool * MACVendorChecker :=
  let '(vendor, c) := lookup_vendor mac c in
  (match vendor with Some _ => true | None => false end, c).

Section Detect.
(** Python's [int(s, 16)]: the value, or [None] for [ValueError]. *)
Variable py_int16 : string -> option Z.

(** [src_mac.startswith("FF:FF") or src_mac.startswith("01:00")]. *)
Definition is_broadcast_or_multicast (src_mac : string) : bool :=
  String.prefix "FF:FF" src_mac || String.prefix "01:00" src_mac.

(** [src_mac.split(":")[0]]. *)
Definition first_group (src_mac : string) : string :=
  match Py.split_char ":" src_mac with
  | piece :: _ => piece
  | [] => ""
  end.

(** [detect_anomalies]: the result dictionary, or [None] when
    [int(..., 16)] raises; the lookups made before that stay in the
    cache. *)
Definition detect_anomalies (src_mac dst_mac src_ip dst_ip : string)
    (c : MACVendorChecker) : option VendorAnomalies * MACVendorChecker :=
  (* Lookup vendors *)
  let '(src_vendor, c) := lookup_vendor src_mac c in
  let '(dst_vendor, c) := lookup_vendor dst_mac c in
  let r : list string * Q := ([], 0%Q) in
  (* Check for unknown vendors (potential spoofing) *)
  let r :=
    match src_vendor with
    | None => (r.1 ++ ["Unknown source MAC vendor (OUI: " +:+
                       get_oui src_mac +:+ ")"], (r.2 + 0.3)%Q)
    | Some _ => r
    end in
  let r :=
    match dst_vendor with
    | None => (r.1 ++ ["Unknown destination MAC vendor (OUI: " +:+
                       get_oui dst_mac +:+ ")"], (r.2 + 0.1)%Q)
    | Some _ => r
    end in
  (* Check for broadcast/multicast anomalies *)
  let r :=
    if is_broadcast_or_multicast src_mac
    then (r.1 ++ ["Source MAC is broadcast/multicast (spoofing indicator)"],
          (r.2 + 0.4)%Q)
    else r in
  (* Check for locally administered addresses (bit 1 of first octet) *)
  match py_int16 (first_group src_mac) with
  | None => (None, c)
  | Some first_octet =>
      let r :=
        if bool_decide (Z.land first_octet 2 ≠ 0%Z)
        then (r.1 ++ ["Source MAC is locally administered (potential spoofing)"],
              (r.2 + 0.2)%Q)
        else r in
      (Some {| v_has_anomaly := (0 <? length r.1)%nat;
               v_anomalies := r.1;
               src_vendor := src_vendor;
               dst_vendor := dst_vendor;
               v_confidence := Py.Qmin r.2 1 |}, c)
  end.

End Detect.

End MACVendor.

(** ** core/packet_sniffer.py: the handler with its detectors *)

Module PacketSniffer.
Import Scapy Sniffer.

(** What [handler(pkt)] works on: the filter it closes over and the
    analyzer singleton ([Sniffer.State]), and the vendor checker
    singleton. *)
Record State := {
  detectors : Sniffer.State;
  mac_checker : MACVendor.MACVendorChecker
}.

Definition new : State :=
  {| detectors := Sniffer.new; mac_checker := MACVendor.new |}.

Section Handler.
Variable py_int16 : string -> option Z.

(** [handler(pkt)] of [_build_sniffer_args]: [_handle_pkt] with the vendor
    checker's result computed from the frame.  The vendor check reads no
    state of the other detectors, so it is evaluated first here. *)
Definition handler (t_analyzer t_dfa : Q) (pkt : ARP) (ann : option (Z * Q))
    (st : State) : option AlertCall * State :=
  let '(vendor, checker) :=
    MACVendor.detect_anomalies py_int16 (hwsrc pkt) (hwdst pkt)
      (psrc pkt) (pdst pkt) (mac_checker st) in
  let '(alert, s) :=
    Sniffer._handle_pkt t_analyzer t_dfa pkt vendor ann (detectors st) in
  (alert, {| detectors := s; mac_checker := checker |}).

End Handler.

End PacketSniffer.

(** ** core/websocket_manager.py *)

Module WebSocketManager.

(** A connected client, named by a number. *)
Definition WebSocket := nat.

(** What [await connection.send_text(message)] does: it completes, it
    raises, or it stays suspended (the client does not take the data). *)
Inductive send_outcome := Sent | Raises | Suspended.

Record ConnectionManager := {
  active_connections : list WebSocket
}.

(** The module-level [manager = ConnectionManager()]. *)
Definition new : ConnectionManager := {| active_connections := [] |}.

(** [connect], after [websocket.accept()]. *)
Definition connect (websocket : WebSocket) (m : ConnectionManager)
    : ConnectionManager :=
  {| active_connections := active_connections m ++ [websocket] |}.

(** [list.remove(x)]: removes the first occurrence. *)
Fixpoint list_remove (x : WebSocket) (l : list WebSocket) : list WebSocket :=
  match l with
  | [] => []
  | y :: rest => if bool_decide (x = y) then rest else y :: list_remove x rest
  end.

(** [disconnect]. *)
Definition disconnect (websocket : WebSocket) (m : ConnectionManager)
    : ConnectionManager :=
  if bool_decide (websocket ∈ active_connections m)
  then {| active_connections := list_remove websocket (active_connections m) |}
  else m.

Section Broadcast.
(** The message type ([str] in the source) is left open. *)
Context {M : Type}.
(** The behaviour of the clients. *)
Variable send_text : WebSocket -> M -> send_outcome.

(** The loop of [broadcast] over the copy of the connection list: the
    clients that received the message, the clients whose send raised, and
    whether the loop ran to its end. *)
Fixpoint send_loop (conns : list WebSocket) (message : M)
    : list WebSocket * list WebSocket * bool :=
  match conns with
  | [] => ([], [], true)
  | connection :: rest =>
      match send_text connection message with
      | Sent =>
          let '(got, disconnected, done) := send_loop rest message in
          (connection :: got, disconnected, done)
      | Raises =>
          let '(got, disconnected, done) := send_loop rest message in
          (got, connection :: disconnected, done)
      | Suspended => ([], [], false)
      end
  end.

(** How a call of [broadcast] ends: it returns with the manager updated, or
    it is still suspended in a send.  Both carry the clients that received
    the message. *)
Inductive broadcast_result :=
| Returned (m : ConnectionManager) (delivered : list WebSocket)
| Waiting (delivered : list WebSocket).

(** [broadcast]. *)
Definition broadcast (message : M) (m : ConnectionManager)
    : broadcast_result :=
  match active_connections m with
  | [] => Returned m []
  | _ =>
      let '(got, disconnected, done) :=
        send_loop (active_connections m) message in
      if done
      then Returned (fold_left (fun m conn => disconnect conn m)
                               disconnected m) got
      else Waiting got
  end.
End Broadcast.

(** [get_connection_count]. *)
Definition get_connection_count (m : ConnectionManager) : nat :=
  length (active_connections m).

End WebSocketManager.

(** ** core/alert_system.py *)

Module AlertSystem.
Import WebSocketManager.

(** A row of the [alerts] table.  [timestamp] is the column's
    [datetime]; the learner reads its hour and weekday. *)
Record DateTime := { hour : Z; weekday : Z; isoformat : string }.

Record Alert := {
  id : Z;
  timestamp : option DateTime;
  module : string;
  reason : string;
  src_ip : option string;
  src_mac : option string
}.

(** The event that [generate_alert] broadcasts:
    [{"type": "new_alert", "data": alert_data}]. *)
Inductive event := NewAlert (data : Alert).

(** The table and the connection manager. *)
Record State := {
  alerts : list Alert;
  next_id : Z;
  manager : ConnectionManager
}.

Definition new : State :=
  {| alerts := []; next_id := 1; manager := WebSocketManager.new |}.

(** How a call of [generate_alert] ends. *)
Inductive generate_result :=
| Done (s : State) (delivered : list WebSocket)
| Blocked (s : State) (delivered : list WebSocket).

(** [generate_alert]: insert the row, commit, then run the broadcast to its
    end ([asyncio.run]) before returning.  [now] is the database's
    [func.now()]; [commit_ok] tells whether the insert succeeds (on an
    error the row is rolled back and nothing is broadcast). *)
Definition generate_alert (send_text : WebSocket -> event -> send_outcome)
    (now : DateTime) (commit_ok : bool)
    (module reason : string) (src_ip src_mac : option string) (s : State)
    : generate_result :=
  if commit_ok then
    let alert := {| id := next_id s; timestamp := Some now; module := module;
                    reason := reason; src_ip := src_ip; src_mac := src_mac |} in
    let stored := alerts s ++ [alert] in
    match broadcast send_text (NewAlert alert) (manager s) with
    | Returned m got =>
        Done {| alerts := stored; next_id := (next_id s + 1)%Z;
                manager := m |} got
    | Waiting got =>
        Blocked {| alerts := stored; next_id := (next_id s + 1)%Z;
                   manager := manager s |} got
    end
  else Done s [].

End AlertSystem.

(** ** core/multi_interface.py *)

Module MultiInterface.

Record InterfaceStats := {
  interface_name : string;
  packets_captured : Z;
  packets_processed_i : Z;
  packets_dropped : Z;
  bytes_captured : Z;
  errors_i : Z;
  last_packet_time : Q;
  is_active_i : bool
}.

Record WorkerStats := {
  worker_id : nat;
  packets_processed : Z;
  processing_time : Q;
  errors : Z;
  interfaces_w : list string;
  is_active : bool
}.

(** [WorkerStats.load]. *)
Definition load (w : WorkerStats) : Z := packets_processed w.

(** [InterfaceManager.interfaces]. *)
Record InterfaceManager := {
  interfaces : gmap string InterfaceStats
}.

(** [InterfaceManager.update_stats], with [time.time()] passed in. *)
Definition update_stats (now : Q) (name : string)
    (packets bytes_count dropped errs : Z) (im : InterfaceManager)
    : InterfaceManager :=
  match interfaces im !! name with
  | Some stats =>
      {| interfaces :=
           <[name :=
              {| interface_name := interface_name stats;
                 packets_captured := (packets_captured stats + packets)%Z;
                 packets_processed_i := packets_processed_i stats;
                 packets_dropped := (packets_dropped stats + dropped)%Z;
                 bytes_captured := (bytes_captured stats + bytes_count)%Z;
                 errors_i := (errors_i stats + errs)%Z;
                 last_packet_time :=
                   if (packets >? 0)%Z then now else last_packet_time stats;
                 is_active_i := is_active_i stats |}]> (interfaces im) |}
  | None => im
  end.

Section Balancer.
(** The packet type. *)
Context {P : Type}.

(** [LoadBalancer]: a [queue.Queue(maxsize=1000)] per worker is a list with
    its bound. *)
Record LoadBalancer := {
  num_workers : nat;
  strategy : string;
  maxsize : nat;
  worker_queues : list (list (P * string));
  worker_stats : list WorkerStats;
  rr_counter : Z;
  interface_affinity : gmap string nat
}.

(** What a call can do besides returning a value. *)
Inductive outcome (A : Type) :=
| Value (a : A)
| Error (exn : string)
| Deadlock.
Arguments Value {A} a.
Arguments Error {A} exn.
Arguments Deadlock {A}.

(** [_get_least_loaded_worker]: the first active worker of minimal load,
    worker 0 when none is active. *)
Definition _get_least_loaded_worker (lb : LoadBalancer) : nat :=
  (fold_left
     (fun '(best, i) stats =>
        let '(min_load, worker) := best in
        if is_active stats &&
           match min_load with
           | None => true
           | Some m => (load stats <? m)%Z
           end
        then ((Some (load stats), i), S i)
        else (best, S i))
     (worker_stats lb) ((None, 0%nat), 0%nat)).1.2.

(** [_get_round_robin_worker]; the modulo raises when there is no
    worker. *)
Definition _get_round_robin_worker (lb : LoadBalancer)
    : outcome nat * LoadBalancer :=
  match num_workers lb with
  | O => (Error "ZeroDivisionError", lb)
  | _ =>
      (Value (Z.to_nat (rr_counter lb mod Z.of_nat (num_workers lb))),
       {| num_workers := num_workers lb; strategy := strategy lb;
          maxsize := maxsize lb; worker_queues := worker_queues lb;
          worker_stats := worker_stats lb;
          rr_counter := (rr_counter lb + 1)%Z;
          interface_affinity := interface_affinity lb |})
  end.

(** [_get_affinity_worker].  For an interface without a pinned worker the
    method calls [_get_least_loaded_worker] while it holds [self.lock]; the
    callee takes the same lock, a [threading.Lock], which is not
    re-entrant: the call never returns. *)
Definition _get_affinity_worker (interface : string) (lb : LoadBalancer)
    : outcome nat :=
  match interface_affinity lb !! interface with
  | None => Deadlock
  | Some w => Value w
  end.

(** [Queue.put_nowait]: [None] stands for [queue.Full]. *)
Definition put_nowait (bound : nat) (q : list (P * string))
    (item : P * string) : option (list (P * string)) :=
  if (0 <? bound)%nat && (bound <=? length q)%nat then None
  else Some (q ++ [item]).

(** [assign_packet]. *)
Definition assign_packet (packet : P) (interface : string)
    (lb : LoadBalancer) : outcome bool * LoadBalancer :=
  (* Select worker based on strategy *)
  let '(chosen, lb1) :=
    if bool_decide (strategy lb = "round-robin")
    then _get_round_robin_worker lb
    else if bool_decide (strategy lb = "least-loaded")
    then (Value (_get_least_loaded_worker lb), lb)
    else if bool_decide (strategy lb = "affinity")
    then (_get_affinity_worker interface lb, lb)
    else (Value 0%nat, lb) in
  match chosen with
  | Value w =>
      (* Add to worker queue *)
      match worker_queues lb1 !! w with
      | None => (Error "IndexError", lb1)
      | Some q =>
          match put_nowait (maxsize lb1) q (packet, interface) with
          | Some q' =>
              (Value true,
               {| num_workers := num_workers lb1; strategy := strategy lb1;
                  maxsize := maxsize lb1;
                  worker_queues := <[w := q']> (worker_queues lb1);
                  worker_stats := worker_stats lb1;
                  rr_counter := rr_counter lb1;
                  interface_affinity := interface_affinity lb1 |})
          | None => (Value false, lb1)
          end
      end
  | Error e => (Error e, lb1)
  | Deadlock => (Deadlock, lb1)
  end.

(** The worker that [assign_packet] selects, when the selection
    returns. *)
Definition chosen_worker (interface : string) (lb : LoadBalancer)
    : outcome nat :=
  if bool_decide (strategy lb = "round-robin")
  then (_get_round_robin_worker lb).1
  else if bool_decide (strategy lb = "least-loaded")
  then Value (_get_least_loaded_worker lb)
  else if bool_decide (strategy lb = "affinity")
  then _get_affinity_worker interface lb
  else Value 0%nat.

(** [MultiInterfaceSniffer]: the interface manager and the balancer. *)
Record MultiInterfaceSniffer := {
  interface_manager : InterfaceManager;
  load_balancer : LoadBalancer
}.

(** The per-interface [handler(pkt)] that [MultiInterfaceSniffer.start]
    installs: assign to a worker, then update the interface statistics. *)
Definition handler (now : Q) (iface_name : string) (pkt : P)
    (s : MultiInterfaceSniffer) : outcome unit * MultiInterfaceSniffer :=
  let '(r, lb') := assign_packet pkt iface_name (load_balancer s) in
  match r with
  | Value _ =>
      (Value tt,
       {| interface_manager :=
            update_stats now iface_name 1 0 0 0 (interface_manager s);
          load_balancer := lb' |})
  | Error e =>
      (Error e, {| interface_manager := interface_manager s;
                   load_balancer := lb' |})
  | Deadlock =>
      (Deadlock, {| interface_manager := interface_manager s;
                    load_balancer := lb' |})
  end.

End Balancer.

Arguments LoadBalancer : clear implicits.
Arguments MultiInterfaceSniffer : clear implicits.
Arguments Value {A} a.
Arguments Error {A} exn.
Arguments Deadlock {A}.

(** [LoadBalancer(num_workers, strategy)]. *)
Definition new_balancer (P : Type) (n : nat) (strat : string)
    : LoadBalancer P :=
  {| num_workers := n; strategy := strat; maxsize := 1000;
     worker_queues := replicate n [];
     worker_stats :=
       map (fun i => {| worker_id := i; packets_processed := 0;
                        processing_time := 0; errors := 0;
                        interfaces_w := []; is_active := true |}) (seq 0 n);
     rr_counter := 0; interface_affinity := ∅ |}.

(** [InterfaceStats(interface_name=name)]: the counters start at zero. *)
Definition fresh_stats (name : string) : InterfaceStats :=
  {| interface_name := name; packets_captured := 0; packets_processed_i := 0;
     packets_dropped := 0; bytes_captured := 0; errors_i := 0;
     last_packet_time := 0; is_active_i := true |}.

(** [InterfaceManager.add_interface]. *)
Definition add_interface (name : string) (im : InterfaceManager)
    : bool * InterfaceManager :=
  match interfaces im !! name with
  | Some _ => (false, im)
  | None => (true, {| interfaces := <[name := fresh_stats name]> (interfaces im) |})
  end.

(** [InterfaceManager.remove_interface], on the statistics; the [sniffers]
    dictionary holds scapy objects and is not part of the embedding. *)
Definition remove_interface (name : string) (im : InterfaceManager)
    : bool * InterfaceManager :=
  match interfaces im !! name with
  | None => (false, im)
  | Some _ => (true, {| interfaces := delete name (interfaces im) |})
  end.

(** [threading.Lock], as the calling thread finds it: free, or held by a
    call further up its own stack. *)
Inductive lock := Free | Held.

(** [with self.lock: body].  The lock is not re-entrant: a thread that
    acquires it while it holds it itself waits for good.  The body runs
    with the lock held, and the lock is released when the body is left. *)
Definition with_lock {A} (l : lock) (body : lock -> outcome A) : outcome A :=
  match l with
  | Free => body Held
  | Held => Deadlock
  end.

#[local] Set Warnings "-register-all".

(** What [get_stats] returns: the dictionary of one interface (its
    clock-derived entries [packet_rate] and [uptime] are not modelled), or
    a dictionary by name, [Dict []] being [{}]. *)
Inductive stats_dict :=
| StatsOf (stats : InterfaceStats)
| Dict (entries : list (string * stats_dict)).

(** [{name: call(name) for name in names}]: the calls are made in turn,
    and the first one that does not return ends the comprehension. *)
Fixpoint comprehension {A} (calls : list (string * outcome A))
    : outcome (list (string * A)) :=
  match calls with
  | [] => Value []
  | (name, Value a) :: rest =>
      match comprehension rest with
      | Value entries => Value ((name, a) :: entries)
      | Error e => Error e
      | Deadlock => Deadlock
      end
  | (_, Error e) :: _ => Error e
  | (_, Deadlock) :: _ => Deadlock
  end.

(** [InterfaceManager.get_stats].  [l] is the state of [self.lock] when the
    call is made, and [depth] the number of frames left on the interpreter
    stack (beyond it a call raises [RecursionError]).  The keys are taken
    in the order of the map. *)
Fixpoint get_stats (depth : nat) (l : lock) (interface_name : option string)
    (im : InterfaceManager) : outcome stats_dict :=
  match depth with
  | O => Error "RecursionError"
  | S depth =>
      with_lock l (fun held =>
        match interface_name with
        | Some (String _ _ as name) =>
            match interfaces im !! name with
            | Some stats => Value (StatsOf stats)
            | None => Value (Dict [])
            end
        | _ =>
            (* Return stats for all interfaces *)
            match comprehension
                    (map (fun name =>
                            (name, get_stats depth held (Some name) im))
                         (map fst (map_to_list (interfaces im)))) with
            | Value entries => Value (Dict entries)
            | Error e => Error e
            | Deadlock => Deadlock
            end
        end)
  end.

(** The parameters of [update_stats] after [interface_name], with their
    defaults. *)
Definition update_stats_params : list (string * Z) :=
  [("packets", 0%Z); ("bytes_count", 0%Z); ("dropped", 0%Z); ("errors", 0%Z)].

(** A call of [update_stats] with [interface_name] and keyword
    arguments. *)
Definition call_update_stats (now : Q) (interface_name : string)
    (kwargs : list (string * Z)) (im : InterfaceManager)
    : outcome InterfaceManager :=
  match Py.bind_keywords update_stats_params kwargs with
  | None => Error "TypeError"
  | Some args =>
      Value (update_stats now interface_name
               (Py.arg 0%Z "packets" args) (Py.arg 0%Z "bytes_count" args)
               (Py.arg 0%Z "dropped" args) (Py.arg 0%Z "errors" args) im)
  end.

(** [process_packet] of [MultiInterfaceSniffer.start], the function the
    workers run; [handled] tells whether [self.packet_handler] returned or
    raised an [Exception]. *)
Definition process_packet (now : Q) (handled : bool) (interface_name : string)
    (im : InterfaceManager) : outcome InterfaceManager :=
  let attempt :=
    if handled
    then (* Update interface stats *)
         call_update_stats now interface_name
           [("packets", 0%Z); ("processed", 1%Z)] im
    else Error "Exception" in
  match attempt with
  | Value im' => Value im'
  | Error _ => call_update_stats now interface_name [("errors", 1%Z)] im
  | Deadlock => Deadlock
  end.

End MultiInterface.

(** ** hashlib.sha256 *)

Module Hashlib.

(** The round constants and the initial hash value are the first 32 bits
    of the fractional parts of the cube roots of the first 64 primes, and of
    the square roots of the first 8. *)
Definition is_prime (n : nat) : bool :=
  (1 <? n)%nat &&
  forallb (fun d => negb (n mod d =? 0)%nat) (seq 2 (n - 2)).

Definition primes (count : nat) : list Z :=
  map Z.of_nat (take count (List.filter is_prime (seq 2 400))).

(** The integer cube root, bit by bit from the top. *)
Fixpoint cube_root (bits : nat) (n acc : Z) : Z :=
  match bits with
  | O => acc
  | S b =>
      let candidate := (acc + 2 ^ Z.of_nat b)%Z in
      if (candidate * candidate * candidate <=? n)%Z
      then cube_root b n candidate
      else cube_root b n acc
  end.

Definition K : list Z :=
  Eval vm_compute in
    map (fun p => (cube_root 40 (p * 2 ^ 96) 0 mod 2 ^ 32)%Z) (primes 64).

Definition H0 : list Z :=
  Eval vm_compute in
    map (fun p => (Z.sqrt (p * 2 ^ 64) mod 2 ^ 32)%Z) (primes 8).

Section Words.
Local Open Scope Z_scope.

Definition add32 (a b : Z) : Z := (a + b) mod 2 ^ 32.
Definition not32 (x : Z) : Z := Z.lxor x 0xffffffff.
Definition rotr (n x : Z) : Z :=
  Z.lor (Z.shiftr x n) (Z.shiftl x (32 - n) mod 2 ^ 32).

Definition Ch (x y z : Z) : Z := Z.lxor (Z.land x y) (Z.land (not32 x) z).
Definition Maj (x y z : Z) : Z :=
  Z.lxor (Z.lxor (Z.land x y) (Z.land x z)) (Z.land y z).
Definition Sigma0 (x : Z) : Z :=
  Z.lxor (Z.lxor (rotr 2 x) (rotr 13 x)) (rotr 22 x).
Definition Sigma1 (x : Z) : Z :=
  Z.lxor (Z.lxor (rotr 6 x) (rotr 11 x)) (rotr 25 x).
Definition sigma0 (x : Z) : Z :=
  Z.lxor (Z.lxor (rotr 7 x) (rotr 18 x)) (Z.shiftr x 3).
Definition sigma1 (x : Z) : Z :=
  Z.lxor (Z.lxor (rotr 17 x) (rotr 19 x)) (Z.shiftr x 10).

(** The message schedule, most recent word first. *)
Fixpoint extend (n : nat) (rev_w : list Z) : list Z :=
  match n with
  | O => rev_w
  | S n' =>
      let w := add32 (add32 (sigma1 (nth 1 rev_w 0)) (nth 6 rev_w 0))
                     (add32 (sigma0 (nth 14 rev_w 0)) (nth 15 rev_w 0)) in
      extend n' (w :: rev_w)
  end.

Definition schedule (block : list Z) : list Z :=
  rev (extend 48 (rev block)).

(** One round on the working variables [a..h]. *)
Definition round (v : list Z) (kw : Z * Z) : list Z :=
  match v with
  | [a; b; c; d; e; f; g; h] =>
      let t1 := add32 (add32 (add32 h (Sigma1 e)) (Ch e f g))
                      (add32 kw.1 kw.2) in
      let t2 := add32 (Sigma0 a) (Maj a b c) in
      [add32 t1 t2; a; b; c; add32 d t1; e; f; g]
  | _ => v
  end.

Definition zip_add (h v : list Z) : list Z :=
  map (fun p : Z * Z => add32 p.1 p.2) (zip h v).

Definition compress (h : list Z) (block : list Z) : list Z :=
  zip_add h (fold_left round (zip K (schedule block)) h).

(** Big-endian bytes of a [n]-byte number, and back. *)
Fixpoint be_bytes (n : nat) (x : Z) : list Z :=
  match n with
  | O => []
  | S n' => (Z.shiftr x (8 * Z.of_nat n')) mod 256 :: be_bytes n' x
  end.

Definition be_word (bytes : list Z) : Z :=
  fold_left (fun acc b => acc * 256 + b) bytes 0.

Definition pad (msg : list Z) : list Z :=
  let n := Z.of_nat (length msg) in
  (msg ++ [0x80] ++ replicate (Z.to_nat ((55 - n) mod 64)) 0
       ++ be_bytes 8 (8 * n))%list.

(** Cut into groups of [k] items. *)
Fixpoint chunks {A} (fuel k : nat) (l : list A) : list (list A) :=
  match fuel with
  | O => []
  | S fuel' => take k l :: chunks fuel' k (drop k l)
  end.

Definition words (block : list Z) : list Z :=
  map be_word (chunks 16 4 block).

Definition digest (msg : list Z) : list Z :=
  let padded := pad msg in
  fold_left compress
    (map words (chunks (length padded / 64) 64 padded)) H0.

Definition hex_digit (d : Z) : ascii :=
  if d <? 10 then ascii_of_nat (Z.to_nat (48 + d))
  else ascii_of_nat (Z.to_nat (87 + d)).

Definition hex_byte (b : Z) : list ascii :=
  [hex_digit (b / 16); hex_digit (b mod 16)].

End Words.

(** [s.encode()]: the bytes of a string. *)
Definition encode (s : string) : list Z :=
  map (fun c => Z.of_nat (nat_of_ascii c)) (list_ascii_of_string s).

(** [hashlib.sha256(data).hexdigest()]. *)
Definition sha256_hexdigest (data : list Z) : string :=
  string_of_list_ascii
    (concat (map hex_byte (concat (map (be_bytes 4) (digest data))))).

End Hashlib.

(** ** core/feature_versioning.py *)

Module FeatureVersioning.

Record FeatureSchema := {
  version : string;
  name : string;
  description : string;
  features : list string;
  feature_types : gmap string string;
  created_at : string;
  checksum : string;
  metadata : gmap string string
}.

(** [FeatureVersionManager]: the registry, and the schema files on disk
    ([files] maps a path to the schema dumped there; [writable] tells
    whether [open(path, 'w')] succeeds). *)
Record FeatureVersionManager := {
  schema_dir : string;
  schemas : gmap string FeatureSchema;
  files : gmap string FeatureSchema;
  writable : string -> bool
}.

(** [sorted(xs)] on strings: insertion keeps equal items in order. *)
Fixpoint insert_sorted (x : string) (l : list string) : list string :=
  match l with
  | [] => [x]
  | y :: rest =>
      if String.leb x y then x :: l else y :: insert_sorted x rest
  end.

Definition sorted (l : list string) : list string :=
  foldr insert_sorted [] l.

(** [_compute_checksum]. *)
Definition _compute_checksum (features : list string) : string :=
  let feature_str := Py.join "|" (sorted features) in
  String.substring 0 16
    (Hashlib.sha256_hexdigest (Hashlib.encode feature_str)).

(** [self.schema_dir / f"schema_{version}.json"]. *)
Definition schema_file (m : FeatureVersionManager) (version : string)
    : string :=
  schema_dir m +:+ "/schema_" +:+ version +:+ ".json".

(** [register_schema], with [datetime.now().isoformat()] passed in.
    [None] stands for the [OSError] of a failed [open]. *)
Definition register_schema (now : string) (version name : string)
    (features : list string) (feature_types : gmap string string)
    (description : string) (metadata : option (gmap string string))
    (m : FeatureVersionManager)
    : option FeatureSchema * FeatureVersionManager :=
  let checksum := _compute_checksum features in
  let schema :=
    {| version := version; name := name; description := description;
       features := features; feature_types := feature_types;
       created_at := now; checksum := checksum;
       metadata := default ∅ metadata |} in
  (* Save to disk *)
  if writable m (schema_file m version) then
    (Some schema,
     {| schema_dir := schema_dir m;
        schemas := <[version := schema]> (schemas m);
        files := <[schema_file m version := schema]> (files m);
        writable := writable m |})
  else (None, m).

(** [get_schema]. *)
Definition get_schema (version : string) (m : FeatureVersionManager)
    : option FeatureSchema :=
  schemas m !! version.

(** An entry of [type_changes]: the type of a common feature in the two
    schemas ([None] for a feature without a declared type). *)
Record TypeChange := {
  old_type : option string;
  new_type : option string
}.

(** The report of [check_compatibility] for two registered schemas.  The
    lists that the method makes out of sets ([features_added] and the
    like) come in the set's iteration order, which Python leaves open: they
    are kept as sets here, and [type_changes] as a map from the feature to
    its entry. *)
Record CompatibilityReport := {
  compatible : bool;
  version1 : string;
  version2 : string;
  features_added : gset string;
  features_removed : gset string;
  features_common : gset string;
  type_changes : gmap string TypeChange;
  backward_compatible : bool
}.

(** What [check_compatibility] returns: a report, or
    [{"compatible": False, "error": "Schema not found"}]. *)
Inductive compatibility :=
| Report (r : CompatibilityReport)
| SchemaNotFound.

(** [check_compatibility]. *)
Definition check_compatibility (v1 v2 : string) (m : FeatureVersionManager)
    : compatibility :=
  match schemas m !! v1, schemas m !! v2 with
  | Some schema1, Some schema2 =>
      let features1 : gset string := list_to_set (features schema1) in
      let features2 : gset string := list_to_set (features schema2) in
      let added := features2 ∖ features1 in
      let removed := features1 ∖ features2 in
      let common := features1 ∩ features2 in
      (* Check type compatibility for common features *)
      let changes : gmap string TypeChange :=
        set_to_map
          (fun feat =>
             (feat, {| old_type := feature_types schema1 !! feat;
                       new_type := feature_types schema2 !! feat |}))
          (filter (fun feat => feature_types schema1 !! feat
                               ≠ feature_types schema2 !! feat) common) in
      Report {| compatible :=
                  bool_decide (size removed = 0%nat) &&
                  bool_decide (size changes = 0%nat);
                version1 := v1; version2 := v2;
                features_added := added;
                features_removed := removed;
                features_common := common;
                type_changes := changes;
                backward_compatible := bool_decide (size removed = 0%nat) |}
  | _, _ => SchemaNotFound
  end.

(** A value of the dictionary that [migrate_features] returns: the value
    copied from [data], or the default written for a new feature ([0],
    [0.0] or [None]). *)
Inductive migrated (V : Type) :=
| Copied (v : V)
| DefaultInt
| DefaultFloat
| DefaultNone.
Arguments Copied {V} v.
Arguments DefaultInt {V}.
Arguments DefaultFloat {V}.
Arguments DefaultNone {V}.

(** The default of a new feature: [schema_to.feature_types.get(feat,
    "float")] decides. *)
Definition default_for {V} (schema_to : FeatureSchema) (feat : string)
    : migrated V :=
  let feat_type := default "float" (feature_types schema_to !! feat) in
  if bool_decide (feat_type = "int") || bool_decide (feat_type = "int64")
  then DefaultInt
  else if bool_decide (feat_type = "float") ||
          bool_decide (feat_type = "float64")
  then DefaultFloat
  else DefaultNone.

(** [migrate_features].  When a version is not registered the report has
    no key [features_removed], and the warning that formats it raises
    [KeyError] ([None] here). *)
Definition migrate_features {V} (data : gmap string V)
    (from_version to_version : string) (m : FeatureVersionManager)
    : option (gmap string (migrated V)) :=
  match check_compatibility from_version to_version m,
        schemas m !! to_version with
  | Report compat, Some schema_to =>
      (* Copy common features *)
      let copied : gmap string (migrated V) :=
        Copied <$> filter (fun kv => kv.1 ∈ features_common compat) data in
      (* Add default values for new features *)
      let added : gmap string (migrated V) :=
        set_to_map (fun feat => (feat, default_for schema_to feat))
                   (features_added compat) in
      Some (added ∪ copied)
  | _, _ => None
  end.

End FeatureVersioning.

(** ** core/ann_classifier.py: the detector and its checkpoints *)

Module ANNClassifier.

(** The layers of [TabularNet.net]. *)
Inductive layer :=
| Linear (in_features out_features : Z)
| BatchNorm1d (num_features : Z)
| ReLU
| Dropout (p : float).

(** [state_dict()]: the parameters, flattened. *)
Definition weights := list float.

(** [self.model]: a [TabularNet], which has the attribute [net], or a
    module without it (the case [save_checkpoint] tests with [hasattr]). *)
Inductive model :=
| TabularNet (net : list layer) (state : weights)
| PlainModule (state : weights).

Definition state_dict (m : model) : weights :=
  match m with TabularNet _ w => w | PlainModule w => w end.

Definition load_state_dict (w : weights) (m : model) : model :=
  match m with
  | TabularNet net _ => TabularNet net w
  | PlainModule _ => PlainModule w
  end.

(** The fitted [StandardScaler]. *)
Record Scaler := { mean_ : list float; scale_ : list float }.

(** The dictionary that is handed to [torch.save]. *)
Record Checkpoint := {
  model_state : weights;
  scaler : option Scaler;
  numeric_cols : list string;
  hidden_dims : list Z;
  dropout : float
}.

(** config/settings.py: the defaults of [HIDDEN_DIMS] and
    [DROPOUT_RATE]. *)
Definition HIDDEN_DIMS : list Z := [512; 256; 128; 64]%Z.
Definition DROPOUT_RATE : float := 0.35%float.

(** [TabularNet(input_dim, hidden_dims, dropout).net]. *)
Fixpoint hidden_layers (prev : Z) (dims : list Z) (p : float)
    : list layer :=
  match dims with
  | [] => [Linear prev 1]
  | h :: rest =>
      [Linear prev h; BatchNorm1d h; ReLU; Dropout p]
        ++ hidden_layers h rest p
  end.

Definition tabular_net (input_dim : Z) (dims : list Z) (p : float)
    (w : weights) : model :=
  TabularNet (hidden_layers input_dim
                (match dims with [] => HIDDEN_DIMS | _ => dims end) p) w.

Record ANNDetector := {
  model_path : string;
  d_model : model;
  d_scaler : option Scaler;
  d_numeric_cols : list string;
  input_size : Z
}.

(** Files, and the calls made on the filesystem, in order.  [J] is what a
    JSON file holds (the value given to [json.dump]). *)
Inductive file (J : Type) :=
| TorchSave (c : Checkpoint)
| JsonFile (j : J)
| OtherFile (content : string).
Arguments TorchSave {J} c.
Arguments JsonFile {J} j.
Arguments OtherFile {J} content.

Inductive fs_call (J : Type) :=
| Write (path : string) (content : file J)
| Copy (src dst : string)
| Rename (src dst : string).
Arguments Write {J} path content.
Arguments Copy {J} src dst.
Arguments Rename {J} src dst.

Record Disk (J : Type) := {
  files : gmap string (file J);
  calls : list (fs_call J)
}.
Arguments files {J} d.
Arguments calls {J} d.

(** A Python call: a value or an exception. *)
Inductive result (A : Type) :=
| Ok (a : A)
| Raise (exn : string).
Arguments Ok {A} a.
Arguments Raise {A} exn.

(** [torch.save(obj, path)]: one direct write of the target. *)
Definition torch_save {J} (c : Checkpoint) (path : string) (d : Disk J)
    : Disk J :=
  {| files := <[path := TorchSave c]> (files d);
     calls := calls d ++ [Write path (TorchSave c)] |}.

(** [shutil.copy2(src, dst)]. *)
Definition copy2 {J} (src dst : string) (d : Disk J)
    : result unit * Disk J :=
  match files d !! src with
  | None => (Raise "FileNotFoundError", d)
  | Some f =>
      if bool_decide (src = dst) then (Raise "SameFileError", d)
      else (Ok tt, {| files := <[dst := f]> (files d);
                      calls := calls d ++ [Copy src dst] |})
  end.

(** [list(self.model.net[0].out_features)].  The first layer of a
    [TabularNet] is a [Linear], whose [out_features] is an [int]; [list]
    of an [int] raises. *)
Definition hidden_dims_of_net (net : list layer) : result (list Z) :=
  match net with
  | [] => Raise "IndexError"
  | Linear _ out_features :: _ => Raise "TypeError"
  | _ :: _ => Raise "AttributeError"
  end.

(** [ANNDetector.save_checkpoint].  [path] is a [Path] (always truthy) or
    [None]. *)
Definition save_checkpoint {J} (path : option string) (det : ANNDetector)
    (d : Disk J) : result string * Disk J :=
  let save_path := default (model_path det) path in
  let dims :=
    match d_model det with
    | TabularNet net _ => hidden_dims_of_net net
    | PlainModule _ => Ok HIDDEN_DIMS
    end in
  match dims with
  | Raise e => (Raise e, d)
  | Ok dims =>
      let checkpoint :=
        {| model_state := state_dict (d_model det);
           scaler := d_scaler det;
           numeric_cols := d_numeric_cols det;
           hidden_dims := dims;
           dropout := DROPOUT_RATE |} in
      (Ok save_path, torch_save checkpoint save_path d)
  end.

(** [ANNDetector.reload_model]. *)
Definition reload_model {J} (det : ANNDetector) (d : Disk J)
    : result ANNDetector :=
  match files d !! model_path det with
  | Some (TorchSave checkpoint) =>
      Ok {| model_path := model_path det;
            d_model := load_state_dict (model_state checkpoint) (d_model det);
            d_scaler := scaler checkpoint;
            d_numeric_cols := numeric_cols checkpoint;
            input_size := input_size det |}
  | Some (JsonFile _) | Some (OtherFile _) => Raise "UnpicklingError"
  | None => Raise "FileNotFoundError"
  end.

End ANNClassifier.

(** ** core/continuous_learner.py *)

Module ContinuousLearner.
Import AlertSystem ANNClassifier.

(** String helpers of the labeler. *)

(** [s.split(sep)[-1]]: what follows the last separator found by the
    left-to-right scan; [skip] counts the characters of a separator still
    to pass. *)
Fixpoint last_piece (sep : string) (skip : nat) (s piece : string)
    : string :=
  match s with
  | EmptyString => piece
  | String c rest =>
      match skip with
      | S k => last_piece sep k rest piece
      | O =>
          if String.prefix sep s
          then last_piece sep (String.length sep - 1) rest ""
          else last_piece sep 0 rest (piece +:+ String c "")
      end
  end.

Definition split_last (sep s : string) : string := last_piece sep 0 s "".

(** ASCII whitespace, as [str.strip()] removes it. *)
Definition is_space (c : ascii) : bool :=
  let n := nat_of_ascii c in
  (n =? 32)%nat || ((9 <=? n)%nat && (n <=? 13)%nat) ||
  ((28 <=? n)%nat && (n <=? 31)%nat).

Fixpoint lstrip_if (f : ascii -> bool) (s : string) : string :=
  match s with
  | EmptyString => EmptyString
  | String c rest => if f c then lstrip_if f rest else s
  end.

Fixpoint rstrip_if (f : ascii -> bool) (s : string) : string :=
  match s with
  | EmptyString => EmptyString
  | String c rest =>
      match rstrip_if f rest with
      | EmptyString => if f c then EmptyString else String c EmptyString
      | kept => String c kept
      end
  end.

(** [s.strip()] and [s.rstrip(")")]. *)
Definition strip (s : string) : string :=
  lstrip_if is_space (rstrip_if is_space s).
Definition rstrip_paren (s : string) : string :=
  rstrip_if (fun c => bool_decide (c = ")"%char)) s.

(** The [metrics] dictionary of [incremental_update]. *)
Record Metrics := { loss : float; accuracy : float; samples : Z }.

(** An entry of [training_history] and of [model_versions]. *)
Record TrainingRecord := {
  r_timestamp : string;
  training_time : Q;
  num_samples : nat;
  r_metrics : option Metrics
}.

Record VersionInfo := {
  v_timestamp : string;
  v_metrics : option Metrics;
  v_model_path : string
}.

(** The learner.  [current_model] is [self.models_dir / MODEL_FILENAME];
    [backup_file l ts] is [self.backup_dir / f"model_backup_{ts}.pt"]. *)
Record Learner := {
  ann_detector : option ANNDetector;
  learning_interval : Z;
  min_samples : Z;
  max_history : nat;
  is_training : bool;
  last_training_time : option string;
  last_processed_id : Z;
  training_history : list TrainingRecord;
  model_versions : list VersionInfo;
  current_model : string;
  backup_dir : string;
  stats_file : string
}.

(** The dictionary that [_save_state] dumps. *)
Record SavedState := {
  s_last_processed_id : Z;
  s_last_training_time : option string;
  s_training_history : list TrainingRecord;
  s_model_versions : list VersionInfo
}.

(** [l[-n:]]. *)
Definition last_n {A} (n : nat) (l : list A) : list A :=
  drop (length l - n) l.

Definition backup_file (l : Learner) (ts : string) : string :=
  backup_dir l +:+ "/model_backup_" +:+ ts +:+ ".pt".

Section Cycle.
(** Python's [float(s)]: the parsed value, or [None] for [ValueError]. *)
Variable py_float : string -> option float.
(** [_extract_features_from_alert]: the numeric encoding of an alert, or
    [None].  No property below reads the vector. *)
Variable features_of : Alert -> option (list Q).

(** [_auto_label_alert]: [Some 1] attack, [Some 0] benign, [None]
    skip. *)
Definition _auto_label_alert (alert : Alert) : option Z :=
  (* DFA detections are high confidence attacks *)
  if bool_decide (module alert = "DFA") then Some 1%Z
  (* ANN detections - check confidence from reason field *)
  else if bool_decide (module alert = "ANN") then
    let parsed : option (option Z) :=
      if Py.contains "confidence:" (reason alert) then
        let conf_str :=
          rstrip_paren (strip (split_last "confidence:" (reason alert))) in
        match py_float conf_str with
        | Some confidence =>
            if PrimFloat.leb 0.95 confidence then Some (Some 1%Z)
            else if PrimFloat.leb confidence 0.30 then Some (Some 0%Z)
            else Some None
        | None => None
        end
      else None in
    match parsed with
    | Some label => label
    (* Default: trust ANN if no confidence info *)
    | None => Some 1%Z
    end
  else None.

(** [ORDER BY id]: insertion into an id-sorted list. *)
Fixpoint insert_by_id (a : Alert) (l : list Alert) : list Alert :=
  match l with
  | [] => [a]
  | b :: rest =>
      if (id a <=? id b)%Z then a :: l else b :: insert_by_id a rest
  end.

(** The query of [_collect_training_data]:
    [filter(Alert.id > last_processed_id).order_by(Alert.id).limit(max_history)]. *)
Definition new_alerts (l : Learner) (table : list Alert) : list Alert :=
  take (max_history l)
    (foldr insert_by_id []
       (filter (fun a => (last_processed_id l < id a)%Z) table)).

(** [_collect_training_data]: the samples, the labels and the ids of the
    alerts that got both a feature vector and a label. *)
Fixpoint collect (alerts : list Alert)
    : list (list Q) * list Z * list Z :=
  match alerts with
  | [] => ([], [], [])
  | alert :: rest =>
      let '(X, y, ids) := collect rest in
      match features_of alert with
      | None => (X, y, ids)
      | Some features =>
          match _auto_label_alert alert with
          | None => (X, y, ids)
          | Some label => (features :: X, label :: y, id alert :: ids)
          end
      end
  end.

Definition _collect_training_data (l : Learner) (table : list Alert)
    : list (list Q) * list Z * list Z :=
  collect (new_alerts l table).

(** [_validate_model]. *)
Definition _validate_model (metrics : option Metrics) : bool :=
  match metrics with
  | None => false
  | Some m =>
      if PrimFloat.ltb (accuracy m) 70 then false
      else if PrimFloat.ltb 2.0 (loss m) then false
      else true
  end.

(** [_backup_current_model]; [ts] is the formatted [datetime.now()]. *)
Definition _backup_current_model (ts : string) (l : Learner)
    (d : Disk SavedState) : option string * Disk SavedState :=
  let backup_path := backup_file l ts in
  match files d !! current_model l with
  | Some _ =>
      match copy2 (current_model l) backup_path d with
      | (Ok _, d') => (Some backup_path, d')
      | (Raise _, d') => (None, d')
      end
  | None => (Some backup_path, d)
  end.

(** [_incremental_train]: [trained] is what [incremental_update] gives on
    the batch, the metrics and the updated parameters, or [None] when it
    raises. *)
Definition _incremental_train (trained : option (Metrics * weights))
    (l : Learner) : option Metrics * Learner :=
  match ann_detector l with
  | None => (None, l)
  | Some det =>
      match trained with
      | None => (None, l)
      | Some (metrics, w) =>
          (Some metrics,
           {| ann_detector :=
                Some {| model_path := model_path det;
                        d_model := load_state_dict w (d_model det);
                        d_scaler := d_scaler det;
                        d_numeric_cols := d_numeric_cols det;
                        input_size := input_size det |};
              learning_interval := learning_interval l;
              min_samples := min_samples l; max_history := max_history l;
              is_training := is_training l;
              last_training_time := last_training_time l;
              last_processed_id := last_processed_id l;
              training_history := training_history l;
              model_versions := model_versions l;
              current_model := current_model l;
              backup_dir := backup_dir l; stats_file := stats_file l |})
      end
  end.

Definition with_detector (det : option ANNDetector) (l : Learner)
    : Learner :=
  {| ann_detector := det;
     learning_interval := learning_interval l;
     min_samples := min_samples l; max_history := max_history l;
     is_training := is_training l;
     last_training_time := last_training_time l;
     last_processed_id := last_processed_id l;
     training_history := training_history l;
     model_versions := model_versions l;
     current_model := current_model l;
     backup_dir := backup_dir l; stats_file := stats_file l |}.

Definition with_versions (vs : list VersionInfo) (l : Learner) : Learner :=
  {| ann_detector := ann_detector l;
     learning_interval := learning_interval l;
     min_samples := min_samples l; max_history := max_history l;
     is_training := is_training l;
     last_training_time := last_training_time l;
     last_processed_id := last_processed_id l;
     training_history := training_history l;
     model_versions := vs;
     current_model := current_model l;
     backup_dir := backup_dir l; stats_file := stats_file l |}.

Definition with_training (b : bool) (l : Learner) : Learner :=
  {| ann_detector := ann_detector l;
     learning_interval := learning_interval l;
     min_samples := min_samples l; max_history := max_history l;
     is_training := b;
     last_training_time := last_training_time l;
     last_processed_id := last_processed_id l;
     training_history := training_history l;
     model_versions := model_versions l;
     current_model := current_model l;
     backup_dir := backup_dir l; stats_file := stats_file l |}.

(** [_save_model_version]; an exception of [save_checkpoint] is logged and
    dropped. *)
Definition _save_model_version (now : string) (metrics : option Metrics)
    (l : Learner) (d : Disk SavedState) : Learner * Disk SavedState :=
  match ann_detector l with
  | None => (l, d)
  | Some det =>
      match save_checkpoint (Some (current_model l)) det d with
      | (Ok _, d') =>
          (with_versions
             (model_versions l ++
                [{| v_timestamp := now; v_metrics := metrics;
                    v_model_path := current_model l |}]) l, d')
      | (Raise _, d') => (l, d')
      end
  end.

(** [_rollback_model]. *)
Definition _rollback_model (backup_path : option string) (l : Learner)
    (d : Disk SavedState) : Learner * Disk SavedState :=
  match backup_path with
  | None => (l, d)
  | Some backup =>
      match files d !! backup with
      | None => (l, d)
      | Some _ =>
          match copy2 backup (current_model l) d with
          | (Raise _, d') => (l, d')
          | (Ok _, d') =>
              match ann_detector l with
              | None => (l, d')
              | Some det =>
                  match reload_model det d' with
                  | Ok det' => (with_detector (Some det') l, d')
                  | Raise _ => (l, d')
                  end
              end
          end
      end
  end.

(** [max(alert_ids)] of a non-empty list. *)
Definition max_id (first : Z) (rest : list Z) : Z :=
  fold_left Z.max rest first.

(** The clock readings of one cycle: the backup's file stamp, the version
    stamp, [last_training_time], the record stamp and the elapsed time. *)
Record Clock := {
  backup_stamp : string;
  version_stamp : string;
  finished_at : string;
  record_stamp : string;
  elapsed : Q
}.

(** Steps 5 and 6 of the cycle: update state, record metrics. *)
Definition update_state (clock : Clock) (alert_ids : list Z)
    (metrics : option Metrics) (n : nat) (l : Learner) : Learner :=
  {| ann_detector := ann_detector l;
     learning_interval := learning_interval l;
     min_samples := min_samples l; max_history := max_history l;
     is_training := is_training l;
     last_training_time := Some (finished_at clock);
     last_processed_id :=
       match alert_ids with
       | [] => last_processed_id l
       | i :: rest => max_id i rest
       end;
     training_history :=
       training_history l ++
         [{| r_timestamp := record_stamp clock;
             training_time := elapsed clock;
             num_samples := n; r_metrics := metrics |}];
     model_versions := model_versions l;
     current_model := current_model l;
     backup_dir := backup_dir l; stats_file := stats_file l |}.

(** [_save_state]. *)
Definition _save_state (l : Learner) (d : Disk SavedState)
    : Disk SavedState :=
  let state :=
    {| s_last_processed_id := last_processed_id l;
       s_last_training_time := last_training_time l;
       s_training_history := last_n 100 (training_history l);
       s_model_versions := last_n 20 (model_versions l) |} in
  {| files := <[stats_file l := JsonFile state]> (files d);
     calls := calls d ++ [Write (stats_file l) (JsonFile state)] |}.

(** [_perform_training_cycle].  [table] is the alerts table, [None] when
    the query raises. *)
Definition _perform_training_cycle (clock : Clock)
    (table : option (list Alert)) (trained : option (Metrics * weights))
    (l : Learner) (d : Disk SavedState) : Learner * Disk SavedState :=
  let l := with_training true l in
  match table with
  | None => (with_training false l, d)
  | Some table =>
      (* 1. Collect new training data *)
      let '(X_new, y_new, alert_ids) := _collect_training_data l table in
      if (Z.of_nat (length X_new) <? min_samples l)%Z
      then (with_training false l, d)
      else
        (* 2. Backup current model *)
        let '(backup_path, d) := _backup_current_model (backup_stamp clock) l d in
        (* 3. Train on new data (incremental) *)
        let '(metrics, l) := _incremental_train trained l in
        (* 4. Validate new model *)
        let '(l, d) :=
          if _validate_model metrics
          then _save_model_version (version_stamp clock) metrics l d
          else _rollback_model backup_path l d in
        (* 5. Update state, 6. Record metrics *)
        let l := update_state clock alert_ids metrics (length X_new) l in
        (with_training false l, _save_state l d)
  end.

End Cycle.

(** [_load_state]: the saved id and the two histories are read back, the
    saved [last_training_time] is not.  A missing file, or one that
    [json.load] rejects, leaves the learner as it is. *)
Definition _load_state (l : Learner) (d : Disk SavedState) : Learner :=
  match files d !! stats_file l with
  | Some (JsonFile state) =>
      {| ann_detector := ann_detector l;
         learning_interval := learning_interval l;
         min_samples := min_samples l; max_history := max_history l;
         is_training := is_training l;
         last_training_time := last_training_time l;
         last_processed_id := s_last_processed_id state;
         training_history := s_training_history state;
         model_versions := s_model_versions state;
         current_model := current_model l;
         backup_dir := backup_dir l; stats_file := stats_file l |}
  | _ => l
  end.

(** [ContinuousLearner(ann_detector, learning_interval, min_samples,
    max_history=...)]: the fields are set, then the previous state is
    loaded.  [models_dir] is [BASE_DIR / "models"], which is also where
    [MODEL_FILENAME] points with the default settings. *)
Definition init (det : option ANNDetector) (interval samples : Z)
    (history : nat) (models_dir : string) (d : Disk SavedState) : Learner :=
  _load_state
    {| ann_detector := det; learning_interval := interval;
       min_samples := samples; max_history := history;
       is_training := false; last_training_time := None;
       last_processed_id := 0; training_history := []; model_versions := [];
       current_model := models_dir +:+ "/ann_model.pt";
       backup_dir := models_dir +:+ "/backups";
       stats_file := models_dir +:+ "/continuous_learning_stats.json" |} d.

(** [_should_train]; [seconds_since t] is
    [(datetime.now() - t).total_seconds()], and [table] the alerts
    table. *)
Definition _should_train (seconds_since : string -> Q) (table : list Alert)
    (l : Learner) : bool :=
  (* Check time interval *)
  let too_early :=
    match last_training_time l with
    | Some t => Py.Qltb (seconds_since t) (inject_Z (learning_interval l))
    | None => false
    end in
  if too_early then false
  else
    (* Check if we have enough new samples *)
    let new_count :=
      length (filter (fun a => (last_processed_id l < id a)%Z) table) in
    if (Z.of_nat new_count <? min_samples l)%Z then false else true.

(** The dictionary returned by [get_statistics]. *)
Record Statistics := {
  st_is_training : bool;
  st_last_training_time : option string;
  st_last_processed_id : Z;
  total_training_cycles : nat;
  n_model_versions : nat;
  recent_history : list TrainingRecord
}.

(** [get_statistics]. *)
Definition get_statistics (l : Learner) : Statistics :=
  {| st_is_training := is_training l;
     st_last_training_time := last_training_time l;
     st_last_processed_id := last_processed_id l;
     total_training_cycles := length (training_history l);
     n_model_versions := length (model_versions l);
     recent_history :=
       match training_history l with
       | [] => []
       | _ => last_n 10 (training_history l)
       end |}.

End ContinuousLearner.

(** ** api.py: the learner behind the learning endpoints *)

Module Api.
Import ANNClassifier ContinuousLearner.

(** The module-level names involved.  [core_learner] is the global
    [continuous_learner] of core/continuous_learner.py, which
    [initialize_continuous_learner] assigns.  [api_learner] is the name
    [continuous_learner] of api.py: the statement
    [from core.continuous_learner import initialize_continuous_learner,
    continuous_learner] binds it, when api.py is loaded, to the value the
    global has then.  [detector] is [SnifferManager._detector]. *)
Record State := {
  core_learner : option Learner;
  api_learner : option Learner;
  detector : option ANNDetector
}.

(** After [import api]: the global of the core module is [None] when the
    import statement reads it. *)
Definition loaded : State :=
  {| core_learner := None; api_learner := None; detector := None |}.

(** [initialize_continuous_learner(ann_detector, auto_start=True)]: the
    learner is built on the state file of [models_dir] and assigned to the
    global of its own module. *)
Definition initialize_continuous_learner (ann_detector : ANNDetector)
    (models_dir : string) (d : Disk SavedState) (s : State) : State :=
  {| core_learner :=
       Some (ContinuousLearner.init (Some ann_detector) 3600 100 (100 * 100)
               models_dir d);
     api_learner := api_learner s;
     detector := detector s |}.

(** [SnifferManager._ensure_detector]; [built] is the detector that
    [ANNDetector(model_path=...)] returns. *)
Definition _ensure_detector (built : ANNDetector) (models_dir : string)
    (d : Disk SavedState) (s : State) : State :=
  match detector s with
  | Some _ => s
  | None =>
      let s := {| core_learner := core_learner s;
                  api_learner := api_learner s;
                  detector := Some built |} in
      (* Initialize continuous learning with the detector *)
      match api_learner s with
      | None => initialize_continuous_learner built models_dir d s
      | Some _ => s
      end
  end.

(** What an endpoint answers: a body, or an [HTTPException]. *)
Inductive response (A : Type) :=
| Body (a : A)
| HttpError (status_code : Z) (detail : string).
Arguments Body {A} a.
Arguments HttpError {A} status_code detail.

(** [GET /learning/status]: [None] stands for the body
    [{"enabled": False, "message": ...}]. *)
Definition get_learning_status (s : State) : option Statistics :=
  match api_learner s with
  | None => None
  | Some learner => Some (get_statistics learner)
  end.

(** [POST /learning/train-now]; the body tells that a cycle was
    started. *)
Definition trigger_training (s : State) : response string :=
  match api_learner s with
  | None => HttpError 503 "Continuous learning not initialized"
  | Some learner =>
      if is_training learner
      then HttpError 409 "Training already in progress"
      else Body "Training cycle started"
  end.

(** [GET /learning/history?limit=n]: the total and [history[-limit:]]. *)
Definition get_training_history (limit : nat) (s : State)
    : response (nat * list TrainingRecord) :=
  match api_learner s with
  | None => HttpError 503 "Continuous learning not initialized"
  | Some learner =>
      let stats := get_statistics learner in
      Body (total_training_cycles stats, last_n limit (recent_history stats))
  end.

End Api.

(** ** core/utils.py: the feature vector of a live packet *)

Module Utils.
Import Scapy.

(** A packet as [features_from_packet] looks at it: one with an ARP layer,
    else one with an IP layer (its [src] and [proto]), else another. *)
Inductive packet :=
| WithARP (arp : ARP)
| WithIP (src : string) (proto : Z)
| Other.

(** The module-level dictionaries [_last_seen] and [_counter_window]. *)
Record State := {
  _last_seen : gmap string Q;
  _counter_window : gmap string (list Q)
}.

Definition new : State := {| _last_seen := ∅; _counter_window := ∅ |}.

(** [numeric_columns.index(c)], [None] when [c] is not in the list. *)
Fixpoint index (c : string) (numeric_columns : list string) : option nat :=
  match numeric_columns with
  | [] => None
  | x :: rest =>
      if bool_decide (x = c) then Some 0%nat else S <$> index c rest
  end.

(** [if c in numeric_columns: vec[numeric_columns.index(c)] = v]. *)
Definition set_column (numeric_columns : list string) (c : string) (v : Q)
    (vec : list Q) : list Q :=
  match index c numeric_columns with
  | Some i => <[i := v]> vec
  | None => vec
  end.

(** The sender that the function reads off the packet. *)
Definition source (pkt : packet) : option string :=
  match pkt with
  | WithARP arp => Some (psrc arp)
  | WithIP src _ => Some src
  | Other => None
  end.

(** [features_from_packet(pkt, numeric_columns)], with [now = time.time()]
    passed in.  The vector is a float array; its entries are opcodes,
    protocol numbers and counts, which are kept as rationals. *)
Definition features_from_packet (now : Q) (pkt : packet)
    (numeric_columns : list string) (st : State) : list Q * State :=
  let vec := replicate (length numeric_columns) 0%Q in
  let vec :=
    match pkt with
    | WithARP arp =>
        let opcode := inject_Z (op arp) in
        let vec := set_column numeric_columns "protocol" 0 vec in
        let vec := set_column numeric_columns "src_port" 0 vec in
        fold_left (fun vec candidate =>
                     set_column numeric_columns candidate opcode vec)
                  ["arp_opcode"; "opcode"; "arp_op"] vec
    | WithIP _ proto =>
        set_column numeric_columns "protocol" (inject_Z proto) vec
    | Other => vec
    end in
  (* inter-arrival and frequency *)
  match source pkt with
  | Some (String _ _ as src) =>
      (* sliding window count *)
      let arr := default [] (_counter_window st !! src) in
      let arr := filter (fun t => Py.Qgtb (now - t) 1 = false) arr ++ [now] in
      let freq := (inject_Z (Z.of_nat (length arr)) / 1)%Q in
      (* place into numeric fields if exist *)
      (fold_left (fun vec c => set_column numeric_columns c freq vec)
                 ["bidirectional_packets"; "bidirectional_bytes";
                  "src2dst_packets"] vec,
       {| _last_seen := <[src := now]> (_last_seen st);
          _counter_window := <[src := arr]> (_counter_window st) |})
  | _ => (vec, st)
  end.

End Utils.

(** ** core/packet_buffer.py *)

Module PacketBuffer.

(** [PacketBufferStats]. *)
Record PacketBufferStats := {
  total_received : Z;
  total_processed : Z;
  total_dropped : Z;
  total_batches : Z;
  avg_batch_size : Q;
  avg_processing_time : Q;
  buffer_utilization : Q
}.

Definition no_stats : PacketBufferStats :=
  {| total_received := 0; total_processed := 0; total_dropped := 0;
     total_batches := 0; avg_batch_size := 0; avg_processing_time := 0;
     buffer_utilization := 0 |}.

Section Buffer.
(** The packet type. *)
Context {P : Type}.

(** [PacketBuffer]: the [queue.Queue(maxsize=max_size)] is the list of its
    items, oldest first. *)
Record PacketBuffer := {
  max_size : Z;
  batch_size : Z;
  batch_timeout : Q;
  overflow_strategy : string;
  enable_stats : bool;
  queue : list P;
  stats : PacketBufferStats;
  running : bool
}.

(** [PacketBuffer(max_size, batch_size, batch_timeout, overflow_strategy,
    enable_stats)]. *)
Definition init (size batch : Z) (timeout : Q) (strategy : string)
    (with_stats : bool) : PacketBuffer :=
  {| max_size := size; batch_size := batch; batch_timeout := timeout;
     overflow_strategy := strategy; enable_stats := with_stats;
     queue := []; stats := no_stats; running := false |}.

(** [Queue.full()]: a queue without a positive bound is never full. *)
Definition is_full (b : PacketBuffer) : bool :=
  (0 <? max_size b)%Z && (max_size b <=? Z.of_nat (length (queue b)))%Z.

Definition size (b : PacketBuffer) : nat := length (queue b).
Definition is_empty (b : PacketBuffer) : bool :=
  match queue b with [] => true | _ => false end.

(** How a call of [put] ends: it returns [True] or [False], it stays
    blocked in [Queue.put] (the queue is full and no consumer is modelled),
    or an exception other than [queue.Full] leaves it. *)
Inductive put_result :=
| Returned (added : bool) (b : PacketBuffer)
| Blocked
| Raised (exn : string).

Definition with_stats (st : PacketBufferStats) (b : PacketBuffer)
    : PacketBuffer :=
  {| max_size := max_size b; batch_size := batch_size b;
     batch_timeout := batch_timeout b;
     overflow_strategy := overflow_strategy b;
     enable_stats := enable_stats b; queue := queue b; stats := st;
     running := running b |}.

Definition with_queue (q : list P) (b : PacketBuffer) : PacketBuffer :=
  {| max_size := max_size b; batch_size := batch_size b;
     batch_timeout := batch_timeout b;
     overflow_strategy := overflow_strategy b;
     enable_stats := enable_stats b; queue := q; stats := stats b;
     running := running b |}.

(** The two places of [put] that count a drop and return [False]. *)
Definition dropped (b : PacketBuffer) : put_result :=
  Returned false
    (if enable_stats b
     then with_stats
            {| total_received := total_received (stats b);
               total_processed := total_processed (stats b);
               total_dropped := (total_dropped (stats b) + 1)%Z;
               total_batches := total_batches (stats b);
               avg_batch_size := avg_batch_size (stats b);
               avg_processing_time := avg_processing_time (stats b);
               buffer_utilization := buffer_utilization (stats b) |} b
     else b).

(** The item is in the queue: count it and return [True]. *)
Definition added (packet : P) (b : PacketBuffer) : put_result :=
  let b := with_queue (queue b ++ [packet]) b in
  Returned true
    (if enable_stats b
     then with_stats
            {| total_received := (total_received (stats b) + 1)%Z;
               total_processed := total_processed (stats b);
               total_dropped := total_dropped (stats b);
               total_batches := total_batches (stats b);
               avg_batch_size := avg_batch_size (stats b);
               avg_processing_time := avg_processing_time (stats b);
               buffer_utilization := buffer_utilization (stats b) |} b
     else b).

(** [put(packet, block, timeout)].  [Queue.put] on a bounded queue raises
    [Full] at once without [block], waits for room with [block] and no
    timeout, raises [ValueError] for a negative timeout, and otherwise
    raises [Full] when the timeout has passed. *)
Definition put (packet : P) (block : bool) (timeout : option Q)
    (b : PacketBuffer) : put_result :=
  if bool_decide (overflow_strategy b = "drop") && is_full b
  then dropped b
  else if (0 <? max_size b)%Z then
    if negb block then
      if is_full b then dropped b else added packet b
    else
      match timeout with
      | None => if is_full b then Blocked else added packet b
      | Some t =>
          if Py.Qltb t 0 then Raised "ValueError"
          else if is_full b then dropped b else added packet b
      end
  else added packet b.

(** [get_batch]: up to [batch_size] packets are taken from the queue;
    [reads] is the number of reads that the deadline leaves time for. *)
Definition get_batch (reads : nat) (b : PacketBuffer)
    : list P * PacketBuffer :=
  let n := Nat.min reads (Z.to_nat (batch_size b)) in
  let batch := take n (queue b) in
  let b := with_queue (drop n (queue b)) b in
  match batch with
  | [] => (batch, b)
  | _ =>
      if enable_stats b then
        let taken := Z.of_nat (length batch) in
        let batches := (total_batches (stats b) + 1)%Z in
        (batch,
         with_stats
           {| total_received := total_received (stats b);
              total_processed := (total_processed (stats b) + taken)%Z;
              total_dropped := total_dropped (stats b);
              total_batches := batches;
              avg_batch_size :=
                ((avg_batch_size (stats b) * inject_Z (batches - 1)
                  + inject_Z taken) / inject_Z batches)%Q;
              avg_processing_time := avg_processing_time (stats b);
              buffer_utilization := buffer_utilization (stats b) |} b)
      else (batch, b)
  end.

(** [clear]: the queue is emptied; no statistic is touched. *)
Definition clear (b : PacketBuffer) : PacketBuffer := with_queue [] b.

(** [reset_statistics]. *)
Definition reset_statistics (b : PacketBuffer) : PacketBuffer :=
  if enable_stats b then with_stats no_stats b else b.

End Buffer.

Arguments PacketBuffer : clear implicits.
Arguments put_result : clear implicits.

End PacketBuffer.

(** * Predicates and scenarios *)

(** ** Frame streams *)

Section FrameStreams.
Import Scapy DFA.




(** Six frames from one MAC, each announcing a sender IP that was never
    seen, all at clock reading 0. *)
Definition storm_frame (ip : string) : Q * ARP :=
  (0%Q, {| psrc := ip; pdst := "192.168.1.1"; hwsrc := "ff:ee:dd:cc:bb:aa";
           hwdst := "00:00:00:00:00:00"; op := 2 |}).

Definition storm : list (Q * ARP) :=
  map storm_frame
    ["192.168.1.10"; "192.168.1.11"; "192.168.1.12"; "192.168.1.13";
     "192.168.1.14"; "192.168.1.15"].

(** Scenario A of the specification: the second frame announces
    192.168.1.1 from another MAC. *)
Definition spoof : list (Q * ARP) :=
  [(0%Q, {| psrc := "192.168.1.1"; pdst := "192.168.1.50";
            hwsrc := "AA:BB:CC:11:22:33"; hwdst := "00:00:00:00:00:00";
            op := 2 |});
   (1%Q, {| psrc := "192.168.1.1"; pdst := "192.168.1.50";
            hwsrc := "BA:DD:C0:FF:EE:00"; hwdst := "00:00:00:00:00:00";
            op := 2 |})].


(** Scenario B of the specification: ten frames from one MAC, 0.3 s
    apart. *)
Definition flood_frame (n : Z) : Q * ARP :=
  ((3 * inject_Z n / 10)%Q,
   {| psrc := "192.168.1.66"; pdst := "192.168.1.66";
      hwsrc := "DE:AD:BE:EF:CA:FE"; hwdst := "ff:ff:ff:ff:ff:ff"; op := 2 |}).

Definition flood : list (Q * ARP) :=
  map flood_frame [0; 1; 2; 3; 4; 5; 6; 7; 8; 9]%Z.

End FrameStreams.

Section ReplyFrames.
Import Scapy.

(** The frame of Scenario C, with the source and destination MAC left
    open. *)
Definition reply_frame (smac dmac : string) : ARP :=
  {| psrc := "10.0.0.5"; pdst := "10.0.0.6"; hwsrc := smac; hwdst := dmac;
     op := 2 |}.

End ReplyFrames.

Section SolicitedReply.
Import Scapy Sniffer.

(** A vendor check that finds nothing. *)
Definition quiet_vendor : VendorAnomalies :=
  {| v_has_anomaly := false; v_anomalies := [];
     src_vendor := Some "VMware"; dst_vendor := Some "VMware";
     v_confidence := 0 |}.

(** Two hosts that look each other up: 10.0.0.5 asks for 10.0.0.6 at 0 s,
    10.0.0.6 asks for 10.0.0.5 at 0.01 s, and 10.0.0.5 answers at
    0.05 s. *)
Definition request_from_5 : ARP :=
  {| psrc := "10.0.0.5"; pdst := "10.0.0.6"; hwsrc := "00:50:56:00:00:05";
     hwdst := "00:00:00:00:00:00"; op := 1 |}.

Definition request_from_6 : ARP :=
  {| psrc := "10.0.0.6"; pdst := "10.0.0.5"; hwsrc := "00:50:56:00:00:06";
     hwdst := "00:00:00:00:00:00"; op := 1 |}.

Definition solicited_reply : ARP :=
  {| psrc := "10.0.0.5"; pdst := "10.0.0.6"; hwsrc := "00:50:56:00:00:05";
     hwdst := "00:50:56:00:00:06"; op := 2 |}.

Definition after_requests : State :=
  (_handle_pkt 0.01 0.01 request_from_6 (Some quiet_vendor) None
     (_handle_pkt 0 0 request_from_5 (Some quiet_vendor) None
        Sniffer.new).2).2.

End SolicitedReply.

(** ** Broadcasts *)

Section Fanout.
Import WebSocketManager.
Context {M : Type}.
Variable send_text : WebSocket -> M -> send_outcome.

Definition receives (message : M) (c : WebSocket) : bool :=
  match send_text c message with Sent => true | _ => false end.

Definition raises (message : M) (c : WebSocket) : bool :=
  match send_text c message with Raises => true | _ => false end.

Definition completes (message : M) (c : WebSocket) : Prop :=
  send_text c message <> Suspended.

(** Several broadcasts in a row: the clients reached by each message, and
    the manager at the end, [None] if a broadcast did not return. *)
Fixpoint broadcast_all (messages : list M) (m : ConnectionManager)
    : list (list WebSocket) * option ConnectionManager :=
  match messages with
  | [] => ([], Some m)
  | message :: rest =>
      match broadcast send_text message m with
      | Returned m' got =>
          let '(gots, final) := broadcast_all rest m' in (got :: gots, final)
      | Waiting got => ([got], None)
      end
  end.

End Fanout.

Section FanoutScenarios.
Import WebSocketManager AlertSystem.

(** A client that never takes the data, followed by a healthy one. *)
Definition slow_then_fast : State :=
  {| alerts := []; next_id := 1;
     manager := connect 2 (connect 1 WebSocketManager.new) |}.

Definition slow_client (c : WebSocket) (e : event) : send_outcome :=
  if (c =? 1)%nat then Suspended else Sent.

Definition noon : DateTime :=
  {| hour := 12; weekday := 0; isoformat := "2025-01-06T12:00:00" |}.

(** Three clients; the send to the second one raises. *)
Definition three_clients : State :=
  {| alerts := []; next_id := 1;
     manager := connect 3 (connect 2 (connect 1 WebSocketManager.new)) |}.

Definition second_fails (c : WebSocket) (e : event) : send_outcome :=
  if (c =? 2)%nat then Raises else Sent.

End FanoutScenarios.

(** ** Worker queues *)

Section QueueScenarios.
Import MultiInterface.

(** One worker whose queue holds 1000 frames, the bound; [eth0] is
    registered. *)
Definition saturated : MultiInterfaceSniffer nat :=
  {| interface_manager :=
       {| interfaces :=
            {["eth0" := {| interface_name := "eth0"; packets_captured := 1000;
                           packets_processed_i := 0; packets_dropped := 0;
                           bytes_captured := 0; errors_i := 0;
                           last_packet_time := 0; is_active_i := true |}]} |};
     load_balancer :=
       {| num_workers := 1; strategy := "round-robin"; maxsize := 1000;
          worker_queues := [map (fun n => (n, "eth0")) (seq 0 1000)];
          worker_stats := worker_stats (new_balancer nat 1 "round-robin");
          rr_counter := 1000; interface_affinity := ∅ |} |}.

End QueueScenarios.

(** ** Feature schemas *)

Section SchemaScenarios.
Import FeatureVersioning.

Definition str_le (a b : string) : Prop := String.leb a b = true.

Definition empty_registry : FeatureVersionManager :=
  {| schema_dir := "models/feature_schemas"; schemas := ∅; files := ∅;
     writable := fun _ => true |}.

(** A registration that succeeds. *)
Definition basic_schema : FeatureSchema :=
  {| version := "1.0.0"; name := "basic"; description := "";
     features := ["src_ip"; "dst_ip"; "opcode"]; feature_types := ∅;
     created_at := "2025-01-06T12:00:00"; checksum := "be743eb08e960e69";
     metadata := ∅ |}.

End SchemaScenarios.

(** ** Labels *)

Section ParsedConfidence.
Import AlertSystem ContinuousLearner.
Variable py_float : string -> option float.

(** The confidence that the labeler parses out of an alert: the text after
    the last "confidence:" of the reason, stripped, when Python's [float]
    accepts it. *)
Definition parsed_confidence (alert : Alert) : option float :=
  if Py.contains "confidence:" (reason alert)
  then py_float (rstrip_paren (strip (split_last "confidence:" (reason alert))))
  else None.

End ParsedConfidence.

Section LabelScenarios.
Import AlertSystem ContinuousLearner.

Definition ann_alert (n : Z) (text : string) : Alert :=
  {| id := n; timestamp := None; module := "ANN"; reason := text;
     src_ip := Some "10.0.0.5"; src_mac := Some "11:22:33:44:55:66" |}.

End LabelScenarios.

(** ** Checkpoints and training cycles *)

Section CheckpointScenarios.
Import ANNClassifier.

(** A detector as [ANNDetector.__init__] builds it from a checkpoint with
    three feature columns and the default hidden widths. *)
Definition loaded_detector : ANNDetector :=
  {| model_path := "models/ann_model.pt";
     d_model := tabular_net 3 HIDDEN_DIMS DROPOUT_RATE [0.5; 0.25]%float;
     d_scaler := Some {| mean_ := [0; 0; 0]%float; scale_ := [1; 1; 1]%float |};
     d_numeric_cols := ["src_port"; "dst_port"; "pkt_len"];
     input_size := 3 |}.

(** A detector whose model has no attribute [net]. *)
Definition plain_detector : ANNDetector :=
  {| model_path := "models/ann_model.pt";
     d_model := PlainModule [0.5; 0.25]%float;
     d_scaler := None; d_numeric_cols := ["src_port"];
     input_size := 1 |}.

Definition empty_disk : Disk ContinuousLearner.SavedState :=
  {| files := ∅; calls := [] |}.

End CheckpointScenarios.

Section TrainingScenarios.
Import AlertSystem ANNClassifier ContinuousLearner.

(** Scenario D of the specification: 200 new alerts, 100 from the DFA and
    100 from the classifier with confidence 0.05; the incremental update
    returns accuracy 55 and loss 0.8. *)
Definition scenario_d_alert (n : nat) : Alert :=
  if (n <=? 100)%nat
  then {| id := Z.of_nat n; timestamp := None; module := "DFA";
          reason := "IP-MAC conflict"; src_ip := Some "192.168.1.1";
          src_mac := Some "BA:DD:C0:FF:EE:00" |}
  else {| id := Z.of_nat n; timestamp := None; module := "ANN";
          reason := "Model output (confidence: 0.05)";
          src_ip := Some "10.0.0.5"; src_mac := Some "11:22:33:44:55:66" |}.

Definition scenario_d_table : list Alert := map scenario_d_alert (seq 1 200).

Definition scenario_d_checkpoint : file SavedState :=
  TorchSave {| model_state := [0.5; 0.25]%float;
               scaler := d_scaler loaded_detector;
               numeric_cols := d_numeric_cols loaded_detector;
               hidden_dims := HIDDEN_DIMS; dropout := DROPOUT_RATE |}.

Definition scenario_d_disk : Disk SavedState :=
  {| files := {["models/ann_model.pt" := scenario_d_checkpoint]};
     calls := [] |}.

Definition scenario_d_learner : Learner :=
  {| ann_detector := Some loaded_detector;
     learning_interval := 3600; min_samples := 100;
     max_history := 100 * 100;
     is_training := false; last_training_time := None;
     last_processed_id := 0; training_history := []; model_versions := [];
     current_model := "models/ann_model.pt";
     backup_dir := "models/backups";
     stats_file := "models/continuous_learning_stats.json" |}.

Definition scenario_d_trained : option (Metrics * weights) :=
  Some ({| loss := 0.8; accuracy := 55; samples := 200 |},
        [0.75; 0.125]%float).

Definition scenario_d_clock : Clock :=
  {| backup_stamp := "20250106_120000";
     version_stamp := "2025-01-06T12:00:01";
     finished_at := "2025-01-06T12:00:01";
     record_stamp := "2025-01-06T12:00:01";
     elapsed := 1 |}.

(** Every alert gets a feature vector. *)
Definition scenario_d_features (a : Alert) : option (list Q) := Some [].

Definition scenario_d_cycle : Learner * Disk SavedState :=
  _perform_training_cycle Py.float_of_decimal scenario_d_features
    scenario_d_clock (Some scenario_d_table) scenario_d_trained
    scenario_d_learner scenario_d_disk.

End TrainingScenarios.

(** ** Streams through the ARP analyzer *)

Section AnalyzerStreams.
Import Scapy ARPAnalyzer.

(** [analyze_packet] as the sniffer calls it on a frame. *)
Definition analyze_frame (t : Q) (pkt : ARP) (a : ARPAnalyzer)
    : ARPPacketInfo * ARPAnalyzer :=
  analyze_packet t (hwsrc pkt) (hwdst pkt) (psrc pkt) (pdst pkt) (op pkt) a.

(** The analyzer after a stream of frames, each with its clock reading. *)
Fixpoint analyze_all (frames : list (Q * ARP)) (a : ARPAnalyzer)
    : ARPAnalyzer :=
  match frames with
  | [] => a
  | (t, pkt) :: rest => analyze_all rest (analyze_frame t pkt a).2
  end.

(** The number of frames of a stream with a given opcode. *)
Definition count_op (k : Z) (frames : list (Q * ARP)) : Z :=
  Z.of_nat (length (filter (fun f => op f.2 = k) frames)).

(** Every stored history is within the bound and holds frames of its own
    sender only. *)
Definition histories_bounded (a : ARPAnalyzer) : Prop :=
  forall ip h, packet_history a !! ip = Some h ->
    (length h <= max_history a)%nat /\ Forall (fun p => src_ip p = ip) h.

End AnalyzerStreams.

(** ** MAC addresses and vendors *)

Section VendorPredicates.
Import MACVendor.

(** The character [c] does not occur in [s]. *)
Fixpoint lacks (c : ascii) (s : string) : Prop :=
  match s with
  | EmptyString => True
  | String x rest => x <> c /\ lacks c rest
  end.

(** [mac_clean] of [normalize_mac]: the address without separators, in
    upper case. *)
Definition mac_clean (mac : string) : string :=
  Py.upper (Py.remove_char "." (Py.remove_char "-" (Py.remove_char ":" mac))).

(** The vendor of an address as the table gives it, without the cache. *)
Definition vendor_of (mac : string) : option string :=
  if bool_decide (get_oui mac = "") then None
  else OUI_DATABASE !! get_oui mac.

(** Every cached answer is the table's answer. *)
Definition cache_sound (c : MACVendorChecker) : Prop :=
  forall mac v, cache c !! mac = Some v -> v = vendor_of mac.

(** Lookups in a row through one checker. *)
Fixpoint lookup_all (macs : list string) (c : MACVendorChecker)
    : list (option string) * MACVendorChecker :=
  match macs with
  | [] => ([], c)
  | mac :: rest =>
      let '(vendor, c1) := lookup_vendor mac c in
      let '(vendors, c2) := lookup_all rest c1 in
      (vendor :: vendors, c2)
  end.

End VendorPredicates.

(** ** Streams through the handler *)

Section HandlerStreams.
Import Scapy Sniffer.

(** A frame as the handler meets it: the clock readings of the analyzer
    and of the filter, the vendor checker's result for the frame, and the
    classifier's output ([None] when the call raises). *)
Record Arrival := {
  at_analyzer : Q;
  at_filter : Q;
  frame : ARP;
  vendor_result : VendorAnomalies;
  classifier : option (Z * Q)
}.

Fixpoint handle_all (arrivals : list Arrival) (st : State)
    : list (option AlertCall) * State :=
  match arrivals with
  | [] => ([], st)
  | x :: rest =>
      let '(alert, st1) :=
        _handle_pkt (at_analyzer x) (at_filter x) (frame x)
          (Some (vendor_result x)) (classifier x) st in
      let '(alerts, st2) := handle_all rest st1 in
      (alert :: alerts, st2)
  end.

(** The alert, if any, comes from the filter. *)
Definition from_filter (alert : option AlertCall) : bool :=
  match alert with
  | Some call => bool_decide (a_module call = "DFA")
  | None => false
  end.

End HandlerStreams.

(** ** Assignments to workers *)

Section Assignments.
Import MultiInterface.
Context {P : Type}.

(** The workers that [n] round-robin selections in a row give; the list
    ends early if a selection raises. *)
Fixpoint rr_draws (n : nat) (lb : LoadBalancer P) : list nat :=
  match n with
  | O => []
  | S k =>
      match _get_round_robin_worker lb with
      | (Value w, lb') => w :: rr_draws k lb'
      | _ => []
      end
  end.

(** A burst of frames handed to [assign_packet] one after the other, with
    no worker taking anything in between. *)
Fixpoint assign_all (items : list (P * string)) (lb : LoadBalancer P)
    : LoadBalancer P :=
  match items with
  | [] => lb
  | (packet, interface) :: rest =>
      assign_all rest (assign_packet packet interface lb).2
  end.

(** Worker [w] is active and no active worker has a smaller load; the
    active workers before it have a larger one. *)
Definition least_loaded (stats : list WorkerStats) (w : nat) : Prop :=
  exists st, stats !! w = Some st /\ is_active st = true /\
    forall j st', stats !! j = Some st' -> is_active st' = true ->
      (load st <= load st')%Z /\ ((j < w)%nat -> (load st < load st')%Z).

End Assignments.

Section ProcessedStreams.
Import MultiInterface.

(** The packets that the workers process, in order: the clock reading,
    whether the packet handler returned, and the interface. *)
Fixpoint process_all (packets : list (Q * bool * string))
    (im : InterfaceManager) : outcome InterfaceManager :=
  match packets with
  | [] => Value im
  | (now, handled, name) :: rest =>
      match process_packet now handled name im with
      | Value im' => process_all rest im'
      | Error e => Error e
      | Deadlock => Deadlock
      end
  end.

(** The packets of a stream that came from [name]. *)
Definition packets_of (name : string) (packets : list (Q * bool * string))
    : nat :=
  length (filter (fun p => p.2 = name) packets).

(** Three packets behind the interface of the saturated sniffer: one that
    the packet handler took, one on which it raised, and one of an
    interface that is not registered. *)
Definition three_processed : list (Q * bool * string) :=
  [(1%Q, true, "eth0"); (2%Q, false, "eth0"); (3%Q, true, "eth1")].

End ProcessedStreams.

Section BacklogScenario.
Import AlertSystem ContinuousLearner.

(** 150 alerts of the ARP analyzer, a module that the labeler skips. *)
Definition unlabelled_table : list Alert :=
  map (fun n => {| id := Z.of_nat n; timestamp := None;
                   module := "ARP_ANOMALY";
                   reason := "ARP anomaly: Gratuitous ARP detected";
                   src_ip := Some "10.0.0.5";
                   src_mac := Some "11:22:33:44:55:66" |})
      (seq 1 150).

End BacklogScenario.

Section BindingStreams.
Import Scapy DFA.

(** The bindings that a stream writes, later frames over earlier ones. *)
Definition bindings_after (frames : list (Q * ARP))
    (bindings : gmap string string) : gmap string string :=
  fold_left (fun m f => <[psrc f.2 := hwsrc f.2]> m) frames bindings.

(** Every frame announces [ip], from a MAC other than the one announced
    just before; [prev] is the MAC bound at the start. *)
Fixpoint contested (ip prev : string) (frames : list (Q * ARP)) : Prop :=
  match frames with
  | [] => True
  | (_, pkt) :: rest =>
      psrc pkt = ip /\ hwsrc pkt <> prev /\ contested ip (hwsrc pkt) rest
  end.

(** Two hosts that announce 192.168.1.1 in turn, ten times each, within
    two seconds. *)
Definition tug_of_war : list (Q * ARP) :=
  map (fun n : nat =>
         ((inject_Z (Z.of_nat n) / 10)%Q,
          {| psrc := "192.168.1.1"; pdst := "192.168.1.50";
             hwsrc := if Nat.even n then "BA:DD:C0:FF:EE:00"
                      else "AA:BB:CC:11:22:33";
             hwdst := "00:00:00:00:00:00"; op := 2 |}))
      (seq 0 20).

End BindingStreams.

Section ApiRuns.
Import ANNClassifier ContinuousLearner.

(** Calls of [_ensure_detector] in a row, each with the detector that the
    constructor would build and the disk at that time. *)
Fixpoint ensure_all (calls : list (ANNDetector * string * Disk SavedState))
    (s : Api.State) : Api.State :=
  match calls with
  | [] => s
  | (built, models_dir, d) :: rest =>
      ensure_all rest (Api._ensure_detector built models_dir d s)
  end.

End ApiRuns.

Section BacklogOfTwo.
Import AlertSystem ContinuousLearner.

(** A learner that reads two alerts per cycle, two waiting alerts of the
    ARP analyzer, and a later alert of the filter. *)
Definition learner_of_two : Learner :=
  {| ann_detector := None; learning_interval := 3600; min_samples := 1;
     max_history := 2; is_training := false; last_training_time := None;
     last_processed_id := 0; training_history := []; model_versions := [];
     current_model := "models/ann_model.pt";
     backup_dir := "models/backups";
     stats_file := "models/continuous_learning_stats.json" |}.

Definition waiting_two : list Alert := take 2 unlabelled_table.

Definition later_one : list Alert :=
  [{| id := 3; timestamp := None; module := "DFA";
      reason := "IP-MAC conflict"; src_ip := Some "192.168.1.1";
      src_mac := Some "BA:DD:C0:FF:EE:00" |}].

End BacklogOfTwo.

(** ** Streams of live packets *)

Section PacketStreams.
Import Utils.

(** The state after a stream of packets, each with its clock reading. *)
Fixpoint features_all (packets : list (Q * packet))
    (numeric_columns : list string) (st : State) : State :=
  match packets with
  | [] => st
  | (now, pkt) :: rest =>
      features_all rest numeric_columns
        (features_from_packet now pkt numeric_columns st).2
  end.

(** The clock readings of the packets of a stream that come from [src]. *)
Definition readings_of (src : string) (packets : list (Q * packet))
    : list Q :=
  map fst (filter (fun p => source p.2 = Some src) packets).

(** The readings of a list that lie at most one second before [now]. *)
Definition last_second (now : Q) (readings : list Q) : list Q :=
  filter (fun t => Py.Qgtb (now - t) 1 = false) readings.

End PacketStreams.

Section PacketWindows.
Import Utils.

(** Every window is current as of the last packet of its sender: it holds
    the readings of that sender from the second before that packet. *)
Definition windows_current (packets : list (Q * packet)) (st : State)
    : Prop :=
  forall src, src <> "" ->
    _counter_window st !! src =
      match last (readings_of src packets) with
      | None => None
      | Some t => Some (last_second t (readings_of src packets))
      end.

End PacketWindows.

Section PacketScenario.
Import Scapy Utils.

(** A reply from 10.0.0.5, and three of them at 0 s, 0.5 s and 1.2 s. *)
Definition reply_from_5 : packet :=
  WithARP {| psrc := "10.0.0.5"; pdst := "10.0.0.6";
             hwsrc := "55:55:55:55:55:55"; hwdst := "66:66:66:66:66:66";
             op := 2 |}.

Definition three_replies : list (Q * packet) :=
  [(0%Q, reply_from_5); (0.5%Q, reply_from_5); (1.2%Q, reply_from_5)].

End PacketScenario.

(** ** Operations on the packet buffer *)

Section BufferRuns.
Import PacketBuffer.
Context {P : Type}.

(** A call of [put] or of [get_batch]. *)
Inductive buffer_op :=
| PutOp (packet : P) (block : bool) (timeout : option Q)
| GetOp (reads : nat).

(** Calls in a row; a [put] that does not return leaves the buffer as it
    is.  The result counts the calls of [put] that returned. *)
Fixpoint run_buffer (ops : list buffer_op) (b : PacketBuffer P)
    : nat * PacketBuffer P :=
  match ops with
  | [] => (0%nat, b)
  | PutOp packet block timeout :: rest =>
      match put packet block timeout b with
      | Returned _ b' =>
          let '(n, b'') := run_buffer rest b' in (S n, b'')
      | _ => run_buffer rest b
      end
  | GetOp reads :: rest => run_buffer rest (get_batch reads b).2
  end.

End BufferRuns.

Section ConfidenceInBinary64.

(** The confidence of the vendor check as Python computes it, in binary64:
    the four indicators add 0.3, 0.1, 0.4 and 0.2 in this order, and the
    sum is capped at 1.0. *)
Definition confidence_binary64 (s d b l : bool) : float :=
  let c := 0%float in
  let c := if s then (c + 0.3)%float else c in
  let c := if d then (c + 0.1)%float else c in
  let c := if b then (c + 0.4)%float else c in
  let c := if l then (c + 0.2)%float else c in
  if PrimFloat.ltb 1 c then 1%float else c.

End ConfidenceInBinary64.

(** * Properties *)

(** ** Arithmetic of clock readings *)

Lemma Qgtb_true (a b : Q) : Py.Qgtb a b = true <-> (b < a)%Q.
Proof.
  unfold Py.Qgtb. rewrite negb_true_iff.
  destruct (Qle_bool a b) eqn:E.
  - apply Qle_bool_iff in E. split; [discriminate | intros; lra].
  - split; [intros _ | reflexivity].
    destruct (Qlt_le_dec b a) as [H | H]; [exact H |].
    apply Qle_bool_iff in H. congruence.
Qed.

Lemma Qgtb_false (a b : Q) : Py.Qgtb a b = false <-> (a <= b)%Q.
Proof.
  unfold Py.Qgtb. rewrite negb_false_iff. apply Qle_bool_iff.
Qed.

(** ** The DFA filter: binding conflicts *)

Section DFAFilterFacts.
Import Scapy DFA.

(** The verdicts of a stream and of a prefix followed by one frame. *)
Lemma run_app (xs ys : list (Q * ARP)) (s : DFAFilter) :
  run (xs ++ ys) s =
  ((run xs s).1 ++ (run ys (run xs s).2).1, (run ys (run xs s).2).2).
Proof.
  revert s. induction xs as [| [now pkt] xs IH]; intros s; simpl.
  - by destruct (run ys s).
  - destruct (check now pkt s) as [v s1]. rewrite IH.
    destruct (run xs s1) as [vs s2]. simpl. done.
Qed.

Lemma run_length (xs : list (Q * ARP)) (s : DFAFilter) :
  length (run xs s).1 = length xs.
Proof.
  revert s. induction xs as [| [now pkt] xs IH]; intros s; simpl; [done |].
  destruct (check now pkt s) as [v s1]. specialize (IH s1).
  destruct (run xs s1) as [vs s2]. simpl in *. by rewrite IH.
Qed.

(** Frame [i] is checked in the state that the frames before it leave. *)
Lemma run_lookup (frames : list (Q * ARP)) (s : DFAFilter) (i : nat)
    (now : Q) (pkt : ARP) :
  frames !! i = Some (now, pkt) ->
  (run frames s).1 !! i = Some (check now pkt (run (take i frames) s).2).1.
Proof.
  intros Hi.
  rewrite <- (take_drop i frames) at 1.
  rewrite run_app. simpl.
  assert (Hlen : length (run (take i frames) s).1 = i).
  { rewrite run_length, length_take.
    apply lookup_lt_Some in Hi. lia. }
  rewrite lookup_app_r by lia. rewrite Hlen, Nat.sub_diag.
  rewrite (drop_S _ _ _ Hi). simpl.
  destruct (check now pkt _) as [v s1].
  destruct (run _ s1) as [vs s2]. done.
Qed.

(** The paths through [check]: the sender IP is bound to another MAC
    (conflict), bound to the same MAC, or not bound; in the last two the
    flood rule fires or not. *)
Ltac check_paths pkt s :=
  unfold check;
  let prev := fresh "prev" in
  let Hbound := fresh "Hbound" in
  let Hmac := fresh "Hmac" in
  destruct (ip_mac s !! psrc pkt) as [prev |] eqn:Hbound;
  [ destruct (bool_decide (prev ≠ hwsrc pkt)) eqn:Hmac;
    [ apply bool_decide_eq_true in Hmac
    | apply bool_decide_eq_false in Hmac;
      assert (prev = hwsrc pkt)
        by (destruct (decide (prev = hwsrc pkt)); [done | contradiction]);
      clear Hmac ]
  | ];
  cbn [fst snd];
  try (destruct (_ >? _)%Z eqn:?); cbn [fst snd ip_mac grat_counts].

(** Rule 1, for one check in any state. *)
Lemma check_conflict_iff (now : Q) (pkt : ARP) (s : DFAFilter) :
  is_conflict (check now pkt s).1 = true <->
  exists prev, ip_mac s !! psrc pkt = Some prev /\ prev <> hwsrc pkt.
Proof.
  check_paths pkt s; simpl; split; try done; eauto;
    intros (p & Hp & Hne); congruence.
Qed.

Lemma check_binding (now : Q) (pkt : ARP) (s : DFAFilter) :
  ip_mac (check now pkt s).2 !! psrc pkt = Some (hwsrc pkt).
Proof.
  check_paths pkt s; rewrite ?lookup_insert_eq; congruence.
Qed.

Lemma check_other_binding (now : Q) (pkt : ARP) (s : DFAFilter) (ip : string) :
  ip <> psrc pkt -> ip_mac (check now pkt s).2 !! ip = ip_mac s !! ip.
Proof.
  intros Hne. check_paths pkt s; rewrite ?lookup_insert_ne; done.
Qed.

(** A suspicious verdict is a conflict or a flood. *)
Lemma check_suspicious (now : Q) (pkt : ARP) (s : DFAFilter) :
  is_suspicious (check now pkt s).1 =
  is_conflict (check now pkt s).1 || is_flood (check now pkt s).1.
Proof. check_paths pkt s; done. Qed.

(** C5, as stated, fails: the sixth frame of [storm] is the first sighting
    of its sender IP (no binding exists before it), and the check of that
    frame alerts: it returns the flood verdict. *)
Lemma first_sighting_can_alert :
  ip_mac (run (take 5 storm) DFA.new).2 !! "192.168.1.15" = None /\
  (run storm DFA.new).1 !! 5%nat =
    Some (true, RFlood "ff:ee:dd:cc:bb:aa" 6 5, DFlood "ff:ee:dd:cc:bb:aa" 6).
Proof. split; vm_compute; reflexivity. Qed.

(** C5, amended.  For every frame stream and every frame [i] of it, checked
    in the state [s] left by the frames before it:
    - the check raises the IP-MAC conflict iff [s] binds the frame's sender
      IP to a MAC other than the frame's source MAC;
    - on a conflict the binding is overwritten with the new MAC;
    - on a first sighting the binding is created and no conflict is raised;
      the only alert such a frame can raise is the flood alert of rule 2. *)
Theorem conflict_iff_binding_changed
    (frames : list (Q * ARP)) (s0 : DFAFilter) (i : nat) (now : Q) (pkt : ARP) :
  frames !! i = Some (now, pkt) ->
  let s := (run (take i frames) s0).2 in
  let v := (check now pkt s).1 in
  let s' := (check now pkt s).2 in
  (run frames s0).1 !! i = Some v /\
  (is_conflict v = true <->
     exists prev, ip_mac s !! psrc pkt = Some prev /\ prev <> hwsrc pkt) /\
  (is_conflict v = true -> ip_mac s' !! psrc pkt = Some (hwsrc pkt)) /\
  (ip_mac s !! psrc pkt = None ->
     ip_mac s' !! psrc pkt = Some (hwsrc pkt) /\
     is_conflict v = false /\
     is_suspicious v = is_flood v).
Proof.
  intros Hi s v s'. subst s v s'.
  split; [by apply run_lookup |].
  split; [apply check_conflict_iff |].
  split; [intros _; apply check_binding |].
  intros Hnone. split; [apply check_binding |].
  assert (Hc : is_conflict (check now pkt (run (take i frames) s0).2).1 = false).
  { destruct (is_conflict _) eqn:E; [| done].
    apply check_conflict_iff in E as (prev & Hp & _). congruence. }
  split; [exact Hc |].
  rewrite check_suspicious, Hc. done.
Qed.

(** The second frame of Scenario A is such a frame. *)
Lemma conflict_iff_binding_changed_witness :
  let pkt := {| psrc := "192.168.1.1"; pdst := "192.168.1.50";
                hwsrc := "BA:DD:C0:FF:EE:00"; hwdst := "00:00:00:00:00:00";
                op := 2 |} in
  let s := (run (take 1 spoof) DFA.new).2 in
  let v := (check 1 pkt s).1 in
  let s' := (check 1 pkt s).2 in
  (run spoof DFA.new).1 !! 1%nat = Some v /\
  (is_conflict v = true <->
     exists prev, ip_mac s !! psrc pkt = Some prev /\ prev <> hwsrc pkt) /\
  (is_conflict v = true -> ip_mac s' !! psrc pkt = Some (hwsrc pkt)) /\
  (ip_mac s !! psrc pkt = None ->
     ip_mac s' !! psrc pkt = Some (hwsrc pkt) /\
     is_conflict v = false /\
     is_suspicious v = is_flood v).
Proof.
  apply (conflict_iff_binding_changed spoof DFA.new 1 1).
  reflexivity.
Defined.

(** Scenario A end to end: exactly the second frame alerts, with the
    conflict reason. *)
Example scenario_a :
  (run spoof DFA.new).1 =
  [(false, ROk, DEmpty);
   (true,
    RConflict "192.168.1.1" "AA:BB:CC:11:22:33" "BA:DD:C0:FF:EE:00",
    DConflict "192.168.1.1" "AA:BB:CC:11:22:33" "BA:DD:C0:FF:EE:00")] /\
  forall str_float,
    reason_text str_float
      (RConflict "192.168.1.1" "AA:BB:CC:11:22:33" "BA:DD:C0:FF:EE:00") =
    "IP-MAC conflict: 192.168.1.1 previous AA:BB:CC:11:22:33 now BA:DD:C0:FF:EE:00".
Proof. split; [vm_compute; reflexivity | intros; reflexivity]. Qed.

End DFAFilterFacts.

(** ** The DFA filter: the flood window *)

Section FloodWindow.
Import Scapy DFA.













(** Scenario B end to end: the first five frames pass, the other five raise
    the flood alert with counts 6 to 10. *)
Example scenario_b :
  map (fun v : verdict => v.2) (run flood DFA.new).1 =
  [DEmpty; DEmpty; DEmpty; DEmpty; DEmpty;
   DFlood "DE:AD:BE:EF:CA:FE" 6; DFlood "DE:AD:BE:EF:CA:FE" 7;
   DFlood "DE:AD:BE:EF:CA:FE" 8; DFlood "DE:AD:BE:EF:CA:FE" 9;
   DFlood "DE:AD:BE:EF:CA:FE" 10].
Proof. vm_compute. reflexivity. Qed.

End FloodWindow.

(** ** The ARP analyzer: replies *)

Section Replies.
Import Scapy ARPAnalyzer.

Lemma Qltb_true (a b : Q) : Py.Qltb a b = true <-> (a < b)%Q.
Proof. unfold Py.Qltb. fold (Py.Qgtb b a). apply Qgtb_true. Qed.

Lemma Qmin_spec (a b : Q) :
  ((b < a)%Q /\ Py.Qmin a b = b) \/ ((a <= b)%Q /\ Py.Qmin a b = a).
Proof.
  unfold Py.Qmin. destruct (Py.Qltb b a) eqn:E.
  - left. split; [by apply Qltb_true | done].
  - right. split; [| done]. unfold Py.Qltb in E. fold (Py.Qgtb a b) in E.
    by apply Qgtb_false.
Qed.

(** The score collected before the reply check is never negative. *)
Lemma checks_before_reply_nonneg (info : ARPPacketInfo) (a : ARPAnalyzer) :
  (0 <= (checks_before_reply info a).2)%Q.
Proof.
  unfold checks_before_reply.
  destruct (is_gratuitous info), (is_probe info),
    (Py.Qgtb (packet_rate (get_timing_features (src_ip info) a)) 10),
    (Py.Qgtb (inter_arrival_time info) 0 && Py.Qltb (inter_arrival_time info) 0.1);
    simpl; lra.
Qed.

(** After [analyze_packet] has seen a reply, no request is pending for it:
    an entry that matched was deleted. *)
Lemma reply_leaves_no_pending (t : Q) (smac dmac sip dip : string)
    (a : ARPAnalyzer) :
  pending_requests (analyze_packet t smac dmac sip dip 2 a).2 !! (dip, sip)
  = None.
Proof.
  unfold analyze_packet. simpl.
  destruct (pending_requests a !! (dip, sip)) eqn:E; simpl.
  - apply lookup_delete_eq.
  - exact E.
Qed.

Lemma analyze_packet_info (t : Q) (smac dmac sip dip : string) (opc : Z)
    (a : ARPAnalyzer) :
  let info := (analyze_packet t smac dmac sip dip opc a).1 in
  opcode info = opc /\ src_ip info = sip /\ dst_ip info = dip.
Proof.
  unfold analyze_packet.
  destruct (opc =? 1)%Z; [done |].
  destruct (opc =? 2)%Z; [| done].
  destruct (pending_requests a !! (dip, sip)); done.
Qed.

(** What [detect_anomalies] returns for a reply that [analyze_packet] has
    just processed. *)
Lemma reply_anomalies (t : Q) (smac dmac sip dip : string) (a : ARPAnalyzer) :
  let info := (analyze_packet t smac dmac sip dip 2 a).1 in
  let a' := (analyze_packet t smac dmac sip dip 2 a).2 in
  anomalies (detect_anomalies info a') =
    (checks_before_reply info a').1 ++ [Unsolicited] /\
  severity (detect_anomalies info a') =
    Py.Qmin ((checks_before_reply info a').2 + 0.5) 1.
Proof.
  intros info a'.
  pose proof (reply_leaves_no_pending t smac dmac sip dip a) as Hnone.
  pose proof (analyze_packet_info t smac dmac sip dip 2 a) as (Hop & Hsip & Hdip).
  fold info in Hop, Hsip, Hdip. fold a' in Hnone.
  unfold detect_anomalies. rewrite Hop, Hsip, Hdip, Hnone. done.
Qed.

(** The analyzer alone: [analyze_packet] and then [detect_anomalies] on
    its result.  Every reply (opcode 2), in every analyzer state, gets the
    anomaly "Unsolicited ARP reply (no matching request)" appended and 0.5
    added to its severity before the cap at 1.0: [analyze_packet] has
    removed the pending request that the reply matched, so
    [detect_anomalies] never finds one.  A reply that did match a pending
    request is not counted in [unmatched_replies], and is reported as
    unsolicited all the same. *)
Lemma every_reply_is_reported_unsolicited
    (t : Q) (smac dmac sip dip : string) (a : ARPAnalyzer) :
  let info := (analyze_packet t smac dmac sip dip 2 a).1 in
  let a' := (analyze_packet t smac dmac sip dip 2 a).2 in
  let r := detect_anomalies info a' in
  pending_requests a' !! (dip, sip) = None /\
  anomalies r = (checks_before_reply info a').1 ++ [Unsolicited] /\
  severity r = Py.Qmin ((checks_before_reply info a').2 + 0.5) 1 /\
  has_anomaly r = true /\
  (0.5 <= severity r)%Q /\
  (is_Some (pending_requests a !! (dip, sip)) <->
   unmatched_replies (stats a') = unmatched_replies (stats a)).
Proof.
  intros info a' r.
  pose proof (reply_leaves_no_pending t smac dmac sip dip a) as Hnone.
  fold a' in Hnone.
  destruct (reply_anomalies t smac dmac sip dip a) as [Hanom Hsev].
  fold info a' r in Hanom, Hsev.
  split; [exact Hnone |]. split; [exact Hanom |]. split; [exact Hsev |].
  split; [| split].
  - replace (has_anomaly r) with (0 <? length (anomalies r))%nat by done.
    rewrite Hanom, length_app. simpl. apply Nat.ltb_lt. lia.
  - rewrite Hsev.
    pose proof (checks_before_reply_nonneg info a') as Hpos.
    destruct (Qmin_spec ((checks_before_reply info a').2 + 0.5) 1)
      as [[_ ->] | [_ ->]]; lra.
  - subst a'. unfold analyze_packet. simpl.
    destruct (pending_requests a !! (dip, sip)) eqn:E; simpl.
    + split; [done | eauto].
    + split; [intros [? ?]; done | intros; lia].
Qed.

(** A request from 10.0.0.6 for 10.0.0.5, then the reply to it. *)
Example solicited_reply_still_reported :
  let a1 := (analyze_packet 0 "66:66:66:66:66:66" "00:00:00:00:00:00"
               "10.0.0.6" "10.0.0.5" 1 ARPAnalyzer.new).2 in
  let '(info, a2) := analyze_packet 1 "00:11:22:33:44:55" "66:66:66:66:66:66"
                       "10.0.0.5" "10.0.0.6" 2 a1 in
  pending_requests a1 !! ("10.0.0.6", "10.0.0.5") = Some 0%Q /\
  unmatched_replies (stats a2) = 0%Z /\
  anomalies (detect_anomalies info a2) = [Unsolicited].
Proof. vm_compute. done. Qed.

End Replies.

(** ** The packet handler: the unsolicited reply of Scenario C *)

Section UnsolicitedReply.
Import Scapy ARPAnalyzer Sniffer.

(** The handler raises the ARP_ANOMALY alert only on a severity above
    0.5. *)
Lemma arp_anomaly_alert_needs_high_severity
    (t1 t2 : Q) (pkt : ARP) (vendor : option VendorAnomalies)
    (ann : option (Z * Q)) (st : State) (alert : AlertCall) :
  (_handle_pkt t1 t2 pkt vendor ann st).1 = Some alert ->
  a_module alert = "ARP_ANOMALY" ->
  let info := (analyze_packet t1 (hwsrc pkt) (hwdst pkt) (psrc pkt) (pdst pkt)
                 (op pkt) (arp_analyzer st)).1 in
  let a' := (analyze_packet t1 (hwsrc pkt) (hwdst pkt) (psrc pkt) (pdst pkt)
               (op pkt) (arp_analyzer st)).2 in
  Py.Qgtb (severity (detect_anomalies info a')) 0.5 = true /\
  a_reason alert = ArpAnomalyReason (anomalies (detect_anomalies info a')).
Proof.
  unfold _handle_pkt.
  destruct (analyze_packet _ _ _ _ _ _ _) as [info a']. cbn [fst snd].
  remember (detect_anomalies info a') as res eqn:Hres.
  destruct vendor as [v |]; [| discriminate].
  destruct (DFA.check t2 pkt (dfa st)) as [[[is_bad r] d] dfa'].
  destruct is_bad; cbn [fst snd].
  { intros [= <-]. discriminate. }
  destruct (has_anomaly res && Py.Qgtb (severity res) 0.5) eqn:E;
    cbn [fst snd].
  { intros [= <-] _. apply andb_true_iff in E as [_ E]. done. }
  destruct (v_has_anomaly v && _); cbn [fst snd].
  { intros [= <-]. discriminate. }
  destruct ann as [[predicted prob] |]; [| discriminate].
  destruct (predicted =? 1)%Z; [| discriminate].
  intros [= <-]. discriminate.
Qed.

(** Whenever the handler raises ARP_ANOMALY for a reply, the reason ends
    with the unsolicited-reply anomaly, matched request or not. *)
Corollary reply_alert_lists_unsolicited
    (t1 t2 : Q) (pkt : ARP) (vendor : option VendorAnomalies)
    (ann : option (Z * Q)) (st : State) (alert : AlertCall) :
  op pkt = 2%Z ->
  (_handle_pkt t1 t2 pkt vendor ann st).1 = Some alert ->
  a_module alert = "ARP_ANOMALY" ->
  exists before, a_reason alert = ArpAnomalyReason (before ++ [Unsolicited]).
Proof.
  intros Hop Hcall Hmod.
  destruct (arp_anomaly_alert_needs_high_severity _ _ _ _ _ _ _ Hcall Hmod)
    as [_ Hreason].
  cbv zeta in Hreason. rewrite Hop in Hreason.
  destruct (reply_anomalies t1 (hwsrc pkt) (hwdst pkt) (psrc pkt) (pdst pkt)
              (arp_analyzer st)) as [Hanom _].
  cbv zeta in Hanom. rewrite Hanom in Hreason. eauto.
Qed.

(** The handler always leaves the analyzer as [analyze_packet] left it. *)
Lemma handle_pkt_analyzer
    (t1 t2 : Q) (pkt : ARP) (vendor : option VendorAnomalies)
    (ann : option (Z * Q)) (st : State) :
  arp_analyzer (_handle_pkt t1 t2 pkt vendor ann st).2 =
  (analyze_packet t1 (hwsrc pkt) (hwdst pkt) (psrc pkt) (pdst pkt) (op pkt)
     (arp_analyzer st)).2.
Proof.
  unfold _handle_pkt.
  destruct (analyze_packet _ _ _ _ _ _ _) as [info a']. cbn [fst snd].
  remember (detect_anomalies info a') as res eqn:Hres.
  destruct vendor as [v |]; [| done].
  destruct (DFA.check t2 pkt (dfa st)) as [[[is_bad r] d] dfa'].
  destruct is_bad; [done |].
  destruct (has_anomaly res && Py.Qgtb (severity res) 0.5); [done |].
  destruct (v_has_anomaly v && _); [done |].
  destruct ann as [[predicted prob] |]; [| done].
  destruct (predicted =? 1)%Z; done.
Qed.

(** What the analyzer makes of that frame when it is the first frame it
    sees and the destination MAC is not the broadcast address. *)
Lemma lone_reply_analysis (t : Q) (smac dmac : string) :
  Py.upper dmac <> "FF:FF:FF:FF:FF:FF" ->
  let info := (analyze_packet t smac dmac "10.0.0.5" "10.0.0.6" 2
                 ARPAnalyzer.new).1 in
  let a' := (analyze_packet t smac dmac "10.0.0.5" "10.0.0.6" 2
               ARPAnalyzer.new).2 in
  unmatched_replies (stats a') = 1%Z /\
  anomalies (detect_anomalies info a') = [Unsolicited] /\
  has_anomaly (detect_anomalies info a') = true /\
  severity (detect_anomalies info a') = (0 + 0.5)%Q.
Proof.
  intros Hd info a'.
  assert (Hinfo : info =
    {| timestamp := t; src_mac := smac; dst_mac := dmac;
       src_ip := "10.0.0.5"; dst_ip := "10.0.0.6"; opcode := 2;
       is_gratuitous := false; is_probe := false;
       inter_arrival_time := 0 |}).
  { subst info. unfold analyze_packet, ARPAnalyzer.new, init. simpl.
    rewrite !lookup_empty. simpl.
    unfold _is_gratuitous_arp. simpl.
    rewrite (bool_decide_eq_false_2 _ Hd). done. }
  assert (Hhist : packet_history a' !! "10.0.0.5" = Some [info]).
  { subst a'. unfold analyze_packet, ARPAnalyzer.new, init. simpl.
    rewrite !lookup_empty. simpl. rewrite lookup_insert_eq.
    unfold deque_append. simpl. rewrite Hinfo.
    unfold _is_gratuitous_arp. simpl.
    rewrite (bool_decide_eq_false_2 _ Hd). done. }
  assert (Hpend : pending_requests a' !! ("10.0.0.6", "10.0.0.5") = None).
  { apply reply_leaves_no_pending. }
  assert (Hcount : unmatched_replies (stats a') = 1%Z).
  { subst a'. unfold analyze_packet, ARPAnalyzer.new, init. simpl.
    rewrite !lookup_empty. done. }
  assert (Htiming : get_timing_features "10.0.0.5" a' = no_timing).
  { unfold get_timing_features. rewrite Hhist. done. }
  assert (Hbefore : checks_before_reply info a' = ([], 0%Q)).
  { unfold checks_before_reply.
    replace (src_ip info) with "10.0.0.5" by (rewrite Hinfo; done).
    rewrite Htiming.
    replace (is_gratuitous info) with false by (rewrite Hinfo; done).
    replace (is_probe info) with false by (rewrite Hinfo; done).
    replace (inter_arrival_time info) with 0%Q by (rewrite Hinfo; done).
    done. }
  split; [exact Hcount |].
  unfold detect_anomalies. rewrite Hbefore.
  replace (opcode info) with 2%Z by (rewrite Hinfo; done).
  replace (dst_ip info) with "10.0.0.6" by (rewrite Hinfo; done).
  replace (src_ip info) with "10.0.0.5" by (rewrite Hinfo; done).
  rewrite Hpend. simpl. done.
Qed.

(** C4, as stated, fails.  The reply of Scenario C (destination MAC
    00:00:00:00:00:00, which scapy fills in when none is given), fed as the
    only frame to a fresh handler, raises no alert of module ARP_ANOMALY,
    whatever the vendor checker and the classifier answer. *)
Lemma lone_reply_raises_no_arp_anomaly :
  ~ exists vendor ann alert,
      (_handle_pkt 0 0 (reply_frame "00:11:22:33:44:55" "00:00:00:00:00:00")
         vendor ann Sniffer.new).1 = Some alert /\
      a_module alert = "ARP_ANOMALY".
Proof.
  intros (vendor & ann & alert & Hcall & Hmod).
  destruct (arp_anomaly_alert_needs_high_severity _ _ _ _ _ _ _ Hcall Hmod)
    as [Hsev _].
  destruct (lone_reply_analysis 0 "00:11:22:33:44:55" "00:00:00:00:00:00")
    as (_ & _ & _ & Hhalf); [by vm_compute |].
  cbv zeta in Hhalf.
  change (Py.Qgtb (severity (detect_anomalies
            (analyze_packet 0 "00:11:22:33:44:55" "00:00:00:00:00:00"
               "10.0.0.5" "10.0.0.6" 2 ARPAnalyzer.new).1
            (analyze_packet 0 "00:11:22:33:44:55" "00:00:00:00:00:00"
               "10.0.0.5" "10.0.0.6" 2 ARPAnalyzer.new).2)) 0.5 = true)
    in Hsev.
  rewrite Hhalf in Hsev. vm_compute in Hsev. discriminate.
Qed.

(** C4, amended.  A single ARP reply (opcode 2, sender 10.0.0.5, target
    10.0.0.6) whose destination MAC is not the broadcast address, fed to a
    fresh handler: the analyzer counts one unmatched reply and reports
    exactly the anomaly "Unsolicited ARP reply (no matching request)", with
    severity 0.5.  The handler raises ARP_ANOMALY only for a severity above
    0.5, so this frame raises no ARP_ANOMALY alert. *)
Theorem lone_unsolicited_reply
    (t1 t2 : Q) (smac dmac : string) (vendor : option VendorAnomalies)
    (ann : option (Z * Q)) :
  Py.upper dmac <> "FF:FF:FF:FF:FF:FF" ->
  let info := (analyze_packet t1 smac dmac "10.0.0.5" "10.0.0.6" 2
                 ARPAnalyzer.new).1 in
  let a' := (analyze_packet t1 smac dmac "10.0.0.5" "10.0.0.6" 2
               ARPAnalyzer.new).2 in
  let out := _handle_pkt t1 t2 (reply_frame smac dmac) vendor ann Sniffer.new in
  unmatched_replies (stats a') =
    (unmatched_replies (stats ARPAnalyzer.new) + 1)%Z /\
  anomalies (detect_anomalies info a') = [Unsolicited] /\
  has_anomaly (detect_anomalies info a') = true /\
  (severity (detect_anomalies info a') == 0.5)%Q /\
  (forall f2 f1, Py.contains "Unsolicited ARP reply"
                   (anomaly_text f2 f1 Unsolicited) = true) /\
  arp_analyzer out.2 = a' /\
  (forall alert, out.1 = Some alert -> a_module alert <> "ARP_ANOMALY").
Proof.
  intros Hd info a' out.
  destruct (lone_reply_analysis t1 smac dmac Hd) as (Hcount & Hanom & Has & Hsev).
  fold info a' in Hcount, Hanom, Has, Hsev.
  split; [rewrite Hcount; done |].
  split; [exact Hanom |]. split; [exact Has |].
  split; [rewrite Hsev; lra |].
  split; [intros; vm_compute; done |].
  split.
  - subst out a'. apply handle_pkt_analyzer.
  - intros alert Hcall Hmod.
    destruct (arp_anomaly_alert_needs_high_severity _ _ _ _ _ _ _ Hcall Hmod)
      as [Hhigh _].
    change (Py.Qgtb (severity (detect_anomalies info a')) 0.5 = true) in Hhigh.
    rewrite Hsev in Hhigh. vm_compute in Hhigh. discriminate.
Qed.

(** The frame of Scenario C, with the destination MAC that scapy fills
    in. *)
Lemma lone_unsolicited_reply_witness :
  let smac := "00:11:22:33:44:55" in
  let dmac := "00:00:00:00:00:00" in
  let vendor : option VendorAnomalies := None in
  let ann : option (Z * Q) := None in
  let info := (analyze_packet 0 smac dmac "10.0.0.5" "10.0.0.6" 2
                 ARPAnalyzer.new).1 in
  let a' := (analyze_packet 0 smac dmac "10.0.0.5" "10.0.0.6" 2
               ARPAnalyzer.new).2 in
  let out := _handle_pkt 0 0 (reply_frame smac dmac) vendor ann Sniffer.new in
  unmatched_replies (stats a') =
    (unmatched_replies (stats ARPAnalyzer.new) + 1)%Z /\
  anomalies (detect_anomalies info a') = [Unsolicited] /\
  has_anomaly (detect_anomalies info a') = true /\
  (severity (detect_anomalies info a') == 0.5)%Q /\
  (forall f2 f1, Py.contains "Unsolicited ARP reply"
                   (anomaly_text f2 f1 Unsolicited) = true) /\
  arp_analyzer out.2 = a' /\
  (forall alert, out.1 = Some alert -> a_module alert <> "ARP_ANOMALY").
Proof.
  apply (lone_unsolicited_reply 0 0 "00:11:22:33:44:55" "00:00:00:00:00:00").
  vm_compute. discriminate.
Defined.

(** With a broadcast destination MAC the same reply is also gratuitous: the
    severity is 0.9 and the handler does raise ARP_ANOMALY, with both
    anomalies in the reason. *)
Example broadcast_reply_raises_arp_anomaly :
  let vendor := {| v_has_anomaly := false; v_anomalies := [];
                   src_vendor := None; dst_vendor := None;
                   v_confidence := 0 |} in
  let out := (_handle_pkt 0 0
                (reply_frame "00:11:22:33:44:55" "ff:ff:ff:ff:ff:ff")
                (Some vendor) None Sniffer.new).1 in
  (a_module <$> out) = Some "ARP_ANOMALY" /\
  (a_reason <$> out) = Some (ArpAnomalyReason [Gratuitous; Unsolicited]).
Proof. vm_compute. done. Qed.

End UnsolicitedReply.

(** ** The packet handler: replies *)

Section HandlerReplies.
Import Scapy ARPAnalyzer Sniffer.

(** The severity of a reply exceeds 0.5 as soon as one of the other checks
    scored. *)
Lemma reply_severity_high (b : Q) :
  (0 <= b)%Q ->
  (Py.Qgtb (Py.Qmin (b + 0.5) 1) 0.5 = true <-> (0 < b)%Q).
Proof.
  intros Hb. rewrite Qgtb_true.
  destruct (Qmin_spec (b + 0.5) 1) as [[H ->] | [H ->]]; split; intros; lra.
Qed.

(** C10: the packet handler reports every reply as unsolicited.  For every
    reply (opcode 2) that [_handle_pkt] processes, in every state and
    whatever the vendor check (when it returns) and the classifier say:
    - the handler runs [analyze_packet] before [detect_anomalies], so the
      analyzer it leaves holds no pending request for the reply; a reply
      that matched one is not counted in [unmatched_replies];
    - every alert that the handler raises for the frame, of any module,
      carries in its details the severity with the 0.5 of the unsolicited
      reply added before the cap at 1.0;
    - an ARP_ANOMALY alert lists "Unsolicited ARP reply" after the
      anomalies of the other checks, and is raised only if one of those
      scored;
    - when the filter passes the frame, any score of another check is
      enough to raise the ARP_ANOMALY alert: the 0.5 of the unsolicited
      reply lifts the severity over the handler's threshold. *)
Theorem handler_reports_every_reply_unsolicited
    (t1 t2 : Q) (pkt : ARP) (v : VendorAnomalies) (ann : option (Z * Q))
    (st : State) :
  op pkt = 2%Z ->
  let out := _handle_pkt t1 t2 pkt (Some v) ann st in
  let info := (analyze_packet t1 (hwsrc pkt) (hwdst pkt) (psrc pkt) (pdst pkt)
                 (op pkt) (arp_analyzer st)).1 in
  let a' := arp_analyzer out.2 in
  let before := checks_before_reply info a' in
  pending_requests a' !! (pdst pkt, psrc pkt) = None /\
  (is_Some (pending_requests (arp_analyzer st) !! (pdst pkt, psrc pkt)) <->
   unmatched_replies (stats a') = unmatched_replies (stats (arp_analyzer st))) /\
  (forall alert, out.1 = Some alert ->
     arp_anomaly_severity (a_details alert) = Py.Qmin (before.2 + 0.5) 1 /\
     (0.5 <= arp_anomaly_severity (a_details alert))%Q) /\
  (forall alert, out.1 = Some alert -> a_module alert = "ARP_ANOMALY" ->
     (0 < before.2)%Q /\
     a_reason alert = ArpAnomalyReason (before.1 ++ [Unsolicited]) /\
     d_arp_anomalies (a_details alert) = Some (before.1 ++ [Unsolicited])) /\
  (DFA.is_suspicious (DFA.check t2 pkt (dfa st)).1 = false ->
   (0 < before.2)%Q ->
   exists alert, out.1 = Some alert /\ a_module alert = "ARP_ANOMALY").
Proof.
  intros Hop out info a' before.
  assert (Ha : a' = (analyze_packet t1 (hwsrc pkt) (hwdst pkt) (psrc pkt)
                       (pdst pkt) (op pkt) (arp_analyzer st)).2).
  { subst a' out. apply handle_pkt_analyzer. }
  pose proof (reply_leaves_no_pending t1 (hwsrc pkt) (hwdst pkt) (psrc pkt)
                (pdst pkt) (arp_analyzer st)) as Hnone.
  destruct (reply_anomalies t1 (hwsrc pkt) (hwdst pkt) (psrc pkt) (pdst pkt)
              (arp_analyzer st)) as [Hanom Hsev].
  cbv zeta in Hanom, Hsev. rewrite <- Hop in Hnone, Hanom, Hsev.
  rewrite <- Ha in Hnone, Hanom, Hsev. fold info in Hanom, Hsev.
  fold before in Hanom, Hsev.
  pose proof (checks_before_reply_nonneg info a') as Hpos. fold before in Hpos.
  assert (Hhas : has_anomaly (detect_anomalies info a') = true).
  { replace (has_anomaly (detect_anomalies info a'))
      with (0 <? length (anomalies (detect_anomalies info a')))%nat by done.
    rewrite Hanom, length_app. simpl. apply Nat.ltb_lt. lia. }
  assert (Hhalf : (0.5 <= Py.Qmin (before.2 + 0.5) 1)%Q).
  { destruct (Qmin_spec (before.2 + 0.5) 1) as [[_ ->] | [_ ->]]; lra. }
  pose proof (reply_severity_high before.2 Hpos) as Hhigh.
  rewrite <- Hsev in Hhigh.
  split; [exact Hnone |]. split.
  { rewrite Ha, Hop. unfold analyze_packet. simpl.
    destruct (pending_requests (arp_analyzer st) !! (pdst pkt, psrc pkt))
      eqn:E; simpl.
    - split; [done | eauto].
    - split; [intros [? ?]; done | intros; lia]. }
  clear Hnone. clearbody before. clearbody a'. subst a'.
  revert Hanom Hsev Hhas Hhigh Hpos Hhalf. subst out info. unfold _handle_pkt.
  destruct (analyze_packet _ _ _ _ _ _ _) as [info a1]. cbn [fst snd].
  remember (detect_anomalies info a1) as res eqn:Hres.
  destruct (DFA.check t2 pkt (dfa st)) as [[[is_bad r] d] dfa'].
  unfold DFA.is_suspicious. cbn [fst snd].
  destruct is_bad; cbn [fst snd arp_analyzer].
  { intros Hanom Hsev Hhas Hhigh Hpos Hhalf. split; [| split].
    - intros alert [= <-]. cbn. rewrite Hsev. done.
    - intros alert [= <-]. discriminate.
    - discriminate. }
  destruct (has_anomaly res && Py.Qgtb (severity res) 0.5) eqn:E;
    cbn [fst snd arp_analyzer].
  { intros Hanom Hsev Hhas Hhigh Hpos Hhalf.
    apply andb_true_iff in E as [_ E]. split; [| split].
    - intros alert [= <-]. cbn. rewrite Hsev. done.
    - intros alert [= <-] _. cbn. rewrite Hanom.
      split; [by apply Hhigh | done].
    - intros _ _. eexists. split; [reflexivity | done]. }
  assert (Hlow : forall (P : Prop), has_anomaly res = true ->
            (Py.Qgtb (severity res) 0.5 = true <-> P) -> ~ P).
  { intros P H1 H2 HP. apply H2 in HP. rewrite H1, HP in E. discriminate. }
  destruct (v_has_anomaly v && _); cbn [fst snd arp_analyzer].
  { intros Hanom Hsev Hhas Hhigh Hpos Hhalf. split; [| split].
    - intros alert [= <-]. cbn. rewrite Hsev. done.
    - intros alert [= <-]. discriminate.
    - intros _ Hb. by destruct (Hlow _ Hhas Hhigh). }
  destruct ann as [[predicted prob] |]; cbn [fst snd arp_analyzer].
  2: { intros Hanom Hsev Hhas Hhigh Hpos Hhalf. split; [| split]; try discriminate.
       intros _ Hb. by destruct (Hlow _ Hhas Hhigh). }
  destruct (predicted =? 1)%Z; cbn [fst snd arp_analyzer].
  2: { intros Hanom Hsev Hhas Hhigh Hpos Hhalf. split; [| split]; try discriminate.
       intros _ Hb. by destruct (Hlow _ Hhas Hhigh). }
  intros Hanom Hsev Hhas Hhigh Hpos Hhalf. split; [| split].
  - intros alert [= <-]. cbn. rewrite Hsev. done.
  - intros alert [= <-]. discriminate.
  - intros _ Hb. by destruct (Hlow _ Hhas Hhigh).
Qed.

End HandlerReplies.

Section HandlerRepliesExamples.
Import Scapy ARPAnalyzer Sniffer.

(** The answer of 10.0.0.5 to the pending request of 10.0.0.6. *)
Lemma handler_reports_every_reply_unsolicited_witness :
  let out := _handle_pkt 0.05 0.05 solicited_reply (Some quiet_vendor) None
               after_requests in
  let info := (analyze_packet 0.05 (hwsrc solicited_reply)
                 (hwdst solicited_reply) (psrc solicited_reply)
                 (pdst solicited_reply) (op solicited_reply)
                 (arp_analyzer after_requests)).1 in
  let a' := arp_analyzer out.2 in
  let before := checks_before_reply info a' in
  pending_requests a' !! (pdst solicited_reply, psrc solicited_reply) = None /\
  (is_Some (pending_requests (arp_analyzer after_requests)
              !! (pdst solicited_reply, psrc solicited_reply)) <->
   unmatched_replies (stats a')
   = unmatched_replies (stats (arp_analyzer after_requests))) /\
  (forall alert, out.1 = Some alert ->
     arp_anomaly_severity (a_details alert) = Py.Qmin (before.2 + 0.5) 1 /\
     (0.5 <= arp_anomaly_severity (a_details alert))%Q) /\
  (forall alert, out.1 = Some alert -> a_module alert = "ARP_ANOMALY" ->
     (0 < before.2)%Q /\
     a_reason alert = ArpAnomalyReason (before.1 ++ [Unsolicited]) /\
     d_arp_anomalies (a_details alert) = Some (before.1 ++ [Unsolicited])) /\
  (DFA.is_suspicious (DFA.check 0.05 solicited_reply (dfa after_requests)).1
   = false ->
   (0 < before.2)%Q ->
   exists alert, out.1 = Some alert /\ a_module alert = "ARP_ANOMALY").
Proof.
  apply (handler_reports_every_reply_unsolicited 0.05 0.05 solicited_reply
           quiet_vendor None after_requests).
  reflexivity.
Defined.

(** The answer to a pending request raises the alert: the request of
    10.0.0.6 is pending when 10.0.0.5 answers it, the answer is not counted
    as unmatched, and the handler reports it as an unsolicited reply, next
    to the two timing anomalies of a quick exchange. *)
Example solicited_reply_raises_alert :
  let out := _handle_pkt 0.05 0.05 solicited_reply (Some quiet_vendor) None
               after_requests in
  pending_requests (arp_analyzer after_requests) !! ("10.0.0.6", "10.0.0.5")
  = Some 0.01%Q /\
  unmatched_replies (stats (arp_analyzer out.2)) = 0%Z /\
  (a_module <$> out.1) = Some "ARP_ANOMALY" /\
  (exists rate dt, (rate == 40)%Q /\ (dt == 0.05)%Q /\
     (a_reason <$> out.1)
     = Some (ArpAnomalyReason [HighRate rate; Rapid dt; Unsolicited])) /\
  (exists sev, (sev == 1)%Q /\
     (arp_anomaly_severity <$> (a_details <$> out.1)) = Some sev).
Proof.
  vm_compute. repeat split; try done.
  - eexists _, _. split; [| split; [| reflexivity]]; done.
  - eexists. split; [| reflexivity]. done.
Qed.

End HandlerRepliesExamples.

(** ** The broadcast of alert events *)

Section BroadcastFacts.
Import WebSocketManager AlertSystem.
Context {M : Type}.
Variable send_text : WebSocket -> M -> send_outcome.

Local Abbreviation receives := (receives send_text).
Local Abbreviation raises := (raises send_text).
Local Abbreviation completes := (completes send_text).
Local Abbreviation broadcast_all := (broadcast_all send_text).

Lemma send_loop_completes (message : M) (conns : list WebSocket) :
  Forall (completes message) conns ->
  send_loop send_text conns message =
  (List.filter (receives message) conns,
   List.filter (raises message) conns, true).
Proof.
  induction 1 as [| c rest Hc Hrest IH]; simpl; [done |].
  unfold receives, raises, completes in *.
  destruct (send_text c message); rewrite ?IH; done.
Qed.

Lemma send_loop_suspended (message : M) (pre post : list WebSocket)
    (c : WebSocket) :
  Forall (completes message) pre -> send_text c message = Suspended ->
  send_loop send_text (pre ++ c :: post) message =
  (List.filter (receives message) pre,
   List.filter (raises message) pre, false).
Proof.
  intros Hpre Hc. induction Hpre as [| x rest Hx Hrest IH]; simpl.
  - by rewrite Hc.
  - unfold receives, raises, completes in *.
    destruct (send_text x message); rewrite ?IH; done.
Qed.

Lemma filter_keeps_all (f : WebSocket -> bool) (l : list WebSocket) :
  (forall z, In z l -> f z = true) -> List.filter f l = l.
Proof.
  induction l as [| y rest IH]; simpl; intros H; [done |].
  rewrite (H y) by auto. f_equal. apply IH. auto.
Qed.

Lemma list_remove_filter (x : WebSocket) (l : list WebSocket) :
  NoDup l -> list_remove x l = List.filter (fun y => negb (bool_decide (x = y))) l.
Proof.
  induction 1 as [| y rest Hy Hnd IH]; simpl; [done |].
  destruct (bool_decide (x = y)) eqn:E; simpl.
  - apply bool_decide_eq_true in E as <-.
    symmetry. apply filter_keeps_all.
    intros z Hz. apply negb_true_iff, bool_decide_eq_false.
    intros ->. apply Hy. by apply list_elem_of_In.
  - by rewrite IH.
Qed.

Lemma disconnect_filter (x : WebSocket) (l : list WebSocket) :
  NoDup l ->
  disconnect x {| active_connections := l |} =
  {| active_connections :=
       List.filter (fun y => negb (bool_decide (x = y))) l |}.
Proof.
  intros Hnd. unfold disconnect. simpl.
  destruct (bool_decide (x ∈ l)) eqn:E.
  - by rewrite list_remove_filter.
  - apply bool_decide_eq_false in E. f_equal.
    symmetry. apply filter_keeps_all.
    intros z Hz. apply negb_true_iff, bool_decide_eq_false.
    intros ->. apply E. by apply list_elem_of_In.
Qed.

Lemma NoDup_list_filter (f : WebSocket -> bool) (l : list WebSocket) :
  NoDup l -> NoDup (List.filter f l).
Proof.
  induction 1 as [| y rest Hy Hnd IH]; simpl; [constructor |].
  destruct (f y); [| done]. constructor; [| done].
  rewrite list_elem_of_In, List.filter_In, <- list_elem_of_In. tauto.
Qed.

Lemma disconnect_all (gone l : list WebSocket) :
  NoDup l ->
  fold_left (fun m conn => disconnect conn m) gone
    {| active_connections := l |} =
  {| active_connections :=
       List.filter (fun y => negb (bool_decide (y ∈ gone))) l |}.
Proof.
  revert l. induction gone as [| x rest IH]; intros l Hnd; simpl.
  - f_equal. symmetry. apply filter_keeps_all.
    intros z _. reflexivity.
  - rewrite disconnect_filter by done.
    rewrite IH by (by apply NoDup_list_filter). f_equal.
    induction l as [| y l IHl]; simpl; [done |].
    apply NoDup_cons in Hnd as [_ Hnd].
    destruct (bool_decide (x = y)) eqn:Exy; simpl.
    + apply bool_decide_eq_true in Exy as ->.
      rewrite (bool_decide_eq_true_2 (y ∈ y :: rest))
        by (apply list_elem_of_here).
      simpl. by apply IHl.
    + apply bool_decide_eq_false in Exy.
      destruct (bool_decide (y ∈ rest)) eqn:Er; simpl.
      * apply bool_decide_eq_true in Er.
        rewrite (bool_decide_eq_true_2 (y ∈ x :: rest))
          by (by apply list_elem_of_further).
        simpl. by apply IHl.
      * apply bool_decide_eq_false in Er.
        rewrite (bool_decide_eq_false_2 (y ∈ x :: rest))
          by (intros [-> | ?]%elem_of_cons; done).
        simpl. f_equal. by apply IHl.
Qed.

(** A broadcast in which every send completes. *)
Lemma broadcast_completes (message : M) (conns : list WebSocket) :
  NoDup conns -> Forall (completes message) conns ->
  broadcast send_text message {| active_connections := conns |} =
  Returned
    {| active_connections :=
         List.filter (fun c => negb (raises message c)) conns |}
    (List.filter (receives message) conns).
Proof.
  intros Hnd Hall. unfold broadcast. simpl.
  destruct conns as [| c0 rest] eqn:Hconns; [done |].
  rewrite <- Hconns in *. clear Hconns.
  rewrite send_loop_completes by done.
  rewrite disconnect_all by done. f_equal. f_equal.
  apply List.filter_ext_in. intros y Hy. f_equal.
  destruct (raises message y) eqn:E.
  - apply bool_decide_eq_true. apply list_elem_of_In, List.filter_In. done.
  - apply bool_decide_eq_false. rewrite list_elem_of_In, List.filter_In.
    intros [_ ?]. congruence.
Qed.

(** A broadcast in which the send to [c] stays suspended. *)
Lemma broadcast_suspended (message : M) (pre post : list WebSocket)
    (c : WebSocket) :
  Forall (completes message) pre -> send_text c message = Suspended ->
  broadcast send_text message {| active_connections := pre ++ c :: post |} =
  Waiting (List.filter (receives message) pre).
Proof.
  intros Hpre Hc. unfold broadcast. simpl.
  rewrite send_loop_suspended by done.
  destruct (pre ++ c :: post) eqn:E; [| done].
  by destruct pre.
Qed.

(** With clients that take every message, every message reaches every
    client, however many there are: nothing is queued and nothing is
    dropped. *)
Lemma broadcast_all_delivers (messages : list M) (conns : list WebSocket) :
  NoDup conns ->
  (forall c message, c ∈ conns -> send_text c message = Sent) ->
  broadcast_all messages {| active_connections := conns |} =
  (map (fun _ => conns) messages, Some {| active_connections := conns |}).
Proof.
  intros Hnd Hsent. induction messages as [| message rest IH]; simpl; [done |].
  rewrite broadcast_completes; [| done |].
  - assert (Hkeep : List.filter (fun c => negb (raises message c)) conns = conns).
    { apply filter_keeps_all. intros z Hz. unfold raises.
      rewrite Hsent by (by apply list_elem_of_In). done. }
    assert (Hgot : List.filter (receives message) conns = conns).
    { apply filter_keeps_all. intros z Hz. unfold receives.
      rewrite Hsent by (by apply list_elem_of_In). done. }
    rewrite Hkeep, Hgot, IH. done.
  - apply Forall_forall. intros c Hc. unfold completes.
    rewrite Hsent by done. done.
Qed.

End BroadcastFacts.

Section BroadcastOfAlerts.
Import WebSocketManager AlertSystem.

(** C7: a subscriber that does not take the event blocks the producer and
    the subscribers after it.  [generate_alert] runs the broadcast with
    [asyncio.run], which returns when the coroutine has finished, and
    [broadcast] awaits each send in turn: for every state, every alert and
    every behaviour of the clients, if the send to a connection [c] stays
    suspended (the sends to the connections before it complete), then
    [generate_alert] does not return, although the row is committed, and
    the event has reached only those of the connections before [c] whose
    send succeeded; the connections after [c] have nothing. *)
Theorem pending_send_blocks_generate_alert
    (send_text : WebSocket -> event -> send_outcome) (now : DateTime)
    (module reason : string) (src_ip src_mac : option string) (s : State)
    (pre post : list WebSocket) (c : WebSocket) :
  let alert := {| id := next_id s; timestamp := Some now; module := module;
                  reason := reason; src_ip := src_ip; src_mac := src_mac |} in
  active_connections (manager s) = pre ++ c :: post ->
  Forall (completes send_text (NewAlert alert)) pre ->
  send_text c (NewAlert alert) = Suspended ->
  generate_alert send_text now true module reason src_ip src_mac s =
  Blocked {| alerts := alerts s ++ [alert]; next_id := (next_id s + 1)%Z;
             manager := manager s |}
          (List.filter (receives send_text (NewAlert alert)) pre).
Proof.
  intros alert Hconns Hpre Hc.
  destruct s as [rows next [conns]]. simpl in *. subst conns.
  unfold generate_alert. simpl.
  rewrite broadcast_suspended by done. done.
Qed.

(** A client that never takes the data, connected ahead of a healthy
    one. *)
Lemma pending_send_blocks_generate_alert_witness :
  generate_alert slow_client noon true "DFA" "IP-MAC conflict" None None
    slow_then_fast =
  Blocked
    {| alerts :=
         alerts slow_then_fast ++
           [{| id := next_id slow_then_fast; timestamp := Some noon;
               module := "DFA"; reason := "IP-MAC conflict"; src_ip := None;
               src_mac := None |}];
       next_id := (next_id slow_then_fast + 1)%Z;
       manager := manager slow_then_fast |}
    (List.filter
       (receives slow_client
          (NewAlert {| id := next_id slow_then_fast; timestamp := Some noon;
                       module := "DFA"; reason := "IP-MAC conflict";
                       src_ip := None; src_mac := None |}))
       []).
Proof.
  apply (pending_send_blocks_generate_alert slow_client noon "DFA"
           "IP-MAC conflict" None None slow_then_fast [] [2%nat] 1%nat).
  - reflexivity.
  - constructor.
  - reflexivity.
Defined.

(** The same call, evaluated: the healthy client has received nothing. *)
Example slow_subscriber_blocks_the_producer :
  generate_alert slow_client noon true "DFA" "IP-MAC conflict" None None
    slow_then_fast =
  Blocked
    {| alerts := [{| id := 1; timestamp := Some noon; module := "DFA";
                     reason := "IP-MAC conflict"; src_ip := None;
                     src_mac := None |}];
       next_id := 2;
       manager := {| active_connections := [1; 2]%nat |} |}
    [].
Proof. vm_compute. reflexivity. Qed.

(** What [generate_alert] does with an event, for connections that are
    each registered once: it sends the event to the active connections one
    after the other, in the order of connection; the code has no
    per-subscriber queue, no bound and no drop counter.
    - If every send completes, the call returns, every client whose send
      succeeded has the event, and the clients whose send raised are
      disconnected.
    - If the send to a client stays suspended, the call does not return
      and no client after that one gets the event.
    - Clients that take every event get every event of any sequence of
      broadcasts, however long. *)
Lemma broadcast_is_synchronous
    (send_text : WebSocket -> event -> send_outcome) (now : DateTime)
    (module reason : string) (src_ip src_mac : option string) (s : State) :
  NoDup (active_connections (manager s)) ->
  let conns := active_connections (manager s) in
  let alert := {| id := next_id s; timestamp := Some now; module := module;
                  reason := reason; src_ip := src_ip; src_mac := src_mac |} in
  let stored := alerts s ++ [alert] in
  (Forall (completes send_text (NewAlert alert)) conns ->
   generate_alert send_text now true module reason src_ip src_mac s =
   Done {| alerts := stored; next_id := (next_id s + 1)%Z;
           manager :=
             {| active_connections :=
                  List.filter (fun c => negb (raises send_text (NewAlert alert) c))
                    conns |} |}
        (List.filter (receives send_text (NewAlert alert)) conns)) /\
  (forall pre c post,
     conns = pre ++ c :: post ->
     Forall (completes send_text (NewAlert alert)) pre ->
     send_text c (NewAlert alert) = Suspended ->
     generate_alert send_text now true module reason src_ip src_mac s =
     Blocked {| alerts := stored; next_id := (next_id s + 1)%Z;
                manager := manager s |}
             (List.filter (receives send_text (NewAlert alert)) pre)) /\
  (forall events,
     (forall c e, c ∈ conns -> send_text c e = Sent) ->
     broadcast_all send_text events (manager s) =
     (map (fun _ => conns) events, Some (manager s))).
Proof.
  intros Hnd conns alert stored.
  destruct s as [rows next [conns0]]. simpl in *. subst conns.
  split; [| split].
  - intros Hall. unfold generate_alert. simpl.
    rewrite broadcast_completes by done. done.
  - intros pre c post -> Hpre Hc. unfold generate_alert. simpl.
    rewrite broadcast_suspended by done. done.
  - intros events Hsent. by apply broadcast_all_delivers.
Qed.

(** Three distinct clients satisfy the hypothesis. *)
Lemma broadcast_is_synchronous_witness :
  let send_text := second_fails in
  let s := three_clients in
  let conns := active_connections (manager s) in
  let alert := {| id := next_id s; timestamp := Some noon; module := "DFA";
                  reason := "flood"; src_ip := None; src_mac := None |} in
  let stored := alerts s ++ [alert] in
  (Forall (completes send_text (NewAlert alert)) conns ->
   generate_alert send_text noon true "DFA" "flood" None None s =
   Done {| alerts := stored; next_id := (next_id s + 1)%Z;
           manager :=
             {| active_connections :=
                  List.filter (fun c => negb (raises send_text (NewAlert alert) c))
                    conns |} |}
        (List.filter (receives send_text (NewAlert alert)) conns)) /\
  (forall pre c post,
     conns = pre ++ c :: post ->
     Forall (completes send_text (NewAlert alert)) pre ->
     send_text c (NewAlert alert) = Suspended ->
     generate_alert send_text noon true "DFA" "flood" None None s =
     Blocked {| alerts := stored; next_id := (next_id s + 1)%Z;
                manager := manager s |}
             (List.filter (receives send_text (NewAlert alert)) pre)) /\
  (forall events,
     (forall c e, c ∈ conns -> send_text c e = Sent) ->
     broadcast_all send_text events (manager s) =
     (map (fun _ => conns) events, Some (manager s))).
Proof.
  apply (broadcast_is_synchronous second_fails noon "DFA" "flood" None None
           three_clients).
  apply (bool_decide_unpack _). vm_compute. exact I.
Defined.

(** The client whose send raised is gone after the broadcast; the two
    others have the event. *)
Example failing_client_is_disconnected :
  generate_alert second_fails noon true "DFA" "flood" None None three_clients =
  Done {| alerts := [{| id := 1; timestamp := Some noon; module := "DFA";
                        reason := "flood"; src_ip := None; src_mac := None |}];
          next_id := 2;
          manager := {| active_connections := [1; 3]%nat |} |}
       [1; 3]%nat.
Proof. vm_compute. reflexivity. Qed.

(** A healthy client gets all of 100 events, more than any bound of 64. *)
Example hundred_events_all_delivered :
  let events := map (fun n => NewAlert {| id := Z.of_nat n; timestamp := Some noon;
                                          module := "DFA"; reason := "flood";
                                          src_ip := None; src_mac := None |})
                    (seq 1 100) in
  length (List.filter (fun got => bool_decide (got = [7%nat]))
            (broadcast_all (fun _ _ => Sent) events
               {| active_connections := [7%nat] |}).1) = 100%nat.
Proof. vm_compute. reflexivity. Qed.

End BroadcastOfAlerts.

(** ** The dispatcher: a full worker queue *)

Section FullQueue.
Import MultiInterface.
Context {P : Type}.

Lemma update_stats_keeps_dropped (now : Q) (iface name : string)
    (packets bytes_count errs : Z) (im : InterfaceManager) :
  packets_dropped <$> (interfaces (update_stats now iface packets bytes_count 0 errs im) !! name)
  = packets_dropped <$> (interfaces im !! name).
Proof.
  unfold update_stats.
  destruct (interfaces im !! iface) as [stats |] eqn:E; [| done]. simpl.
  destruct (decide (iface = name)) as [<- | Hne].
  - rewrite lookup_insert_eq, E. simpl. f_equal. lia.
  - by rewrite lookup_insert_ne.
Qed.

(** C8: the code at the failing input.  When the queue of the lane that
    [assign_packet] selects is full, the handler returns normally (nothing
    is raised upstream) and the frame is in no queue; but no counter
    records the drop: the worker statistics are unchanged and
    [packets_dropped] of every interface keeps its value, while the frame
    is counted in [packets_captured] like a delivered one. *)
Theorem full_queue_drop_is_not_counted
    (now : Q) (iface : string) (pkt : P) (s : MultiInterfaceSniffer P)
    (w : nat) (q : list (P * string)) :
  chosen_worker iface (load_balancer s) = Value w ->
  worker_queues (load_balancer s) !! w = Some q ->
  (0 < maxsize (load_balancer s) <= length q)%nat ->
  let out := handler now iface pkt s in
  out.1 = Value tt /\
  worker_queues (load_balancer out.2) = worker_queues (load_balancer s) /\
  worker_stats (load_balancer out.2) = worker_stats (load_balancer s) /\
  (forall name,
     packets_dropped <$> (interfaces (interface_manager out.2) !! name) =
     packets_dropped <$> (interfaces (interface_manager s) !! name)) /\
  (forall stats, interfaces (interface_manager s) !! iface = Some stats ->
     packets_captured <$> (interfaces (interface_manager out.2) !! iface) =
     Some (packets_captured stats + 1)%Z).
Proof.
  intros Hw Hq [Hpos Hfull] out.
  assert (Hput : put_nowait (maxsize (load_balancer s)) q (pkt, iface) = None).
  { unfold put_nowait.
    rewrite (proj2 (Nat.ltb_lt _ _) Hpos), (proj2 (Nat.leb_le _ _) Hfull).
    done. }
  assert (Hassign :
    exists lb1, assign_packet pkt iface (load_balancer s) = (Value false, lb1) /\
                worker_queues lb1 = worker_queues (load_balancer s) /\
                worker_stats lb1 = worker_stats (load_balancer s)).
  { unfold assign_packet, chosen_worker in *.
    destruct (bool_decide (strategy (load_balancer s) = "round-robin")).
    - unfold _get_round_robin_worker in *.
      destruct (num_workers (load_balancer s)); [discriminate |].
      cbn [fst snd] in Hw. injection Hw as <-.
      cbn [worker_queues maxsize]. rewrite Hq, Hput. eauto.
    - destruct (bool_decide (strategy (load_balancer s) = "least-loaded")).
      + injection Hw as <-. rewrite Hq, Hput. eauto.
      + destruct (bool_decide (strategy (load_balancer s) = "affinity")).
        * rewrite Hw, Hq, Hput. eauto.
        * injection Hw as <-. rewrite Hq, Hput. eauto. }
  destruct Hassign as (lb1 & Hassign & Hqueues & Hstats).
  subst out. unfold handler. rewrite Hassign. simpl.
  split; [done |]. split; [done |]. split; [done |]. split.
  - intros name. apply update_stats_keeps_dropped.
  - intros stats Hs. unfold update_stats. rewrite Hs. simpl.
    by rewrite lookup_insert_eq.
Qed.

End FullQueue.

Section FullQueueExample.
Import MultiInterface.

(** The hypotheses hold of [saturated]. *)
Lemma full_queue_drop_is_not_counted_witness :
  let s := saturated in
  let out := handler 7 "eth0" 1000%nat s in
  out.1 = Value tt /\
  worker_queues (load_balancer out.2) = worker_queues (load_balancer s) /\
  worker_stats (load_balancer out.2) = worker_stats (load_balancer s) /\
  (forall name,
     packets_dropped <$> (interfaces (interface_manager out.2) !! name) =
     packets_dropped <$> (interfaces (interface_manager s) !! name)) /\
  (forall stats, interfaces (interface_manager s) !! "eth0" = Some stats ->
     packets_captured <$> (interfaces (interface_manager out.2) !! "eth0") =
     Some (packets_captured stats + 1)%Z).
Proof.
  apply (full_queue_drop_is_not_counted 7 "eth0" 1000%nat saturated 0
           (map (fun n => (n, "eth0")) (seq 0 1000))).
  - reflexivity.
  - reflexivity.
  - vm_compute. split; apply (bool_decide_unpack _); vm_compute; exact I.
Defined.

(** The same, evaluated: the drop leaves [packets_dropped] at 0. *)
Example saturated_drop :
  let out := handler 7 "eth0" 1000%nat saturated in
  out.1 = Value tt /\
  length <$> (worker_queues (load_balancer out.2) !! 0%nat) = Some 1000%nat /\
  packets_dropped <$> (interfaces (interface_manager out.2) !! "eth0") = Some 0%Z /\
  packets_captured <$> (interfaces (interface_manager out.2) !! "eth0") = Some 1001%Z.
Proof. vm_compute. done. Qed.

(** In affinity mode the first frame of an interface never gets a lane:
    the selection takes [self.lock] twice. *)
Example affinity_first_frame_deadlocks :
  (assign_packet 0%nat "eth0" (new_balancer nat 4 "affinity")).1 = Deadlock.
Proof. reflexivity. Qed.

End FullQueueExample.

(** ** Feature schemas: the checksum of a registered schema *)

Section SchemaChecksum.
Import FeatureVersioning.

(** [sorted] returns its argument rearranged in ascending order. *)
Lemma insert_sorted_perm (x : string) (l : list string) :
  Permutation (insert_sorted x l) (x :: l).
Proof.
  induction l as [| y rest IH]; simpl; [done |].
  destruct (String.leb x y); [done |].
  rewrite IH. apply Permutation_swap.
Qed.

Lemma sorted_perm (l : list string) : Permutation (sorted l) l.
Proof.
  induction l as [| x rest IH]; simpl; [done |].
  rewrite insert_sorted_perm. by constructor.
Qed.

Lemma insert_sorted_ordered (x : string) (l : list string) :
  Sorted str_le l -> Sorted str_le (insert_sorted x l).
Proof.
  induction 1 as [| y rest Hs IH Hhd]; simpl.
  - repeat constructor.
  - destruct (String.leb x y) eqn:E.
    + constructor; [by constructor | by constructor].
    + assert (Hyx : str_le y x).
      { destruct (String.leb_total x y) as [H | H]; [congruence | done]. }
      constructor; [exact IH |].
      destruct rest as [| z rest]; simpl.
      * by constructor.
      * destruct (String.leb x z); constructor; [done |].
        by inversion Hhd.
Qed.

Lemma sorted_ordered (l : list string) : Sorted str_le (sorted l).
Proof.
  induction l as [| x rest IH]; simpl; [constructor |].
  by apply insert_sorted_ordered.
Qed.

(** The digest is eight words, its rendering 64 hexadecimal characters. *)
Lemma round_length (v : list Z) (kw : Z * Z) :
  length v = 8%nat -> length (Hashlib.round v kw) = 8%nat.
Proof.
  intros H. do 9 (destruct v as [| ? v]; try discriminate). done.
Qed.

Lemma compress_length (h block : list Z) :
  length h = 8%nat -> length (Hashlib.compress h block) = 8%nat.
Proof.
  intros H. unfold Hashlib.compress, Hashlib.zip_add.
  rewrite length_map, length_zip_with.
  assert (Hfold : forall kws v, length v = 8%nat ->
                    length (fold_left Hashlib.round kws v) = 8%nat).
  { induction kws as [| kw kws IH]; intros v Hv; simpl; [done |].
    apply IH. by apply round_length. }
  rewrite Hfold by done. lia.
Qed.

Lemma digest_length (msg : list Z) : length (Hashlib.digest msg) = 8%nat.
Proof.
  unfold Hashlib.digest.
  generalize (map Hashlib.words
                (Hashlib.chunks (length (Hashlib.pad msg) / 64) 64
                   (Hashlib.pad msg))).
  assert (H0 : length Hashlib.H0 = 8%nat) by done.
  revert H0. generalize Hashlib.H0.
  intros h Hh blocks. revert h Hh.
  induction blocks as [| b blocks IH]; intros h Hh; simpl; [done |].
  apply IH. by apply compress_length.
Qed.

Lemma hexdigest_length (data : list Z) :
  String.length (Hashlib.sha256_hexdigest data) = 64%nat.
Proof.
  unfold Hashlib.sha256_hexdigest.
  pose proof (digest_length data) as H.
  remember (Hashlib.digest data) as d eqn:Hd. clear Hd.
  do 9 (destruct d as [| ? d]; try discriminate).
  clear H.
  assert (Hlen : forall l, String.length (string_of_list_ascii l) = length l).
  { induction l as [| c l IH]; simpl; congruence. }
  rewrite Hlen. done.
Qed.

Lemma substring_length (n : nat) (s : string) :
  (n <= String.length s)%nat -> String.length (String.substring 0 n s) = n.
Proof.
  revert s. induction n as [| n IH]; intros s H.
  - by destruct s.
  - destruct s as [| c s]; simpl in *; [lia |]. rewrite IH; [done | lia].
Qed.

(** C9.  For every schema that [register_schema] registers, fetching it by
    its version returns that schema, and its checksum is the first 16
    hexadecimal characters of the SHA-256 digest of its feature names taken
    in sorted order (joined with "|"). *)
Theorem registered_schema_checksum
    (now version name description : string) (features : list string)
    (feature_types : gmap string string)
    (metadata : option (gmap string string))
    (m m' : FeatureVersionManager) (schema : FeatureSchema) :
  register_schema now version name features feature_types description
    metadata m = (Some schema, m') ->
  exists in_order,
    Permutation in_order features /\ Sorted str_le in_order /\
    get_schema version m' = Some schema /\
    FeatureVersioning.features schema = features /\
    checksum schema =
      String.substring 0 16
        (Hashlib.sha256_hexdigest (Hashlib.encode (Py.join "|" in_order))) /\
    String.length (checksum schema) = 16%nat.
Proof.
  unfold register_schema.
  destruct (writable m (schema_file m version)); [| discriminate].
  intros [= <- <-]. exists (sorted features).
  split; [apply sorted_perm |]. split; [apply sorted_ordered |].
  split; [unfold get_schema; simpl; apply lookup_insert_eq |].
  split; [done |]. split; [done |].
  simpl. unfold _compute_checksum.
  apply substring_length. rewrite hexdigest_length. lia.
Qed.

Lemma registered_schema_checksum_witness :
  let m' := (register_schema "2025-01-06T12:00:00" "1.0.0" "basic"
               ["src_ip"; "dst_ip"; "opcode"] ∅ "" None empty_registry).2 in
  exists in_order,
    Permutation in_order ["src_ip"; "dst_ip"; "opcode"] /\
    Sorted str_le in_order /\
    get_schema "1.0.0" m' = Some basic_schema /\
    FeatureVersioning.features basic_schema = ["src_ip"; "dst_ip"; "opcode"] /\
    checksum basic_schema =
      String.substring 0 16
        (Hashlib.sha256_hexdigest (Hashlib.encode (Py.join "|" in_order))) /\
    String.length (checksum basic_schema) = 16%nat.
Proof.
  apply (registered_schema_checksum "2025-01-06T12:00:00" "1.0.0" "basic" ""
           ["src_ip"; "dst_ip"; "opcode"] ∅ None empty_registry).
  vm_compute. reflexivity.
Defined.

(** The checksum of the three features above, as Python computes it. *)
Example checksum_value :
  _compute_checksum ["src_ip"; "dst_ip"; "opcode"] = "be743eb08e960e69" /\
  _compute_checksum ["opcode"; "src_ip"; "dst_ip"] = "be743eb08e960e69".
Proof. split; vm_compute; reflexivity. Qed.

(** The first and last round constants and the initial hash value. *)
Example sha256_constants :
  length Hashlib.K = 64%nat /\
  head Hashlib.K = Some 0x428a2f98%Z /\ last Hashlib.K = Some 0xc67178f2%Z /\
  head Hashlib.H0 = Some 0x6a09e667%Z /\ last Hashlib.H0 = Some 0x5be0cd19%Z.
Proof. vm_compute. done. Qed.

(** SHA-256 on the two standard test messages. *)
Example sha256_abc :
  Hashlib.sha256_hexdigest (Hashlib.encode "abc") =
  "ba7816bf8f01cfea414140de5dae2223b00361a396177a9cb410ff61f20015ad".
Proof. vm_compute. reflexivity. Qed.

Example sha256_empty :
  Hashlib.sha256_hexdigest (Hashlib.encode "") =
  "e3b0c44298fc1c149afbf4c8996fb92427ae41e4649b934ca495991b7852b855".
Proof. vm_compute. reflexivity. Qed.

End SchemaChecksum.

(** ** The continuous learner: the auto-labeler *)

Section AutoLabel.
Import AlertSystem ContinuousLearner.
Variable py_float : string -> option float.

Local Abbreviation parsed_confidence := (parsed_confidence py_float).

(** C3, amended.  The auto-labeler returns: label 1 for every alert with
    module DFA; for module ANN, label 1 if the parsed confidence is at
    least 0.95, label 0 if it is at most 0.30, skip if a confidence was
    parsed and is neither (strictly between, or not a number), and label 1
    if no confidence can be parsed from the alert; skip for every other
    module. *)
Theorem auto_label_table (alert : Alert) :
  (module alert = "DFA" -> _auto_label_alert py_float alert = Some 1%Z) /\
  (module alert = "ANN" ->
     match parsed_confidence alert with
     | Some confidence =>
         (PrimFloat.leb 0.95 confidence = true ->
          _auto_label_alert py_float alert = Some 1%Z) /\
         (PrimFloat.leb 0.95 confidence = false ->
          PrimFloat.leb confidence 0.30 = true ->
          _auto_label_alert py_float alert = Some 0%Z) /\
         (PrimFloat.leb 0.95 confidence = false ->
          PrimFloat.leb confidence 0.30 = false ->
          _auto_label_alert py_float alert = None)
     | None => _auto_label_alert py_float alert = Some 1%Z
     end) /\
  (module alert <> "DFA" -> module alert <> "ANN" ->
   _auto_label_alert py_float alert = None).
Proof.
  unfold _auto_label_alert, parsed_confidence.
  split; [| split].
  - intros ->. done.
  - intros ->. simpl.
    destruct (Py.contains "confidence:" (reason alert)); [| done].
    destruct (py_float _) as [confidence |]; [| done].
    destruct (PrimFloat.leb 0.95 confidence);
      destruct (PrimFloat.leb confidence 0.30); repeat split; done.
  - intros Hd Ha.
    rewrite (bool_decide_eq_false_2 _ Hd), (bool_decide_eq_false_2 _ Ha). done.
Qed.

End AutoLabel.

Section AutoLabelExamples.
Import AlertSystem ContinuousLearner.

(** C3, as stated, fails: an ANN alert with the reason that the packet
    handler writes carries no confidence value, and the labeler returns
    label 1 for it, not skip. *)
Lemma ann_without_confidence_is_labelled_attack :
  parsed_confidence Py.float_of_decimal
    (ann_alert 7 "Model predicted spoof (prob=0.9876)") = None /\
  _auto_label_alert Py.float_of_decimal
    (ann_alert 7 "Model predicted spoof (prob=0.9876)") = Some 1%Z.
Proof. split; vm_compute; reflexivity. Qed.

(** The alerts of tests/test_continuous_learning.py, and one in between. *)
Example label_high_confidence :
  _auto_label_alert Py.float_of_decimal
    (ann_alert 2 "Suspicious traffic (confidence: 0.96)") = Some 1%Z.
Proof. vm_compute. reflexivity. Qed.

Example label_low_confidence :
  _auto_label_alert Py.float_of_decimal
    (ann_alert 3 "Low confidence alert (confidence: 0.25)") = Some 0%Z.
Proof. vm_compute. reflexivity. Qed.

Example label_uncertain :
  _auto_label_alert Py.float_of_decimal
    (ann_alert 4 "Unclear (confidence: 0.60)") = None.
Proof. vm_compute. reflexivity. Qed.

Example label_boundaries :
  _auto_label_alert Py.float_of_decimal
    (ann_alert 5 "edge (confidence: 0.95)") = Some 1%Z /\
  _auto_label_alert Py.float_of_decimal
    (ann_alert 6 "edge (confidence: 0.30)") = Some 0%Z.
Proof. split; vm_compute; reflexivity. Qed.

Example label_unparsable :
  _auto_label_alert Py.float_of_decimal
    (ann_alert 8 "odd (confidence: high)") = Some 1%Z.
Proof. vm_compute. reflexivity. Qed.

Example label_other_module :
  _auto_label_alert Py.float_of_decimal
    {| id := 9; timestamp := None; module := "ARP_ANOMALY";
       reason := "ARP anomaly: Gratuitous ARP detected (confidence: 0.99)";
       src_ip := None; src_mac := None |} = None.
Proof. vm_compute. reflexivity. Qed.

End AutoLabelExamples.

(** ** The classifier: saving a checkpoint *)

Section SaveCheckpoint.
Import ANNClassifier.
Context {J : Type}.

(** What the checkpoint save does to the disk.  An invocation that
    completes has persisted the model state, the scaler, the ordered
    feature names, the hidden widths and the dropout to the given path (the
    detector's own path when none is given), by one direct write of the
    target.  No invocation writes a temporary file or renames one: every
    filesystem call it adds is a write of the target itself.  An invocation
    that raises leaves the disk as it was. *)
Lemma save_checkpoint_writes_target_directly
    (path : option string) (det : ANNDetector) (d : Disk J) :
  let out := save_checkpoint path det d in
  let target := default (model_path det) path in
  (forall p, out.1 = Ok p ->
     p = target /\
     exists ck,
       files out.2 !! target = Some (TorchSave ck) /\
       model_state ck = state_dict (d_model det) /\
       scaler ck = d_scaler det /\
       numeric_cols ck = d_numeric_cols det /\
       hidden_dims ck = HIDDEN_DIMS /\
       dropout ck = DROPOUT_RATE /\
       calls out.2 = calls d ++ [Write target (TorchSave ck)]) /\
  (forall e, out.1 = Raise e -> out.2 = d) /\
  (exists added,
     calls out.2 = calls d ++ added /\
     Forall (fun c => exists content, c = Write target content) added) /\
  (forall other, other <> target ->
     files out.2 !! other = files d !! other).
Proof.
  intros out target. subst out target. unfold save_checkpoint.
  destruct (d_model det) as [net w | w]; simpl.
  - assert (Hraise : exists e, hidden_dims_of_net net = Raise e).
    { destruct net as [| [] ?]; simpl; eauto. }
    destruct Hraise as [e ->]. simpl.
    split; [discriminate |]. split; [done |]. split; [| done].
    exists []. by rewrite app_nil_r.
  - split; [| split; [discriminate |]; split].
    + intros p [= <-]. split; [done |].
      eexists. split; [apply lookup_insert_eq |]. done.
    + eexists. split; [done |]. repeat constructor. eauto.
    + intros other Hne. by rewrite lookup_insert_ne.
Qed.

(** The first layer of every [TabularNet] is a [Linear]. *)
Lemma tabular_net_first_layer (input_dim : Z) (dims : list Z) (p : float)
    (w : weights) :
  exists n out rest, tabular_net input_dim dims p w =
                     TabularNet (Linear n out :: rest) w.
Proof.
  unfold tabular_net. destruct dims as [| h dims]; simpl; eauto.
Qed.

End SaveCheckpoint.

Section SaveOnLoadedModel.
Import ANNClassifier ContinuousLearner.

(** C2: the checkpoint save fails on every loaded model.  The model of a
    detector is the [TabularNet] that the constructor builds from the
    checkpoint (any input width, hidden widths, dropout and weights); its
    first layer is a [Linear], whose [out_features] is an [int], and
    [save_checkpoint] reads the hidden widths as [list] of it.  So for
    every such detector, every path and every disk the call raises
    [TypeError] before [torch.save] is reached and the disk is as it was;
    and [_save_model_version], which calls it with the learner's model path
    and drops the exception, leaves the disk and the learner as they were:
    no checkpoint is written and no version is recorded. *)
Theorem save_checkpoint_raises_on_loaded_model
    (input_dim : Z) (dims : list Z) (p : float) (w : weights)
    (path : option string) (det : ANNDetector) (now : string)
    (metrics : option Metrics) (l : Learner) (d : Disk SavedState) :
  d_model det = tabular_net input_dim dims p w ->
  ann_detector l = Some det ->
  save_checkpoint path det d = (Raise "TypeError", d) /\
  _save_model_version now metrics l d = (l, d) /\
  files (save_checkpoint path det d).2 !! default (model_path det) path
  = files d !! default (model_path det) path.
Proof.
  intros Hm Hl.
  assert (Hsave : forall q, save_checkpoint q det d = (Raise "TypeError", d)).
  { intros q.
    destruct (tabular_net_first_layer input_dim dims p w)
      as (n & out & rest & Hnet).
    unfold save_checkpoint. rewrite Hm, Hnet. done. }
  split; [apply Hsave |]. split.
  - unfold _save_model_version. rewrite Hl, Hsave. done.
  - rewrite Hsave. done.
Qed.

(** The detector of Scenario D, loaded from models/ann_model.pt, and the
    learner that holds it. *)
Lemma save_checkpoint_raises_on_loaded_model_witness :
  save_checkpoint (Some "models/ann_model.pt") loaded_detector scenario_d_disk
  = (Raise "TypeError", scenario_d_disk) /\
  _save_model_version "2025-01-06T12:00:01" None scenario_d_learner
    scenario_d_disk
  = (scenario_d_learner, scenario_d_disk) /\
  files (save_checkpoint (Some "models/ann_model.pt") loaded_detector
           scenario_d_disk).2
    !! default (model_path loaded_detector) (Some "models/ann_model.pt")
  = files scenario_d_disk
    !! default (model_path loaded_detector) (Some "models/ann_model.pt").
Proof.
  apply (save_checkpoint_raises_on_loaded_model 3 HIDDEN_DIMS DROPOUT_RATE
           [0.5; 0.25]%float (Some "models/ann_model.pt") loaded_detector
           "2025-01-06T12:00:01" None scenario_d_learner scenario_d_disk).
  - reflexivity.
  - reflexivity.
Defined.

End SaveOnLoadedModel.

Section SaveCheckpointExamples.
Import ANNClassifier.

(** On a loaded model the save raises (the hidden widths are read with
    [list] of an [int]) and nothing is written to the given path.  Where
    the save does complete, the only filesystem call is the write of the
    target itself: there is no temporary file and no rename. *)
Example save_checkpoint_is_not_an_atomic_save :
  save_checkpoint (Some "models/ann_model.pt") loaded_detector empty_disk =
    (Raise "TypeError", empty_disk) /\
  calls (save_checkpoint (Some "models/ann_model.pt") plain_detector
           empty_disk).2 =
    [Write "models/ann_model.pt"
       (TorchSave {| model_state := [0.5; 0.25]%float; scaler := None;
                     numeric_cols := ["src_port"];
                     hidden_dims := HIDDEN_DIMS; dropout := DROPOUT_RATE |})].
Proof. split; vm_compute; reflexivity. Qed.

(** A module without the attribute [net]: the save completes, at the
    detector's own path when none is given. *)
Example save_checkpoint_of_plain_module :
  (save_checkpoint None plain_detector empty_disk).1 =
    Ok "models/ann_model.pt" /\
  files (save_checkpoint None plain_detector empty_disk).2
    !! "models/ann_model.pt" =
    Some (TorchSave {| model_state := [0.5; 0.25]%float; scaler := None;
                       numeric_cols := ["src_port"];
                       hidden_dims := HIDDEN_DIMS; dropout := DROPOUT_RATE |}).
Proof. vm_compute. done. Qed.

End SaveCheckpointExamples.

(** ** The continuous learner: a rejected cycle *)

Section RejectedCycle.
Import AlertSystem ANNClassifier ContinuousLearner.
Variable py_float : string -> option float.
Variable features_of : Alert -> option (list Q).

Lemma incremental_train_paths (trained : option (Metrics * weights))
    (l : Learner) :
  let l' := (_incremental_train trained l).2 in
  current_model l' = current_model l /\ stats_file l' = stats_file l /\
  last_processed_id l' = last_processed_id l /\
  training_history l' = training_history l /\
  model_versions l' = model_versions l.
Proof.
  unfold _incremental_train.
  destruct (ann_detector l); [| done].
  destruct trained as [[m w] |]; done.
Qed.

(** The backup leaves the current checkpoint in place; the path it returns,
    if any, holds a copy of it and is another path. *)
Lemma backup_keeps_current (ts : string) (l : Learner)
    (d : Disk SavedState) (ck : file SavedState) :
  files d !! current_model l = Some ck ->
  let out := _backup_current_model ts l d in
  files out.2 !! current_model l = Some ck /\
  (forall b, out.1 = Some b ->
     b <> current_model l /\ files out.2 !! b = Some ck).
Proof.
  intros Hck. unfold _backup_current_model, copy2. rewrite Hck.
  destruct (bool_decide (current_model l = backup_file l ts)) eqn:E; simpl.
  - split; [done | discriminate].
  - apply bool_decide_eq_false in E. split.
    + by rewrite lookup_insert_ne.
    + intros b [= <-]. split; [done | apply lookup_insert_eq].
Qed.

(** The rollback copies the backup over the current checkpoint. *)
Lemma rollback_restores_current (backup_path : option string) (l : Learner)
    (d : Disk SavedState) (ck : file SavedState) :
  files d !! current_model l = Some ck ->
  (forall b, backup_path = Some b ->
     b <> current_model l /\ files d !! b = Some ck) ->
  let out := _rollback_model backup_path l d in
  files out.2 !! current_model l = Some ck /\
  last_processed_id out.1 = last_processed_id l /\
  training_history out.1 = training_history l /\
  stats_file out.1 = stats_file l /\
  current_model out.1 = current_model l.
Proof.
  intros Hck Hb. unfold _rollback_model.
  destruct backup_path as [b |]; [| done].
  destruct (Hb b eq_refl) as [Hne Hfile]. rewrite Hfile.
  unfold copy2. rewrite Hfile.
  rewrite (bool_decide_eq_false_2 _ Hne). simpl.
  destruct (ann_detector l) as [det |]; simpl.
  - destruct (reload_model det _); simpl; rewrite lookup_insert_eq; done.
  - rewrite lookup_insert_eq. done.
Qed.

(** C1, amended.  For every training cycle that has enough labelled
    samples to run, with a classifier checkpoint on disk (and the state file
    at another path):
    - if validation rejects the candidate model, the on-disk classifier
      checkpoint after the cycle is the pre-cycle checkpoint;
    - whether validation accepts or rejects, the cycle updates the learner
      state: [last_processed_id] becomes the maximum id among the labelled
      alerts of the batch, [last_training_time] is set, one record is
      appended to the history, and [is_training] is cleared. *)
Theorem rejected_cycle_keeps_checkpoint_only
    (clock : Clock) (table : list Alert)
    (trained : option (Metrics * weights)) (l : Learner)
    (d : Disk SavedState) (ck : file SavedState) :
  files d !! current_model l = Some ck ->
  stats_file l <> current_model l ->
  let batch := _collect_training_data py_float features_of l table in
  (min_samples l <= Z.of_nat (length batch.1.1))%Z ->
  let out := _perform_training_cycle py_float features_of clock
               (Some table) trained l d in
  (_validate_model (_incremental_train trained l).1 = false ->
   files out.2 !! current_model l = Some ck) /\
  last_processed_id out.1 =
    match batch.2 with
    | [] => last_processed_id l
    | i :: rest => max_id i rest
    end /\
  last_training_time out.1 = Some (finished_at clock) /\
  length (training_history out.1) = S (length (training_history l)) /\
  is_training out.1 = false.
Proof.
  intros Hck Hstats batch Hmin out. subst out.
  unfold _perform_training_cycle.
  change (_collect_training_data py_float features_of (with_training true l) table)
    with batch.
  destruct batch as [[X y] ids] eqn:Hbatch. simpl in Hmin. cbn [fst snd].
  change (min_samples (with_training true l)) with (min_samples l).
  rewrite (proj2 (Z.ltb_ge _ _) Hmin).
  pose proof (backup_keeps_current (backup_stamp clock) (with_training true l) d ck Hck)
    as [Hcur1 Hback].
  destruct (_backup_current_model (backup_stamp clock) (with_training true l) d)
    as [backup_path d1]. simpl in Hcur1, Hback.
  pose proof (incremental_train_paths trained (with_training true l))
    as (Hp1 & Hp2 & Hp3 & Hp4 & Hp5).
  assert (Hsame : (_incremental_train trained l).1 =
                  (_incremental_train trained (with_training true l)).1).
  { unfold _incremental_train. simpl.
    destruct (ann_detector l); [| done]. destruct trained as [[m w] |]; done. }
  rewrite Hsame.
  destruct (_incremental_train trained (with_training true l)) as [metrics l1].
  simpl in Hp1, Hp2, Hp3, Hp4, Hp5. cbn [fst snd].
  destruct (_validate_model metrics) eqn:Hval.
  - destruct (_save_model_version (version_stamp clock) metrics l1 d1)
      as [l2 d2] eqn:Hsave.
    assert (Hhist : training_history l2 = training_history l1 /\
                    last_processed_id l2 = last_processed_id l1).
    { unfold _save_model_version in Hsave.
      destruct (ann_detector l1) as [det |]; [| by injection Hsave as <- _].
      destruct (save_checkpoint _ det d1) as [[p | e] d'];
        by injection Hsave as <- _. }
    destruct Hhist as [Hhist Hlast].
    simpl. split; [discriminate |].
    split; [destruct ids; [congruence | done] |]. split; [done |].
    split; [| done]. rewrite length_app, Hhist, Hp4. simpl. lia.
  - pose proof (rollback_restores_current backup_path l1 d1 ck) as Hroll.
    rewrite Hp1 in Hroll. specialize (Hroll Hcur1 Hback).
    destruct (_rollback_model backup_path l1 d1) as [l2 d2].
    simpl in Hroll. destruct Hroll as (Hcur2 & Hlast & Hhist & Hsf & _).
    simpl. split; [| split; [| split; [done |]; split; [| done]]].
    + intros _. rewrite lookup_insert_ne; [exact Hcur2 |].
      rewrite Hsf, Hp2. exact Hstats.
    + destruct ids; [congruence | done].
    + rewrite length_app, Hhist, Hp4. simpl. lia.
Qed.

End RejectedCycle.

Section ScenarioD.
Import AlertSystem ANNClassifier ContinuousLearner.

(** C1, as stated, fails: in Scenario D validation rejects the candidate,
    and the cycle still moves [last_processed_id] from 0 to 200, the
    largest id of the batch. *)
Lemma rejected_cycle_advances_last_processed_id :
  _validate_model (_incremental_train scenario_d_trained scenario_d_learner).1
    = false /\
  last_processed_id scenario_d_learner = 0%Z /\
  last_processed_id scenario_d_cycle.1 = 200%Z.
Proof. repeat split; vm_compute; reflexivity. Qed.

(** Scenario D satisfies the hypotheses of the theorem. *)
Lemma rejected_cycle_keeps_checkpoint_only_witness :
  let l := scenario_d_learner in
  let batch := _collect_training_data Py.float_of_decimal scenario_d_features
                 l scenario_d_table in
  let out := scenario_d_cycle in
  (_validate_model (_incremental_train scenario_d_trained l).1 = false ->
   files out.2 !! current_model l = Some scenario_d_checkpoint) /\
  last_processed_id out.1 =
    match batch.2 with
    | [] => last_processed_id l
    | i :: rest => max_id i rest
    end /\
  last_training_time out.1 = Some (finished_at scenario_d_clock) /\
  length (training_history out.1) = S (length (training_history l)) /\
  is_training out.1 = false.
Proof.
  apply (rejected_cycle_keeps_checkpoint_only Py.float_of_decimal
           scenario_d_features scenario_d_clock scenario_d_table
           scenario_d_trained scenario_d_learner scenario_d_disk
           scenario_d_checkpoint).
  - reflexivity.
  - vm_compute. discriminate.
  - vm_compute. discriminate.
Defined.

(** Scenario D, evaluated: the checkpoint on disk is the pre-cycle one, a
    backup was taken and copied back, and one history record was added. *)
Example scenario_d_outcome :
  files scenario_d_cycle.2 !! "models/ann_model.pt" =
    Some scenario_d_checkpoint /\
  map (fun c => match c with
                | Write p _ => ("write", p)
                | Copy a b => ("copy", b)
                | Rename a b => ("rename", b)
                end) (calls scenario_d_cycle.2) =
    [("copy", "models/backups/model_backup_20250106_120000.pt");
     ("copy", "models/ann_model.pt");
     ("write", "models/continuous_learning_stats.json")] /\
  length (training_history scenario_d_cycle.1) = 1%nat /\
  model_versions scenario_d_cycle.1 = [].
Proof. vm_compute. done. Qed.

(** With metrics that pass validation the commit path runs, and on the
    loaded model its save raises: no version is recorded and the checkpoint
    on disk stays the pre-cycle one. *)
Example accepted_cycle_of_loaded_model :
  let good := Some ({| loss := 0.5; accuracy := 90; samples := 200 |},
                    [0.75; 0.125]%float) in
  let out := _perform_training_cycle Py.float_of_decimal scenario_d_features
               scenario_d_clock (Some scenario_d_table) good
               scenario_d_learner scenario_d_disk in
  _validate_model (_incremental_train good scenario_d_learner).1 = true /\
  files out.2 !! "models/ann_model.pt" = Some scenario_d_checkpoint /\
  model_versions out.1 = [] /\
  last_processed_id out.1 = 200%Z.
Proof. vm_compute. done. Qed.

(** Why the theorem asks for a checkpoint on disk: without one, a backup
    file left under the same stamp is what the rollback installs. *)
Example rollback_without_checkpoint_installs_old_backup :
  let d := {| files := {["models/backups/model_backup_20250106_120000.pt" :=
                           scenario_d_checkpoint]};
              calls := [] |} in
  let out := _perform_training_cycle Py.float_of_decimal scenario_d_features
               scenario_d_clock (Some scenario_d_table) scenario_d_trained
               scenario_d_learner d in
  files d !! "models/ann_model.pt" = None /\
  files out.2 !! "models/ann_model.pt" = Some scenario_d_checkpoint.
Proof. vm_compute. done. Qed.

(** A batch with too few labelled samples ends the cycle before the
    backup: nothing changes but [is_training], which is cleared. *)
Example short_batch_changes_nothing :
  _perform_training_cycle Py.float_of_decimal scenario_d_features
    scenario_d_clock (Some (take 50 scenario_d_table)) scenario_d_trained
    scenario_d_learner scenario_d_disk =
  (scenario_d_learner, scenario_d_disk).
Proof. vm_compute. reflexivity. Qed.

End ScenarioD.

(** ** The ARP analyzer: counters, histories and request matching *)

Section AnalyzerFacts.
Import Scapy ARPAnalyzer.

Lemma count_op_cons (k : Z) (t : Q) (pkt : ARP) (rest : list (Q * ARP)) :
  count_op k ((t, pkt) :: rest)
  = ((if (op pkt =? k)%Z then 1 else 0) + count_op k rest)%Z.
Proof.
  unfold count_op. rewrite filter_cons. simpl.
  destruct (decide (op pkt = k)) as [E | E].
  - apply Z.eqb_eq in E. rewrite E. simpl. lia.
  - apply Z.eqb_neq in E. rewrite E. lia.
Qed.

Lemma count_op_nonneg (k : Z) (frames : list (Q * ARP)) :
  (0 <= count_op k frames)%Z.
Proof. unfold count_op. lia. Qed.

(** What one frame does to the counters. *)
Lemma analyze_frame_stats (t : Q) (pkt : ARP) (a : ARPAnalyzer) :
  let st := stats a in
  let st' := stats (analyze_frame t pkt a).2 in
  let req := (if (op pkt =? 1)%Z then 1 else 0)%Z in
  let rep := (if (op pkt =? 2)%Z then 1 else 0)%Z in
  total_packets st' = (total_packets st + 1)%Z /\
  request_count st' = (request_count st + req)%Z /\
  reply_count st' = (reply_count st + rep)%Z /\
  (unmatched_replies st <= unmatched_replies st'
     <= unmatched_replies st + rep)%Z /\
  (gratuitous_count st <= gratuitous_count st'
     <= gratuitous_count st + 1)%Z /\
  (probe_count st <= probe_count st' <= probe_count st + req)%Z.
Proof.
  unfold analyze_frame, analyze_packet, _is_arp_probe.
  destruct (op pkt =? 1)%Z eqn:E1.
  - assert ((op pkt =? 2)%Z = false) as E2
      by (apply Z.eqb_eq in E1; apply Z.eqb_neq; lia).
    rewrite E2. cbn. rewrite ?E1, ?E2.
    destruct (_is_gratuitous_arp _ _ _ _), (bool_decide _); cbn;
      repeat split; lia.
  - destruct (op pkt =? 2)%Z eqn:E2;
      [destruct (pending_requests a !! (pdst pkt, psrc pkt)) |];
      cbn; rewrite ?E1, ?E2; cbn;
      destruct (_is_gratuitous_arp _ _ _ _); cbn; repeat split; lia.
Qed.

Lemma analyze_all_stats (frames : list (Q * ARP)) (a : ARPAnalyzer) :
  let st := stats a in
  let st' := stats (analyze_all frames a) in
  total_packets st' = (total_packets st + Z.of_nat (length frames))%Z /\
  request_count st' = (request_count st + count_op 1 frames)%Z /\
  reply_count st' = (reply_count st + count_op 2 frames)%Z /\
  (unmatched_replies st <= unmatched_replies st'
     <= unmatched_replies st + count_op 2 frames)%Z /\
  (gratuitous_count st <= gratuitous_count st'
     <= gratuitous_count st + Z.of_nat (length frames))%Z /\
  (probe_count st <= probe_count st'
     <= probe_count st + count_op 1 frames)%Z.
Proof.
  revert a. induction frames as [| [t pkt] rest IH]; intros a.
  - cbn. unfold count_op. cbn. repeat split; lia.
  - cbn [analyze_all]. rewrite !count_op_cons.
    pose proof (analyze_frame_stats t pkt a) as H1.
    pose proof (IH (analyze_frame t pkt a).2) as H2.
    cbn zeta in *. cbn [length].
    destruct H1 as (A1 & A2 & A3 & A4 & A5 & A6).
    destruct H2 as (B1 & B2 & B3 & B4 & B5 & B6).
    repeat split; lia.
Qed.

(** X1: the counters of the analyzer count the frames it was given. *)
Theorem analyzer_counters (frames : list (Q * ARP)) (n : nat) (w : Z) :
  let st := stats (analyze_all frames (init n w)) in
  total_packets st = Z.of_nat (length frames) /\
  request_count st = count_op 1 frames /\
  reply_count st = count_op 2 frames /\
  (0 <= unmatched_replies st <= reply_count st)%Z /\
  (0 <= gratuitous_count st <= total_packets st)%Z /\
  (0 <= probe_count st <= request_count st)%Z.
Proof.
  pose proof (analyze_all_stats frames (init n w)) as H.
  cbn zeta in *. cbn [init stats total_packets request_count reply_count
    unmatched_replies gratuitous_count probe_count] in H.
  destruct H as (A1 & A2 & A3 & A4 & A5 & A6).
  repeat split; lia.
Qed.

End AnalyzerFacts.
Section AnalyzerHistories.
Import Scapy ARPAnalyzer.

Lemma deque_append_length {A} (maxlen : nat) (dq : list A) (x : A) :
  (length (deque_append maxlen dq x) <= maxlen)%nat.
Proof. unfold deque_append. rewrite length_drop. lia. Qed.

Lemma deque_append_Forall {A} (P : A -> Prop) (maxlen : nat) (dq : list A)
    (x : A) :
  Forall P dq -> P x -> Forall P (deque_append maxlen dq x).
Proof.
  intros Hdq Hx. unfold deque_append. apply Forall_drop.
  apply Forall_app. split; [exact Hdq | by constructor].
Qed.

Lemma analyze_frame_history (t : Q) (pkt : ARP) (a : ARPAnalyzer) :
  let a' := (analyze_frame t pkt a).2 in
  max_history a' = max_history a /\
  packet_history a' =
    <[psrc pkt := deque_append (max_history a)
                    (default [] (packet_history a !! psrc pkt))
                    (analyze_frame t pkt a).1]> (packet_history a) /\
  src_ip (analyze_frame t pkt a).1 = psrc pkt.
Proof.
  unfold analyze_frame, analyze_packet.
  destruct (op pkt =? 1)%Z; [done |].
  destruct (op pkt =? 2)%Z; [| done].
  destruct (pending_requests a !! (pdst pkt, psrc pkt)); done.
Qed.

Lemma analyze_frame_bounded (t : Q) (pkt : ARP) (a : ARPAnalyzer) :
  histories_bounded a -> histories_bounded (analyze_frame t pkt a).2.
Proof.
  intros Ha ip h.
  destruct (analyze_frame_history t pkt a) as (Hmax & Hhist & Hsrc).
  rewrite Hmax, Hhist.
  destruct (decide (psrc pkt = ip)) as [<- | Hne].
  - rewrite lookup_insert_eq. intros [= <-]. split.
    + apply deque_append_length.
    + apply deque_append_Forall; [| exact Hsrc].
      destruct (packet_history a !! psrc pkt) as [h |] eqn:E; simpl.
      * by apply (Ha _ _ E).
      * constructor.
  - rewrite lookup_insert_ne by done. apply Ha.
Qed.

Lemma analyze_all_bounded (frames : list (Q * ARP)) (a : ARPAnalyzer) :
  histories_bounded a ->
  histories_bounded (analyze_all frames a) /\
  max_history (analyze_all frames a) = max_history a.
Proof.
  revert a. induction frames as [| [t pkt] rest IH]; intros a Ha; [done |].
  cbn [analyze_all].
  destruct (IH _ (analyze_frame_bounded t pkt a Ha)) as [H1 H2].
  split; [exact H1 |]. rewrite H2.
  by destruct (analyze_frame_history t pkt a) as (-> & _ & _).
Qed.

(** X2: the per-sender histories never outgrow [max_history]. *)
Theorem histories_stay_bounded (frames : list (Q * ARP)) (n : nat) (w : Z) :
  histories_bounded (analyze_all frames (init n w)) /\
  max_history (analyze_all frames (init n w)) = n.
Proof.
  apply (analyze_all_bounded frames (init n w)).
  intros ip h. cbn. by rewrite lookup_empty.
Qed.

(** The pending requests and the unmatched count after a request, after a
    reply that answers a pending request, and after one that does not. *)
Lemma request_step (t : Q) (smac dmac sip dip : string) (a : ARPAnalyzer) :
  let a' := (analyze_packet t smac dmac sip dip 1 a).2 in
  pending_requests a' = <[(sip, dip) := t]> (pending_requests a) /\
  unmatched_replies (stats a') = unmatched_replies (stats a).
Proof. done. Qed.

Lemma matched_reply_step (t t0 : Q) (smac dmac sip dip : string)
    (a : ARPAnalyzer) :
  pending_requests a !! (dip, sip) = Some t0 ->
  let a' := (analyze_packet t smac dmac sip dip 2 a).2 in
  pending_requests a' = delete (dip, sip) (pending_requests a) /\
  unmatched_replies (stats a') = unmatched_replies (stats a).
Proof. intros H. unfold analyze_packet. cbn. by rewrite H. Qed.

Lemma unmatched_reply_step (t : Q) (smac dmac sip dip : string)
    (a : ARPAnalyzer) :
  pending_requests a !! (dip, sip) = None ->
  let a' := (analyze_packet t smac dmac sip dip 2 a).2 in
  pending_requests a' = pending_requests a /\
  unmatched_replies (stats a') = (unmatched_replies (stats a) + 1)%Z.
Proof. intros H. unfold analyze_packet. cbn. by rewrite H. Qed.

(** X3: a reply uses up the request it answers. *)
Theorem reply_consumes_its_request (t1 t2 t3 : Q)
    (mac1 mac2 dmac ip1 ip2 : string) (a : ARPAnalyzer) :
  let a1 := (analyze_packet t1 mac1 dmac ip1 ip2 1 a).2 in
  let a2 := (analyze_packet t2 mac2 mac1 ip2 ip1 2 a1).2 in
  let a3 := (analyze_packet t3 mac2 mac1 ip2 ip1 2 a2).2 in
  pending_requests a1 !! (ip1, ip2) = Some t1 /\
  unmatched_replies (stats a2) = unmatched_replies (stats a) /\
  pending_requests a2 !! (ip1, ip2) = None /\
  unmatched_replies (stats a3) = (unmatched_replies (stats a) + 1)%Z.
Proof.
  intros a1 a2 a3.
  destruct (request_step t1 mac1 dmac ip1 ip2 a) as [P1 U1].
  fold a1 in P1, U1.
  assert (pending_requests a1 !! (ip1, ip2) = Some t1) as H1
    by (rewrite P1; apply lookup_insert_eq).
  destruct (matched_reply_step t2 t1 mac2 mac1 ip2 ip1 a1 H1) as [P2 U2].
  fold a2 in P2, U2.
  assert (pending_requests a2 !! (ip1, ip2) = None) as H2
    by (rewrite P2; apply lookup_delete_eq).
  destruct (unmatched_reply_step t3 mac2 mac1 ip2 ip1 a2 H2) as [_ U3].
  fold a3 in U3.
  repeat split; [done | congruence | done | congruence].
Qed.

(** [cleanup_old_entries] keeps the requests that are at most [max_age]
    seconds old, and nothing else changes. *)
Lemma cleanup_keeps_recent (now : Q) (max_age : Z) (a : ARPAnalyzer)
    (key : string * string) (t : Q) :
  pending_requests (cleanup_old_entries now max_age a) !! key = Some t <->
  pending_requests a !! key = Some t /\ (now - t <= inject_Z max_age)%Q.
Proof.
  unfold cleanup_old_entries. cbn. rewrite map_lookup_filter_Some. cbn.
  by rewrite Qgtb_false.
Qed.

(** X4: a request that [cleanup_old_entries] has expired no longer matches
    its reply. *)
Theorem expired_request_no_longer_matches (now t t0 : Q) (max_age : Z)
    (smac dmac ip1 ip2 : string) (a : ARPAnalyzer) :
  pending_requests a !! (ip1, ip2) = Some t0 ->
  (inject_Z max_age < now - t0)%Q ->
  unmatched_replies (stats (analyze_packet t smac dmac ip2 ip1 2 a).2)
  = unmatched_replies (stats a) /\
  unmatched_replies
    (stats (analyze_packet t smac dmac ip2 ip1 2
              (cleanup_old_entries now max_age a)).2)
  = (unmatched_replies (stats a) + 1)%Z.
Proof.
  intros Hreq Hold. split.
  - by destruct (matched_reply_step t t0 smac dmac ip2 ip1 a Hreq).
  - assert (pending_requests (cleanup_old_entries now max_age a)
              !! (ip1, ip2) = None) as Hgone.
    { destruct (pending_requests (cleanup_old_entries now max_age a)
                  !! (ip1, ip2)) as [t' |] eqn:E; [| done].
      apply cleanup_keeps_recent in E as [E1 E2].
      assert (t' = t0) as -> by congruence. lra. }
    by destruct (unmatched_reply_step t smac dmac ip2 ip1 _ Hgone).
Qed.

(** X5: the score of [detect_anomalies] lies between 0 and 1, and the flag
    is set exactly when the score is positive. *)
Theorem severity_is_a_score (info : ARPPacketInfo) (a : ARPAnalyzer) :
  let r := detect_anomalies info a in
  (0 <= severity r <= 1)%Q /\
  (has_anomaly r = true <-> (0 < severity r)%Q) /\
  (has_anomaly r = true <-> anomalies r <> []).
Proof.
  unfold detect_anomalies, checks_before_reply. cbn zeta.
  destruct (is_gratuitous info), (is_probe info),
    (Py.Qgtb (packet_rate (get_timing_features (src_ip info) a)) 10),
    (Py.Qgtb (inter_arrival_time info) 0 &&
     Py.Qltb (inter_arrival_time info) 0.1),
    (opcode info =? 2)%Z,
    (pending_requests a !! (dst_ip info, src_ip info));
    cbn;
    match goal with
    | |- context [Py.Qmin ?x 1] =>
        destruct (Qmin_spec x 1) as [[? ->] | [? ->]]
    end;
    (split; [lra | split; split; first [done | lra | discriminate | intros; exfalso; lra]]).
Qed.

End AnalyzerHistories.
Section AnalyzerStatistics.
Import Scapy ARPAnalyzer.

Lemma percentage_in_range (x total : Z) :
  (0 <= x <= total)%Z ->
  (0 <= inject_Z x / inject_Z (Z.max total 1) * 100 <= 100)%Q.
Proof.
  intros [H0 H1].
  assert (0 < inject_Z (Z.max total 1))%Q as Hpos.
  { change 0%Q with (inject_Z 0). rewrite <- Zlt_Qlt. lia. }
  assert (0 <= inject_Z x)%Q as Hx.
  { change 0%Q with (inject_Z 0). rewrite <- Zle_Qle. lia. }
  assert (inject_Z x <= inject_Z (Z.max total 1))%Q as Hle.
  { rewrite <- Zle_Qle. lia. }
  assert (0 <= inject_Z x / inject_Z (Z.max total 1) <= 1)%Q as [A B].
  { split.
    - apply Qle_shift_div_l; [exact Hpos | lra].
    - apply Qle_shift_div_r; [exact Hpos | lra]. }
  split; lra.
Qed.

(** X6: the percentages of [get_statistics] are defined for every stream,
    the empty one included, and lie between 0 and 100. *)
Theorem percentages_in_range (frames : list (Q * ARP)) (n : nat) (w : Z) :
  let s := get_statistics (analyze_all frames (init n w)) in
  (0 <= gratuitous_percentage s <= 100)%Q /\
  (0 <= probe_percentage s <= 100)%Q /\
  gratuitous_percentage (get_statistics (init n w)) == 0 /\
  probe_percentage (get_statistics (init n w)) == 0.
Proof.
  pose proof (analyze_all_stats frames (init n w)) as H. cbn zeta in H.
  cbn [init stats total_packets request_count reply_count
    unmatched_replies gratuitous_count probe_count] in H.
  destruct H as (A1 & A2 & A3 & A4 & A5 & A6).
  pose proof (count_op_nonneg 1 frames).
  assert (count_op 1 frames <= Z.of_nat (length frames))%Z.
  { unfold count_op. pose proof (length_filter (fun f : Q * ARP => op f.2 = 1%Z) frames). lia. }
  unfold get_statistics. cbn [gratuitous_percentage probe_percentage].
  split; [apply percentage_in_range; lia |].
  split; [apply percentage_in_range; lia |].
  split; reflexivity.
Qed.

End AnalyzerStatistics.
Section AnalyzerExamples.
Import Scapy ARPAnalyzer.

Lemma expired_request_no_longer_matches_witness :
  let a := (analyze_packet 0 "66:66:66:66:66:66" "00:00:00:00:00:00"
              "10.0.0.6" "10.0.0.5" 1 ARPAnalyzer.new).2 in
  unmatched_replies
    (stats (analyze_packet 401 "55:55:55:55:55:55" "66:66:66:66:66:66"
              "10.0.0.5" "10.0.0.6" 2 a).2) = 0%Z /\
  unmatched_replies
    (stats (analyze_packet 401 "55:55:55:55:55:55" "66:66:66:66:66:66"
              "10.0.0.5" "10.0.0.6" 2 (cleanup_old_entries 400 300 a)).2)
  = 1%Z.
Proof.
  exact (expired_request_no_longer_matches 400 401 0 300
           "55:55:55:55:55:55" "66:66:66:66:66:66" "10.0.0.6" "10.0.0.5"
           (analyze_packet 0 "66:66:66:66:66:66" "00:00:00:00:00:00"
              "10.0.0.6" "10.0.0.5" 1 ARPAnalyzer.new).2
           eq_refl eq_refl).
Defined.

(** Twelve frames from one sender into an analyzer that keeps ten. *)
Example history_of_ten :
  let frames :=
    map (fun i => (inject_Z i,
                   {| psrc := "10.0.0.6"; pdst := "10.0.0.5";
                      hwsrc := "66:66:66:66:66:66";
                      hwdst := "00:00:00:00:00:00"; op := 1 |}))
        [0; 1; 2; 3; 4; 5; 6; 7; 8; 9; 10; 11]%Z in
  map timestamp
    (default [] (packet_history (analyze_all frames (init 10 60))
                   !! "10.0.0.6"))
  = map inject_Z [2; 3; 4; 5; 6; 7; 8; 9; 10; 11]%Z.
Proof. vm_compute. reflexivity. Qed.

End AnalyzerExamples.

(** ** The vendor checker *)

Section VendorStrings.
Import MACVendor.

Lemma append_nil (s : string) : "" +:+ s = s.
Proof. reflexivity. Qed.

Lemma append_cons (x : ascii) (s1 s2 : string) :
  String x s1 +:+ s2 = String x (s1 +:+ s2).
Proof. reflexivity. Qed.

Lemma remove_char_lacks (c : ascii) (s : string) :
  lacks c (Py.remove_char c s).
Proof.
  induction s as [| x rest IH]; [done |]. cbn.
  case_bool_decide; [done |]. by split.
Qed.

Lemma remove_char_keeps_lacks (c d : ascii) (s : string) :
  lacks d s -> lacks d (Py.remove_char c s).
Proof.
  induction s as [| x rest IH]; [done |]. cbn. intros [H1 H2].
  case_bool_decide; [by apply IH |]. split; [done | by apply IH].
Qed.

Lemma remove_char_id (c : ascii) (s : string) :
  lacks c s -> Py.remove_char c s = s.
Proof.
  induction s as [| x rest IH]; [done |]. cbn. intros [H1 H2].
  rewrite bool_decide_eq_false_2 by done. by rewrite IH.
Qed.

Lemma remove_char_app (c : ascii) (s1 s2 : string) :
  Py.remove_char c (s1 +:+ s2) = Py.remove_char c s1 +:+ Py.remove_char c s2.
Proof.
  induction s1 as [| x rest IH]; [done |]. rewrite append_cons. cbn.
  case_bool_decide; rewrite ?append_cons; by rewrite IH.
Qed.

Lemma lacks_app (c : ascii) (s1 s2 : string) :
  lacks c (s1 +:+ s2) <-> lacks c s1 /\ lacks c s2.
Proof.
  induction s1 as [| x rest IH]; [rewrite append_nil; cbn; tauto |].
  rewrite append_cons. cbn. rewrite IH. tauto.
Qed.

Lemma substring_lacks (c : ascii) (n m : nat) (s : string) :
  lacks c s -> lacks c (String.substring n m s).
Proof.
  revert n m. induction s as [| x rest IH]; intros n m H.
  - by destruct n, m.
  - destruct H as [H1 H2]. destruct n as [| n]; [destruct m as [| m] |]; cbn.
    + done.
    + split; [done | by apply IH].
    + by apply IH.
Qed.

(** Upper-casing moves letters only: a separator stays what it is and no
    new one appears. *)
Lemma upper_ascii_separator (x c : ascii) :
  c = ":"%char \/ c = "-"%char \/ c = "."%char ->
  x <> c -> Py.upper_ascii x <> c.
Proof.
  intros Hc Hx E. apply Hx. clear Hx.
  destruct Hc as [-> | [-> | ->]];
    destruct x as [[] [] [] [] [] [] [] []]; vm_compute in E; congruence.
Qed.

Lemma upper_lacks (c : ascii) (s : string) :
  c = ":"%char \/ c = "-"%char \/ c = "."%char ->
  lacks c s -> lacks c (Py.upper s).
Proof.
  intros Hc. induction s as [| x rest IH]; [done |]. cbn. intros [H1 H2].
  split; [by apply upper_ascii_separator | by apply IH].
Qed.

Lemma upper_ascii_idempotent (x : ascii) :
  Py.upper_ascii (Py.upper_ascii x) = Py.upper_ascii x.
Proof. destruct x as [[] [] [] [] [] [] [] []]; vm_compute; reflexivity. Qed.

Lemma upper_idempotent (s : string) : Py.upper (Py.upper s) = Py.upper s.
Proof.
  induction s as [| x rest IH]; [done |]. cbn.
  by rewrite upper_ascii_idempotent, IH.
Qed.

Lemma upper_app (s1 s2 : string) :
  Py.upper (s1 +:+ s2) = Py.upper s1 +:+ Py.upper s2.
Proof.
  induction s1 as [| x rest IH]; [done |]. rewrite !append_cons. cbn.
  by rewrite IH.
Qed.

Lemma upper_substring (n m : nat) (s : string) :
  Py.upper (String.substring n m s) = String.substring n m (Py.upper s).
Proof.
  revert n m. induction s as [| x rest IH]; intros n m.
  - by destruct n, m.
  - destruct n as [| n]; [destruct m as [| m] |]; cbn; [done | | done].
    by rewrite IH.
Qed.

Lemma mac_clean_lacks (c : ascii) (mac : string) :
  c = ":"%char \/ c = "-"%char \/ c = "."%char -> lacks c (mac_clean mac).
Proof.
  intros Hc. unfold mac_clean. apply upper_lacks; [exact Hc |].
  destruct Hc as [-> | [-> | ->]].
  - do 2 apply remove_char_keeps_lacks. apply remove_char_lacks.
  - apply remove_char_keeps_lacks. apply remove_char_lacks.
  - apply remove_char_lacks.
Qed.

Lemma mac_clean_upper (mac : string) : Py.upper (mac_clean mac) = mac_clean mac.
Proof. apply upper_idempotent. Qed.

(** Splitting at a separator. *)
Lemma split_char_nonempty (c : ascii) (s : string) : Py.split_char c s <> [].
Proof.
  destruct s as [| x rest]; [done |]. cbn.
  case_bool_decide; [done |]. by destruct (Py.split_char c rest).
Qed.

Lemma split_char_lacks (c : ascii) (s : string) :
  lacks c s -> Py.split_char c s = [s].
Proof.
  induction s as [| x rest IH]; [done |]. cbn. intros [H1 H2].
  rewrite bool_decide_eq_false_2 by done. by rewrite IH.
Qed.

Lemma split_char_app (c : ascii) (s1 s2 : string) :
  lacks c s1 ->
  Py.split_char c (s1 +:+ String c s2) = s1 :: Py.split_char c s2.
Proof.
  induction s1 as [| x rest IH].
  - intros _. rewrite append_nil. cbn. by rewrite bool_decide_eq_true_2.
  - intros [H1 H2]. rewrite append_cons. cbn.
    rewrite bool_decide_eq_false_2 by done. by rewrite IH.
Qed.

(** A string of twelve characters is its six pairs. *)
Lemma six_pairs (s : string) :
  String.length s = 12%nat ->
  String.substring 0 2 s +:+ String.substring 2 2 s +:+
  String.substring 4 2 s +:+ String.substring 6 2 s +:+
  String.substring 8 2 s +:+ String.substring 10 2 s = s.
Proof.
  intros H.
  do 12 (destruct s as [| ? s]; [discriminate |]).
  destruct s; [reflexivity | discriminate].
Qed.

(** The normal form of an address with twelve digits. *)
Lemma normalize_mac_twelve (mac : string) :
  String.length (mac_clean mac) = 12%nat ->
  normalize_mac mac =
    String.substring 0 2 (mac_clean mac) +:+ ":" +:+
    String.substring 2 2 (mac_clean mac) +:+ ":" +:+
    String.substring 4 2 (mac_clean mac) +:+ ":" +:+
    String.substring 6 2 (mac_clean mac) +:+ ":" +:+
    String.substring 8 2 (mac_clean mac) +:+ ":" +:+
    String.substring 10 2 (mac_clean mac).
Proof.
  intros H. unfold normalize_mac. fold (mac_clean mac).
  apply Nat.eqb_eq in H. rewrite H. reflexivity.
Qed.

Lemma normalize_mac_other (mac : string) :
  String.length (mac_clean mac) <> 12%nat -> normalize_mac mac = mac.
Proof.
  intros H. unfold normalize_mac. fold (mac_clean mac).
  apply Nat.eqb_neq in H. by rewrite H.
Qed.

Lemma mac_clean_normal_form (s : string) :
  String.length s = 12%nat ->
  lacks ":" s -> lacks "-" s -> lacks "." s -> Py.upper s = s ->
  mac_clean
    (String.substring 0 2 s +:+ ":" +:+ String.substring 2 2 s +:+ ":" +:+
     String.substring 4 2 s +:+ ":" +:+ String.substring 6 2 s +:+ ":" +:+
     String.substring 8 2 s +:+ ":" +:+ String.substring 10 2 s) = s.
Proof.
  intros Hlen H1 H2 H3 Hup. unfold mac_clean.
  assert (Py.remove_char ":"
            (String.substring 0 2 s +:+ ":" +:+ String.substring 2 2 s +:+
             ":" +:+ String.substring 4 2 s +:+ ":" +:+
             String.substring 6 2 s +:+ ":" +:+ String.substring 8 2 s +:+
             ":" +:+ String.substring 10 2 s) = s) as ->.
  { rewrite !remove_char_app. cbn [Py.remove_char].
    rewrite bool_decide_eq_true_2 by done. rewrite !append_nil.
    rewrite !remove_char_id by (by apply substring_lacks).
    by apply six_pairs. }
  rewrite (remove_char_id "-" s H2), (remove_char_id "." s H3). exact Hup.
Qed.

(** X7: normalising an address twice gives what normalising it once
    gives. *)
Theorem normalize_mac_idempotent (mac : string) :
  normalize_mac (normalize_mac mac) = normalize_mac mac.
Proof.
  destruct (decide (String.length (mac_clean mac) = 12%nat)) as [H | H].
  - rewrite (normalize_mac_twelve mac H).
    assert (mac_clean
              (String.substring 0 2 (mac_clean mac) +:+ ":" +:+
               String.substring 2 2 (mac_clean mac) +:+ ":" +:+
               String.substring 4 2 (mac_clean mac) +:+ ":" +:+
               String.substring 6 2 (mac_clean mac) +:+ ":" +:+
               String.substring 8 2 (mac_clean mac) +:+ ":" +:+
               String.substring 10 2 (mac_clean mac)) = mac_clean mac) as E.
    { apply mac_clean_normal_form;
        [exact H | apply mac_clean_lacks; tauto .. | apply mac_clean_upper]. }
    rewrite normalize_mac_twelve; rewrite E; [reflexivity | exact H].
  - by rewrite !(normalize_mac_other mac H).
Qed.

(** X8: the OUI of an address with twelve digits is made of its first six
    digits, whatever separators and letter case the address came in. *)
Theorem get_oui_of_twelve_digits (mac : string) :
  String.length (mac_clean mac) = 12%nat ->
  get_oui mac =
    String.substring 0 2 (mac_clean mac) +:+ ":" +:+
    String.substring 2 2 (mac_clean mac) +:+ ":" +:+
    String.substring 4 2 (mac_clean mac).
Proof.
  intros H. unfold get_oui. rewrite (normalize_mac_twelve mac H).
  pose proof (mac_clean_lacks ":" mac (or_introl eq_refl)) as Hc.
  rewrite !append_cons, !append_nil.
  rewrite !split_char_app by (by apply substring_lacks).
  rewrite split_char_lacks by (by apply substring_lacks).
  cbn [length Nat.leb take Py.join].
  rewrite !append_cons, !append_nil.
  repeat (rewrite ?upper_app; cbn [Py.upper]).
  rewrite !upper_substring, mac_clean_upper. reflexivity.
Qed.

End VendorStrings.
Section VendorCache.
Import MACVendor.

(** A lookup through a sound cache gives the table's answer and leaves the
    cache sound. *)
Lemma lookup_vendor_sound (mac : string) (c : MACVendorChecker) :
  cache_sound c ->
  (lookup_vendor mac c).1 = vendor_of mac /\
  cache_sound (lookup_vendor mac c).2.
Proof.
  intros Hc. unfold lookup_vendor.
  assert (get_oui mac <> "" -> vendor_of mac = OUI_DATABASE !! get_oui mac)
    as Hv.
  { intros H. unfold vendor_of. by rewrite bool_decide_eq_false_2. }
  assert (get_oui mac = "" -> vendor_of mac = None) as Hn.
  { intros H. unfold vendor_of. by rewrite bool_decide_eq_true_2. }
  remember (OUI_DATABASE !! get_oui mac) as vendor eqn:Hvendor.
  clear Hvendor.
  destruct (cache c !! mac) as [v |] eqn:E.
  - split; [apply (Hc _ _ E) | exact Hc].
  - destruct (decide (get_oui mac = "")) as [Houi | Houi].
    + rewrite bool_decide_eq_true_2 by done.
      split; [by rewrite Hn | exact Hc].
    + rewrite bool_decide_eq_false_2 by done.
      split; [by rewrite Hv |].
      intros mac' v. cbn [cache snd].
      destruct (decide (mac = mac')) as [<- | Hne].
      * rewrite lookup_insert_eq. intros E'.
        assert (v = vendor) as -> by congruence. by rewrite Hv.
      * rewrite lookup_insert_ne by done. apply Hc.
Qed.

Lemma lookup_all_sound (macs : list string) (c : MACVendorChecker) :
  cache_sound c ->
  (lookup_all macs c).1 = map vendor_of macs /\
  cache_sound (lookup_all macs c).2.
Proof.
  revert c. induction macs as [| mac rest IH]; intros c Hc; [done |].
  cbn [lookup_all].
  destruct (lookup_vendor_sound mac c Hc) as [H1 H2].
  destruct (lookup_vendor mac c) as [vendor c1]. cbn in H1, H2.
  destruct (IH c1 H2) as [H3 H4].
  destruct (lookup_all rest c1) as [vendors c2]. cbn in *.
  split; [by rewrite H1, H3 | done].
Qed.

(** X9: the cache never changes an answer: lookups through one checker,
    in any order and with repetitions, give what the table gives. *)
Theorem cache_is_transparent (macs : list string) :
  (lookup_all macs MACVendor.new).1 = map vendor_of macs /\
  cache_sound (lookup_all macs MACVendor.new).2.
Proof.
  apply lookup_all_sound. intros mac v. cbn. by rewrite lookup_empty.
Qed.

Section Detect.
Variable py_int16 : string -> option Z.

(** X10: the result of the vendor check: the confidence is a score
    between 0 and 1, the flag is set when one of the four indicators
    fired, and the confidence exceeds 0.4 when two of them did, unless the
    two are the unknown vendors or the unknown destination with the
    locally administered bit. *)
Theorem vendor_alert_threshold (src_mac dst_mac src_ip dst_ip : string)
    (c : MACVendorChecker) :
  match (detect_anomalies py_int16 src_mac dst_mac src_ip dst_ip c).1,
        py_int16 (first_group src_mac) with
  | None, None => True
  | Some r, Some first_octet =>
      let s := bool_decide (Sniffer.src_vendor r = None) in
      let d := bool_decide (Sniffer.dst_vendor r = None) in
      let b := is_broadcast_or_multicast src_mac in
      let l := bool_decide (Z.land first_octet 2 <> 0%Z) in
      (0 <= Sniffer.v_confidence r <= 1)%Q /\
      Sniffer.v_has_anomaly r = s || d || b || l /\
      Py.Qgtb (Sniffer.v_confidence r) 0.4 = b && (s || d || l) || s && l
  | _, _ => False
  end.
Proof.
  unfold detect_anomalies.
  destruct (lookup_vendor src_mac c) as [sv c1].
  destruct (lookup_vendor dst_mac c1) as [dv c2].
  destruct (py_int16 (first_group src_mac)) as [n |]; [| done].
  cbn [fst Sniffer.src_vendor Sniffer.dst_vendor Sniffer.v_confidence
       Sniffer.v_has_anomaly].
  destruct sv, dv, (is_broadcast_or_multicast src_mac),
    (bool_decide (Z.land n 2 <> 0%Z)); cbn;
    match goal with
    | |- context [Py.Qmin ?x 1] =>
        destruct (Qmin_spec x 1) as [[? ->] | [? ->]]
    end;
    (split; [lra |]); (split; [reflexivity |]);
    first [apply Qgtb_true; lra | apply Qgtb_false; lra].
Qed.

(** X11: a frame whose source address does not start with a hexadecimal
    number is counted by the ARP analyzer and then dropped: no alert, and
    the filter never sees it. *)
Theorem malformed_source_skips_the_filter (t_analyzer t_dfa : Q)
    (pkt : Scapy.ARP) (ann : option (Z * Q)) (st : PacketSniffer.State) :
  py_int16 (first_group (Scapy.hwsrc pkt)) = None ->
  let r := PacketSniffer.handler py_int16 t_analyzer t_dfa pkt ann st in
  r.1 = None /\
  Sniffer.dfa (PacketSniffer.detectors r.2)
  = Sniffer.dfa (PacketSniffer.detectors st) /\
  Sniffer.arp_analyzer (PacketSniffer.detectors r.2)
  = (analyze_frame t_analyzer pkt
       (Sniffer.arp_analyzer (PacketSniffer.detectors st))).2.
Proof.
  intros Hraise. unfold PacketSniffer.handler, detect_anomalies.
  destruct (lookup_vendor (Scapy.hwsrc pkt) (PacketSniffer.mac_checker st))
    as [sv c1].
  destruct (lookup_vendor (Scapy.hwdst pkt) c1) as [dv c2].
  rewrite Hraise. unfold Sniffer._handle_pkt, analyze_frame.
  destruct (ARPAnalyzer.analyze_packet _ _ _ _ _ _ _) as [info a']. done.
Qed.

End Detect.

End VendorCache.

Section VendorExamples.
Import MACVendor.

Lemma get_oui_of_twelve_digits_witness :
  get_oui "00-0c-29-3e-5b-7a" = "00:0C:29".
Proof. exact (get_oui_of_twelve_digits "00-0c-29-3e-5b-7a" eq_refl). Defined.

Lemma malformed_source_skips_the_filter_witness :
  let pkt := {| Scapy.psrc := "10.0.0.5"; Scapy.pdst := "10.0.0.6";
                Scapy.hwsrc := ""; Scapy.hwdst := "ff:ff:ff:ff:ff:ff";
                Scapy.op := 2 |} in
  let r := PacketSniffer.handler Py.int_of_hex 0 0 pkt (Some (1%Z, 1%Q))
             PacketSniffer.new in
  r.1 = None /\
  Sniffer.dfa (PacketSniffer.detectors r.2) = DFA.new /\
  Sniffer.arp_analyzer (PacketSniffer.detectors r.2)
  = (analyze_frame 0 pkt ARPAnalyzer.new).2.
Proof.
  exact (malformed_source_skips_the_filter Py.int_of_hex 0 0
           {| Scapy.psrc := "10.0.0.5"; Scapy.pdst := "10.0.0.6";
              Scapy.hwsrc := ""; Scapy.hwdst := "ff:ff:ff:ff:ff:ff";
              Scapy.op := 2 |} (Some (1%Z, 1%Q)) PacketSniffer.new eq_refl).
Defined.

(** The table as Python builds it: a key that is written twice keeps the
    later vendor. *)
Example oui_database_size : size OUI_DATABASE = 210%nat.
Proof. vm_compute. reflexivity. Qed.

Example oui_written_twice :
  OUI_DATABASE !! "00:13:46" = Some "D-Link" /\
  OUI_DATABASE !! "00:21:91" = Some "D-Link".
Proof. vm_compute. done. Qed.

(** A VMware address, as scapy prints it and with dashes. *)
Example vmware_lookup :
  (lookup_all ["00:0c:29:3e:5b:7a"; "00-0C-29-3E-5B-7A"; "000c293e5b7a";
               "00:0c:29"; "000c29"] MACVendor.new).1
  = [Some "VMware"; Some "VMware"; Some "VMware"; Some "VMware"; None].
Proof. vm_compute. reflexivity. Qed.

(** The check on a source address that scapy prints for the broadcast
    address: the prefix test is on upper-case text and does not fire. *)
Example lower_case_broadcast_source :
  option_map Sniffer.v_anomalies
    (detect_anomalies Py.int_of_hex "ff:ff:ff:ff:ff:ff" "00:0c:29:3e:5b:7a"
       "10.0.0.5" "10.0.0.6" MACVendor.new).1
  = Some ["Unknown source MAC vendor (OUI: FF:FF:FF)";
          "Source MAC is locally administered (potential spoofing)"].
Proof. vm_compute. reflexivity. Qed.

End VendorExamples.

(** ** The handler and its detectors *)

Section HandlerFacts.
Import Scapy Sniffer.

(** One frame: both detectors take it, and the alert is the filter's
    exactly when the filter's verdict is suspicious. *)
Lemma handle_pkt_step (x : Arrival) (st : State) :
  let r := _handle_pkt (at_analyzer x) (at_filter x) (frame x)
             (Some (vendor_result x)) (classifier x) st in
  let v := DFA.check (at_filter x) (frame x) (dfa st) in
  dfa r.2 = v.2 /\
  arp_analyzer r.2
  = (analyze_frame (at_analyzer x) (frame x) (arp_analyzer st)).2 /\
  from_filter r.1 = DFA.is_suspicious v.1.
Proof.
  unfold _handle_pkt, analyze_frame.
  destruct (ARPAnalyzer.analyze_packet _ _ _ _ _ _ _) as [info a'].
  cbn [fst snd].
  remember (ARPAnalyzer.detect_anomalies info a') as res eqn:Hres.
  destruct (DFA.check (at_filter x) (frame x) (dfa st))
    as [[[is_bad r] d] dfa'].
  unfold DFA.is_suspicious. cbn [fst snd].
  destruct is_bad; [done |].
  destruct (ARPAnalyzer.has_anomaly res && _); [done |].
  destruct (v_has_anomaly (vendor_result x) && _); [done |].
  destruct (classifier x) as [[predicted prob] |]; [| done].
  destruct (predicted =? 1)%Z; done.
Qed.

(** X12: over a stream of frames the handler leaves the filter in the
    state that [DFA.check] alone reaches and the analyzer in the state that
    [analyze_packet] alone reaches, whatever the vendor checker and the
    classifier return; and a frame raises a DFA alert exactly when the
    filter's verdict on it is suspicious. *)
Theorem handler_drives_both_detectors (arrivals : list Arrival) (st : State) :
  let r := handle_all arrivals st in
  let run :=
    DFA.run (map (fun x => (at_filter x, frame x)) arrivals) (dfa st) in
  dfa r.2 = run.2 /\
  arp_analyzer r.2
  = analyze_all (map (fun x => (at_analyzer x, frame x)) arrivals)
      (arp_analyzer st) /\
  map from_filter r.1 = map DFA.is_suspicious run.1.
Proof.
  revert st. induction arrivals as [| x rest IH]; intros st; [done |].
  cbn [handle_all map DFA.run analyze_all].
  pose proof (handle_pkt_step x st) as Hstep. cbn zeta in Hstep.
  destruct (_handle_pkt _ _ _ _ _ st) as [alert st1].
  destruct (DFA.check (at_filter x) (frame x) (dfa st)) as [v s1].
  cbn [fst snd] in Hstep. destruct Hstep as (H1 & H2 & H3).
  specialize (IH st1). cbn zeta in IH.
  rewrite H1, H2 in IH.
  destruct (handle_all rest st1) as [alerts st2].
  destruct (DFA.run _ s1) as [vs s2].
  cbn [fst snd map] in *. destruct IH as (I1 & I2 & I3).
  by rewrite H3, I3.
Qed.

End HandlerFacts.

(** ** Connections *)

Section ConnectionFacts.
Import WebSocketManager.

Lemma list_remove_snoc_in (x : WebSocket) (l : list WebSocket) :
  x ∈ l -> list_remove x (l ++ [x]) = list_remove x l ++ [x].
Proof.
  induction l as [| y rest IH]; [by intros ?%elem_of_nil |].
  intros Hin. cbn. case_bool_decide as E; [done |].
  apply elem_of_cons in Hin as [-> | Hin]; [done |]. by rewrite IH.
Qed.

Lemma list_remove_snoc_notin (x : WebSocket) (l : list WebSocket) :
  x ∉ l -> list_remove x (l ++ [x]) = l.
Proof.
  induction l as [| y rest IH]; intros Hnot; cbn.
  - by rewrite bool_decide_eq_true_2.
  - apply not_elem_of_cons in Hnot as [Hne Hnot].
    rewrite bool_decide_eq_false_2 by done. by rewrite IH.
Qed.

Lemma list_remove_length (x : WebSocket) (l : list WebSocket) :
  x ∈ l -> S (length (list_remove x l)) = length l.
Proof.
  induction l as [| y rest IH]; [by intros ?%elem_of_nil |].
  intros Hin. cbn. case_bool_decide as E; [done |].
  apply elem_of_cons in Hin as [-> | Hin]; [done |]. cbn. by rewrite IH.
Qed.

(** X13: [disconnect] takes back one [connect]: the count is what it was,
    a client that was not registered before is gone and the manager is as
    it was, and a client that was registered before is still
    registered. *)
Theorem disconnect_takes_back_one_connect (ws : WebSocket)
    (m : ConnectionManager) :
  get_connection_count (disconnect ws (connect ws m))
  = get_connection_count m /\
  (ws ∉ active_connections m -> disconnect ws (connect ws m) = m) /\
  (ws ∈ active_connections m ->
   ws ∈ active_connections (disconnect ws (connect ws m))).
Proof.
  destruct m as [l]. unfold disconnect, connect, get_connection_count. cbn.
  rewrite bool_decide_eq_true_2 by (apply elem_of_app; right; constructor).
  cbn. destruct (decide (ws ∈ l)) as [Hin | Hnot].
  - rewrite list_remove_snoc_in by done. repeat split.
    + rewrite length_app. cbn. pose proof (list_remove_length ws l Hin). lia.
    + done.
    + intros _. apply elem_of_app. right. constructor.
  - rewrite list_remove_snoc_notin by done. done.
Qed.

End ConnectionFacts.

(** ** Interfaces and workers *)

Section WorkerSelection.
Import MultiInterface.
Context {P : Type}.

Lemma rr_draws_spec (n : nat) (lb : LoadBalancer P) :
  (0 < num_workers lb)%nat ->
  rr_draws n lb
  = map (fun i => Z.to_nat ((rr_counter lb + Z.of_nat i)
                            mod Z.of_nat (num_workers lb)))
        (seq 0 n).
Proof.
  revert lb. induction n as [| n IH]; intros lb Hpos; [done |].
  cbn [rr_draws]. unfold _get_round_robin_worker.
  destruct (num_workers lb) as [| k] eqn:Hn; [lia |].
  cbn [seq map]. rewrite Z.add_0_r. f_equal.
  rewrite IH by (cbn; lia). cbn [num_workers rr_counter].
  rewrite <- seq_shift, map_map. apply map_ext. intros i.
  do 2 f_equal. lia.
Qed.

(** X14: round-robin is fair: as many selections in a row as there are
    workers pick every worker exactly once. *)
Theorem round_robin_is_fair (lb : LoadBalancer P) :
  (0 < num_workers lb)%nat ->
  rr_draws (num_workers lb) lb ≡ₚ seq 0 (num_workers lb).
Proof.
  intros Hpos. rewrite (rr_draws_spec _ lb Hpos).
  set (N := num_workers lb) in *. set (c := rr_counter lb).
  symmetry. apply submseteq_length_Permutation.
  - apply NoDup_submseteq; [apply NoDup_seq |].
    intros j Hj. apply elem_of_seq in Hj.
    apply list_elem_of_fmap.
    exists (Z.to_nat ((Z.of_nat j - c) mod Z.of_nat N)).
    assert (0 <= (Z.of_nat j - c) mod Z.of_nat N < Z.of_nat N)%Z as Hr
      by (apply Z.mod_pos_bound; lia).
    split.
    + rewrite Z2Nat.id by lia.
      rewrite Zplus_mod_idemp_r.
      replace (c + (Z.of_nat j - c))%Z with (Z.of_nat j) by lia.
      rewrite Z.mod_small by lia. lia.
    + apply elem_of_seq. lia.
  - rewrite length_map, !length_seq. lia.
Qed.

(** The loop of [_get_least_loaded_worker] over a prefix of the
    workers. *)
Lemma least_loaded_loop (stats : list WorkerStats) :
  let r :=
    fold_left
      (fun '(best, i) st =>
         let '(min_load, worker) := best in
         if is_active st &&
            match min_load with
            | None => true
            | Some m => (load st <? m)%Z
            end
         then ((Some (load st), i), S i)
         else (best, S i))
      stats ((None, 0%nat), 0%nat) in
  r.2 = length stats /\
  match r.1.1 with
  | None => Forall (fun st => is_active st = false) stats /\ r.1.2 = 0%nat
  | Some m =>
      least_loaded stats r.1.2 /\
      exists st, stats !! r.1.2 = Some st /\ load st = m
  end.
Proof.
  induction stats as [| x stats IH] using rev_ind; [by cbn |].
  rewrite fold_left_app. cbn [fold_left].
  cbn zeta in IH.
  destruct (fold_left _ stats _) as [[m w] i]. cbn [fst snd] in IH.
  destruct IH as [-> IH].
  destruct (is_active x) eqn:Hact; cbn [andb].
  - destruct m as [m |].
    + destruct IH as [(st & Hst & Hsa & Hmin) (st0 & Hst0 & Hm)].
      assert (st0 = st) as -> by congruence.
      destruct (load x <? m)%Z eqn:Hlt; cbn [fst snd].
      * apply Z.ltb_lt in Hlt.
        split; [rewrite length_app; cbn; lia |].
        split.
        -- exists x. split; [by rewrite list_lookup_middle |].
           split; [done |]. intros j st' Hj Hja.
           destruct (decide (j < length stats)%nat) as [Hlen | Hlen].
           ++ rewrite lookup_app_l in Hj by done.
              destruct (Hmin j st' Hj Hja) as [H1 _]. split; lia.
           ++ apply lookup_lt_Some in Hj as Hjl. rewrite length_app in Hjl.
              cbn in Hjl. assert (j = length stats) as -> by lia.
              rewrite list_lookup_middle in Hj by done.
              injection Hj as <-. split; lia.
        -- exists x. by rewrite list_lookup_middle.
      * apply Z.ltb_ge in Hlt.
        split; [rewrite length_app; cbn; lia |].
        apply lookup_lt_Some in Hst as Hw.
        split.
        -- exists st. split; [by rewrite lookup_app_l |].
           split; [done |]. intros j st' Hj Hja.
           destruct (decide (j < length stats)%nat) as [Hlen | Hlen].
           ++ rewrite lookup_app_l in Hj by done. by apply Hmin.
           ++ apply lookup_lt_Some in Hj as Hjl. rewrite length_app in Hjl.
              cbn in Hjl. assert (j = length stats) as -> by lia.
              rewrite list_lookup_middle in Hj by done.
              injection Hj as <-. split; lia.
        -- exists st. split; [by rewrite lookup_app_l | done].
    + destruct IH as [Hall ->]. cbn [fst snd].
      split; [rewrite length_app; cbn; lia |].
      split.
      * exists x. split; [by rewrite list_lookup_middle |].
        split; [done |]. intros j st' Hj Hja.
        destruct (decide (j < length stats)%nat) as [Hlen | Hlen].
        -- rewrite lookup_app_l in Hj by done.
           rewrite Forall_lookup in Hall. specialize (Hall j st' Hj).
           cbn in Hall. congruence.
        -- apply lookup_lt_Some in Hj as Hjl. rewrite length_app in Hjl.
           cbn in Hjl. assert (j = length stats) as -> by lia.
           rewrite list_lookup_middle in Hj by done.
           injection Hj as <-. split; lia.
      * exists x. by rewrite list_lookup_middle.
  - cbn [fst snd]. split; [rewrite length_app; cbn; lia |].
    destruct m as [m |].
    + destruct IH as [(st & Hst & Hsa & Hmin) (st0 & Hst0 & Hm)].
      apply lookup_lt_Some in Hst as Hw.
      split.
      * exists st. split; [by rewrite lookup_app_l |].
        split; [done |]. intros j st' Hj Hja.
        destruct (decide (j < length stats)%nat) as [Hlen | Hlen].
        -- rewrite lookup_app_l in Hj by done. by apply Hmin.
        -- apply lookup_lt_Some in Hj as Hjl. rewrite length_app in Hjl.
           cbn in Hjl. assert (j = length stats) as -> by lia.
           rewrite list_lookup_middle in Hj by done.
           injection Hj as <-. congruence.
      * exists st0. split; [| done].
        apply lookup_lt_Some in Hst0 as Hw0. by rewrite lookup_app_l.
    + destruct IH as [Hall ->]. split; [| done].
      apply Forall_app. split; [done |]. by constructor.
Qed.

(** X15: the least-loaded selection is an active worker of minimal load,
    the first one of them; with no active worker it is worker 0. *)
Theorem least_loaded_worker_is_minimal (lb : LoadBalancer P) :
  (Exists (fun st => is_active st = true) (worker_stats lb) ->
   least_loaded (worker_stats lb) (_get_least_loaded_worker lb)) /\
  (Forall (fun st => is_active st = false) (worker_stats lb) ->
   _get_least_loaded_worker lb = 0%nat).
Proof.
  pose proof (least_loaded_loop (worker_stats lb)) as H. cbn zeta in H.
  unfold _get_least_loaded_worker.
  destruct (fold_left _ (worker_stats lb) _) as [[m w] i].
  cbn [fst snd] in *. destruct H as [_ H].
  destruct m as [m |].
  - destruct H as [Hll (st & Hst & _)]. split; [done |].
    intros Hall. rewrite Forall_lookup in Hall.
    destruct Hll as (st' & Hst' & Hact & _).
    specialize (Hall _ _ Hst'). cbn in Hall. congruence.
  - destruct H as [Hall ->]. split; [| done].
    intros Hex. apply Exists_exists in Hex as (st & Hin & Hact).
    rewrite Forall_forall in Hall. specialize (Hall _ Hin). cbn in Hall.
    congruence.
Qed.

End WorkerSelection.
Section Bursts.
Import MultiInterface.
Context {P : Type}.

(** One assignment under the least-loaded strategy: the statistics that
    the selection reads do not change, and only the selected queue can
    grow. *)
Lemma least_loaded_step (packet : P) (interface : string)
    (lb : LoadBalancer P) (q : list (P * string)) :
  strategy lb = "least-loaded" ->
  worker_queues lb !! _get_least_loaded_worker lb = Some q ->
  let lb' := (assign_packet packet interface lb).2 in
  strategy lb' = strategy lb /\ maxsize lb' = maxsize lb /\
  worker_stats lb' = worker_stats lb /\
  worker_queues lb' =
    <[_get_least_loaded_worker lb :=
        if (0 <? maxsize lb)%nat && (maxsize lb <=? length q)%nat
        then q else q ++ [(packet, interface)]]> (worker_queues lb).
Proof.
  intros Hs Hq. unfold assign_packet. rewrite Hs.
  rewrite bool_decide_eq_false_2 by done.
  rewrite bool_decide_eq_true_2 by done.
  rewrite Hq. unfold put_nowait.
  destruct ((0 <? maxsize lb)%nat && (maxsize lb <=? length q)%nat); cbn.
  - repeat split; try done. symmetry. by apply list_insert_id.
  - done.
Qed.

(** X16: under the least-loaded strategy a burst of frames goes to one
    worker: its queue takes frames up to the bound, the rest are dropped,
    and the other queues stay as they were. *)
Theorem least_loaded_burst_fills_one_queue (items : list (P * string))
    (lb : LoadBalancer P) (q : list (P * string)) :
  strategy lb = "least-loaded" ->
  (0 < maxsize lb)%nat ->
  worker_queues lb !! _get_least_loaded_worker lb = Some q ->
  worker_stats (assign_all items lb) = worker_stats lb /\
  worker_queues (assign_all items lb) =
    <[_get_least_loaded_worker lb :=
        q ++ take (maxsize lb - length q) items]> (worker_queues lb).
Proof.
  revert lb q. induction items as [| [packet interface] rest IH];
    intros lb q Hs Hmax Hq.
  - cbn. rewrite take_nil, app_nil_r. split; [done |].
    symmetry. by apply list_insert_id.
  - cbn [assign_all].
    destruct (least_loaded_step packet interface lb q Hs Hq)
      as (Hs' & Hm' & Hst' & Hq').
    set (lb' := (assign_packet packet interface lb).2) in *.
    assert (_get_least_loaded_worker lb' = _get_least_loaded_worker lb)
      as Hw by (unfold _get_least_loaded_worker; by rewrite Hst').
    apply lookup_lt_Some in Hq as Hlen.
    assert ((0 <? maxsize lb)%nat = true) as Hpos by (apply Nat.ltb_lt; lia).
    rewrite Hpos in Hq'. cbn [andb] in Hq'.
    destruct (maxsize lb <=? length q)%nat eqn:Hfull.
    + apply Nat.leb_le in Hfull.
      destruct (IH lb' q) as [I1 I2].
      { congruence. } { lia. }
      { rewrite Hw, Hq'. by rewrite list_lookup_insert_eq. }
      rewrite I1, I2, Hw, Hm', Hq', Hst'. split; [done |].
      rewrite list_insert_insert_eq.
      replace (maxsize lb - length q)%nat with 0%nat by lia.
      by rewrite !take_0.
    + apply Nat.leb_gt in Hfull.
      destruct (IH lb' (q ++ [(packet, interface)])) as [I1 I2].
      { congruence. } { lia. }
      { rewrite Hw, Hq'. by rewrite list_lookup_insert_eq. }
      rewrite I1, I2, Hw, Hm', Hq', Hst'. split; [done |].
      rewrite list_insert_insert_eq. f_equal.
      rewrite length_app. cbn [length].
      replace (maxsize lb - length q)%nat
        with (S (maxsize lb - (length q + 1)))%nat by lia.
      cbn [take]. by rewrite <- app_assoc.
Qed.

End Bursts.

Section InterfaceStatistics.
Import MultiInterface.

(** Both branches of [process_packet] end in the same call. *)
Lemma process_packet_step (now : Q) (handled : bool) (name : string)
    (im : InterfaceManager) :
  process_packet now handled name im
  = Value (update_stats now name 0 0 0 1 im).
Proof. by destruct handled. Qed.

(** X17: the statistics of all interfaces can be read only while no
    interface is registered.  A call of [get_stats] without a name (or with
    the empty name), made with the lock free, takes the lock and then calls
    [get_stats] for the first interface, which waits for the same lock: it
    returns [{}] when no interface is registered and never returns
    otherwise, so never after an [add_interface].  A call with a name
    returns that interface's statistics, or [{}] for a name that is not
    registered. *)
Theorem get_stats_without_name_deadlocks (depth : nat)
    (im : InterfaceManager) (name : string) :
  (2 <= depth)%nat ->
  get_stats depth Free None im
  = (if bool_decide (interfaces im = ∅) then Value (Dict []) else Deadlock) /\
  get_stats depth Free (Some "") im = get_stats depth Free None im /\
  get_stats depth Free None (add_interface name im).2 = Deadlock /\
  (name <> "" ->
   get_stats depth Free (Some name) im
   = Value (match interfaces im !! name with
            | Some stats => StatsOf stats
            | None => Dict []
            end)).
Proof.
  intros Hd. destruct depth as [| [| depth]]; [lia | lia |].
  assert (Hall : forall m : InterfaceManager,
            get_stats (S (S depth)) Free None m
            = if bool_decide (interfaces m = ∅) then Value (Dict [])
              else Deadlock).
  { intros m. cbn [get_stats with_lock].
    destruct (map_to_list (interfaces m)) as [| [k s] rest] eqn:E.
    - apply map_to_list_empty_iff in E. rewrite E.
      by rewrite bool_decide_eq_true_2.
    - rewrite bool_decide_eq_false_2.
      + cbn [map fst]. done.
      + intros H. rewrite H, map_to_list_empty in E. discriminate. }
  split; [apply Hall |]. split; [done |]. split.
  - rewrite Hall. rewrite bool_decide_eq_false_2; [done |].
    unfold add_interface.
    destruct (interfaces im !! name) as [s |] eqn:E; cbn.
    + intros H. rewrite H, lookup_empty in E. discriminate.
    + apply insert_non_empty.
  - intros Hn. destruct name as [| c name]; [done |].
    cbn [get_stats with_lock]. by destruct (interfaces im !! String c name).
Qed.

(** X18: every packet that the workers process is recorded as an error of
    its interface.  The call that follows a packet handler that returned
    passes the keyword [processed], which [update_stats] does not have, so
    it raises and the [except] branch runs as it does when the handler
    raised.  Over any stream of processed packets, [process_packet] returns
    every time, the errors of a registered interface grow by the number of
    its packets in the stream, and its counts of processed, captured and
    dropped packets and of bytes stay as they were. *)
Theorem processed_packets_are_recorded_as_errors
    (packets : list (Q * bool * string)) (im : InterfaceManager)
    (name : string) (stats : InterfaceStats) :
  interfaces im !! name = Some stats ->
  exists im' stats',
    process_all packets im = Value im' /\
    interfaces im' !! name = Some stats' /\
    errors_i stats' = (errors_i stats + Z.of_nat (packets_of name packets))%Z /\
    packets_processed_i stats' = packets_processed_i stats /\
    packets_captured stats' = packets_captured stats /\
    packets_dropped stats' = packets_dropped stats /\
    bytes_captured stats' = bytes_captured stats.
Proof.
  revert im stats. induction packets as [| [[now handled] n] rest IH];
    intros im stats H.
  - exists im, stats. cbn. repeat split; try done. lia.
  - cbn [process_all]. rewrite process_packet_step.
    unfold packets_of. rewrite filter_cons. cbn [snd].
    destruct (decide (n = name)) as [-> | Hne].
    + destruct (IH (update_stats now name 0 0 0 1 im)
                  {| interface_name := interface_name stats;
                     packets_captured := (packets_captured stats + 0)%Z;
                     packets_processed_i := packets_processed_i stats;
                     packets_dropped := (packets_dropped stats + 0)%Z;
                     bytes_captured := (bytes_captured stats + 0)%Z;
                     errors_i := (errors_i stats + 1)%Z;
                     last_packet_time := last_packet_time stats;
                     is_active_i := is_active_i stats |})
        as (im' & stats' & H1 & H2 & H3 & H4 & H5 & H6 & H7).
      { unfold update_stats. rewrite H. cbn. by rewrite lookup_insert_eq. }
      exists im', stats'. cbn in *. unfold packets_of in H3.
      repeat split; try done; lia.
    + destruct (IH (update_stats now n 0 0 0 1 im) stats)
        as (im' & stats' & H1 & H2 & H3 & H4 & H5 & H6 & H7).
      { unfold update_stats. destruct (interfaces im !! n); [| done].
        cbn. by rewrite lookup_insert_ne. }
      exists im', stats'. unfold packets_of in H3. repeat split; done.
Qed.

End InterfaceStatistics.

Section InterfaceExamples.
Import MultiInterface.

Lemma round_robin_is_fair_witness :
  rr_draws 4 (new_balancer nat 4 "round-robin") ≡ₚ seq 0 4.
Proof.
  apply (round_robin_is_fair (new_balancer nat 4 "round-robin")).
  cbn. lia.
Defined.

Lemma least_loaded_burst_fills_one_queue_witness :
  let lb := new_balancer nat 4 "least-loaded" in
  let items := map (fun n => (n, "eth0")) (seq 0 1200) in
  worker_stats (assign_all items lb) = worker_stats lb /\
  worker_queues (assign_all items lb) =
    <[_get_least_loaded_worker lb := [] ++ take (1000 - 0) items]>
      (worker_queues lb).
Proof.
  apply (least_loaded_burst_fills_one_queue
           (map (fun n => (n, "eth0")) (seq 0 1200))
           (new_balancer nat 4 "least-loaded") []).
  - reflexivity.
  - cbn. lia.
  - reflexivity.
Defined.

Lemma get_stats_without_name_deadlocks_witness :
  let im := interface_manager saturated in
  get_stats 1000 Free None im
  = (if bool_decide (interfaces im = ∅) then Value (Dict []) else Deadlock) /\
  get_stats 1000 Free (Some "") im = get_stats 1000 Free None im /\
  get_stats 1000 Free None (add_interface "eth1" im).2 = Deadlock /\
  ("eth1" <> "" ->
   get_stats 1000 Free (Some "eth1") im
   = Value (match interfaces im !! "eth1" with
            | Some stats => StatsOf stats
            | None => Dict []
            end)).
Proof.
  apply (get_stats_without_name_deadlocks 1000 (interface_manager saturated)
           "eth1").
  lia.
Defined.

Lemma processed_packets_are_recorded_as_errors_witness :
  exists im' stats',
    process_all three_processed (interface_manager saturated) = Value im' /\
    interfaces im' !! "eth0" = Some stats' /\
    errors_i stats' = (0 + Z.of_nat (packets_of "eth0" three_processed))%Z /\
    packets_processed_i stats' = 0%Z /\
    packets_captured stats' = 1000%Z /\
    packets_dropped stats' = 0%Z /\
    bytes_captured stats' = 0%Z.
Proof.
  exact (processed_packets_are_recorded_as_errors three_processed
           (interface_manager saturated) "eth0" _ eq_refl).
Defined.

(** With one interface registered, the statistics of all interfaces are
    never returned; the two packets of eth0 are two errors. *)
Example saturated_statistics :
  get_stats 1000 Free None (interface_manager saturated) = Deadlock /\
  (errors_i <$>
     match process_all three_processed (interface_manager saturated) with
     | Value im' => interfaces im' !! "eth0"
     | _ => None
     end) = Some 2%Z.
Proof. split; vm_compute; reflexivity. Qed.

(** The default balancer: 1200 frames before any worker has finished one.
    Worker 0 holds 1000, the other three queues are empty. *)
Example default_balancer_burst :
  map length
    (worker_queues
       (assign_all (map (fun n => (n, "eth0")) (seq 0 1200))
          (new_balancer nat 4 "least-loaded")))
  = [1000; 0; 0; 0]%nat.
Proof. vm_compute. reflexivity. Qed.

End InterfaceExamples.

(** ** Feature schemas: checksums, compatibility and migration *)

Section SchemaFacts.
Import FeatureVersioning.

Lemma str_le_trans (s1 s2 s3 : string) :
  str_le s1 s2 -> str_le s2 s3 -> str_le s1 s3.
Proof.
  unfold str_le, String.leb. revert s2 s3.
  induction s1 as [| c1 s1 IH]; intros [| c2 s2] [| c3 s3]; cbn; try done.
  unfold Ascii.compare.
  destruct (N.compare_spec (N_of_ascii c1) (N_of_ascii c2))
    as [E12 | L12 | G12];
    destruct (N.compare_spec (N_of_ascii c2) (N_of_ascii c3))
      as [E23 | L23 | G23];
    try done.
  - rewrite E12, E23, N.compare_refl. apply IH.
  - intros _ _. rewrite E12. by apply N.compare_lt_iff in L23 as ->.
  - intros _ _. rewrite <- E23. by apply N.compare_lt_iff in L12 as ->.
  - intros _ _. assert (N_of_ascii c1 < N_of_ascii c3)%N as H by lia.
    by apply N.compare_lt_iff in H as ->.
Qed.

Lemma sorted_of_permutation (l1 l2 : list string) :
  l1 ≡ₚ l2 -> sorted l1 = sorted l2.
Proof.
  intros H.
  apply (Sorted_unique_strong str_le (Transitive0 := str_le_trans)).
  - intros x1 x2 _ _. apply String.leb_antisym.
  - apply sorted_ordered.
  - apply sorted_ordered.
  - by rewrite !sorted_perm.
Qed.

(** X19: the checksum does not depend on the order in which the features
    are listed. *)
Theorem checksum_ignores_order (features1 features2 : list string) :
  features1 ≡ₚ features2 ->
  _compute_checksum features1 = _compute_checksum features2.
Proof.
  intros H. unfold _compute_checksum. by rewrite (sorted_of_permutation _ _ H).
Qed.

Lemma changed_types_empty (s1 s2 : FeatureSchema) (common : gset string) :
  size (set_to_map
          (fun feat =>
             (feat, {| old_type := feature_types s1 !! feat;
                       new_type := feature_types s2 !! feat |}))
          (filter (fun feat => feature_types s1 !! feat
                               ≠ feature_types s2 !! feat) common)
        : gmap string TypeChange) = 0%nat <->
  forall f, f ∈ common -> feature_types s1 !! f = feature_types s2 !! f.
Proof.
  rewrite map_size_empty_iff. split.
  - intros Hempty f Hf.
    destruct (decide (feature_types s1 !! f = feature_types s2 !! f))
      as [E | E]; [done |].
    exfalso.
    assert ((set_to_map
               (fun feat =>
                  (feat, {| old_type := feature_types s1 !! feat;
                            new_type := feature_types s2 !! feat |}))
               (filter (fun feat => feature_types s1 !! feat
                                    ≠ feature_types s2 !! feat) common)
             : gmap string TypeChange) !! f
            = Some {| old_type := feature_types s1 !! f;
                      new_type := feature_types s2 !! f |}) as Hl.
    { apply lookup_set_to_map; [by intros ?? _ _ [= ->] |].
      exists f. split; [| done]. apply elem_of_filter. done. }
    rewrite Hempty, lookup_empty in Hl. discriminate.
  - intros Hall. apply map_empty. intros f.
    apply eq_None_not_Some. intros [tc Htc].
    apply lookup_set_to_map in Htc as (y & Hy & E);
      [| by intros ?? _ _ [= ->]].
    injection E as -> _. apply elem_of_filter in Hy as [Hne Hc].
    by apply Hne, Hall.
Qed.

(** X20: what the compatibility report says: a report exists exactly for
    two registered versions; it is backward compatible when no feature of
    the first schema is missing in the second, and compatible when those
    features also keep their declared type. *)
Theorem compatibility_report (v1 v2 : string) (m : FeatureVersionManager) :
  match check_compatibility v1 v2 m, schemas m !! v1, schemas m !! v2 with
  | Report r, Some s1, Some s2 =>
      (backward_compatible r = true <->
       forall f, f ∈ features s1 -> f ∈ features s2) /\
      (compatible r = true <->
       forall f, f ∈ features s1 ->
         f ∈ features s2 /\ feature_types s1 !! f = feature_types s2 !! f) /\
      (forall f, f ∈ features_added r <->
                 f ∈ features s2 /\ f ∉ features s1) /\
      (forall f, f ∈ features_removed r <->
                 f ∈ features s1 /\ f ∉ features s2) /\
      (forall f, f ∈ features_common r <->
                 f ∈ features s1 /\ f ∈ features s2)
  | SchemaNotFound, None, _ | SchemaNotFound, Some _, None => True
  | _, _, _ => False
  end.
Proof.
  unfold check_compatibility.
  destruct (schemas m !! v1) as [s1 |]; [| done].
  destruct (schemas m !! v2) as [s2 |]; [| done].
  cbn [backward_compatible compatible features_added features_removed
       features_common].
  assert (size (list_to_set (features s1) ∖ list_to_set (features s2)
                : gset string) = 0%nat <->
          forall f, f ∈ features s1 -> f ∈ features s2) as Hback.
  { rewrite size_empty_iff. split.
    - intros H f Hf. destruct (decide (f ∈ features s2)); [done |].
      exfalso. apply (not_elem_of_empty (C := gset string) f).
      rewrite <- H. apply elem_of_difference.
      rewrite !elem_of_list_to_set. done.
    - intros H f. split; [| by intros ?%not_elem_of_empty].
      rewrite elem_of_difference, !elem_of_list_to_set.
      intros [H1 H2]. exfalso. by apply H2, H. }
  split; [by rewrite bool_decide_eq_true |].
  split.
  - rewrite andb_true_iff, !bool_decide_eq_true, changed_types_empty, Hback.
    split.
    + intros [H1 H2] f Hf. split; [by apply H1 |]. apply H2.
      apply elem_of_intersection. rewrite !elem_of_list_to_set.
      split; [done | by apply H1].
    + intros H. split; [intros f Hf; by apply H |].
      intros f Hf. apply elem_of_intersection in Hf as [Hf _].
      apply elem_of_list_to_set in Hf. by apply H.
  - split; [| split]; intros f;
      rewrite ?elem_of_difference, ?elem_of_intersection,
        !elem_of_list_to_set; tauto.
Qed.

(** X21: what a migration returns: for every feature of the target
    schema, the value of [data] if the source schema has the feature too
    and [data] holds it, and the default of its type if the feature is
    new; nothing else.  With a version that is not registered the call
    raises. *)
Theorem migration_fills_the_target {V} (data : gmap string V)
    (v1 v2 : string) (m : FeatureVersionManager) :
  match schemas m !! v1, schemas m !! v2 with
  | Some s1, Some s2 =>
      exists out, migrate_features data v1 v2 m = Some out /\
        forall f,
          out !! f =
            if bool_decide (f ∈ features s2)
            then if bool_decide (f ∈ features s1)
                 then Copied <$> data !! f
                 else Some (default_for s2 f)
            else None
  | _, _ => migrate_features data v1 v2 m = None
  end.
Proof.
  unfold migrate_features, check_compatibility.
  destruct (schemas m !! v1) as [s1 |]; [| done].
  destruct (schemas m !! v2) as [s2 |]; [| done].
  cbn [features_common features_added].
  eexists. split; [reflexivity |]. intros f.
  rewrite lookup_union, lookup_fmap.
  destruct (decide (f ∈ features s2)) as [H2 | H2];
    destruct (decide (f ∈ features s1)) as [H1 | H1];
    rewrite ?(bool_decide_eq_true_2 _ H1), ?(bool_decide_eq_true_2 _ H2),
            ?(bool_decide_eq_false_2 _ H1), ?(bool_decide_eq_false_2 _ H2).
  - (* common *)
    assert ((set_to_map (fun feat => (feat, default_for s2 feat))
               (list_to_set (features s2) ∖ list_to_set (features s1)
                : gset string) : gmap string (migrated V)) !! f = None)
      as ->.
    { apply eq_None_not_Some. intros [x Hx].
      apply lookup_set_to_map in Hx as (y & Hy & E);
        [| by intros ?? _ _ [= ->]].
      injection E as -> _. apply elem_of_difference in Hy as [_ Hy].
      apply Hy. by apply elem_of_list_to_set. }
    rewrite (left_id_L None _).
    destruct (data !! f) as [x |] eqn:E.
    + erewrite (proj2 (map_lookup_filter_Some _ _ _ _)); [done |].
      split; [done |]. cbn. apply elem_of_intersection.
      by rewrite !elem_of_list_to_set.
    + by rewrite map_lookup_filter_None_2 by (left; done).
  - (* new *)
    assert ((set_to_map (fun feat => (feat, default_for s2 feat))
               (list_to_set (features s2) ∖ list_to_set (features s1)
                : gset string) : gmap string (migrated V)) !! f
            = Some (default_for s2 f)) as ->.
    { apply lookup_set_to_map; [by intros ?? _ _ [= ->] |].
      exists f. split; [| done]. apply elem_of_difference.
      by rewrite !elem_of_list_to_set. }
    by destruct (Copied <$> _).
  - (* removed *)
    assert ((set_to_map (fun feat => (feat, default_for s2 feat))
               (list_to_set (features s2) ∖ list_to_set (features s1)
                : gset string) : gmap string (migrated V)) !! f = None)
      as ->.
    { apply eq_None_not_Some. intros [x Hx].
      apply lookup_set_to_map in Hx as (y & Hy & E);
        [| by intros ?? _ _ [= ->]].
      injection E as -> _. apply elem_of_difference in Hy as [Hy _].
      by apply elem_of_list_to_set in Hy. }
    rewrite (left_id_L None _).
    rewrite map_lookup_filter_None_2; [done |].
    right. intros x _. cbn. rewrite elem_of_intersection, !elem_of_list_to_set.
    tauto.
  - (* neither *)
    assert ((set_to_map (fun feat => (feat, default_for s2 feat))
               (list_to_set (features s2) ∖ list_to_set (features s1)
                : gset string) : gmap string (migrated V)) !! f = None)
      as ->.
    { apply eq_None_not_Some. intros [x Hx].
      apply lookup_set_to_map in Hx as (y & Hy & E);
        [| by intros ?? _ _ [= ->]].
      injection E as -> _. apply elem_of_difference in Hy as [Hy _].
      by apply elem_of_list_to_set in Hy. }
    rewrite (left_id_L None _).
    rewrite map_lookup_filter_None_2; [done |].
    right. intros x _. cbn. rewrite elem_of_intersection, !elem_of_list_to_set.
    tauto.
Qed.

End SchemaFacts.
Section SchemaExamples.
Import FeatureVersioning.

Lemma checksum_ignores_order_witness :
  _compute_checksum ["src_ip"; "dst_ip"; "opcode"]
  = _compute_checksum ["opcode"; "src_ip"; "dst_ip"].
Proof.
  apply checksum_ignores_order.
  exact (Permutation_app_comm ["src_ip"; "dst_ip"] ["opcode"]).
Defined.

(** Two versions: the second drops [opcode], adds [rate] (a float) and
    [label] (a string), and counts [src_ip] as an integer. *)
Example migration_between_two_versions :
  let m1 := (register_schema "2025-01-06T12:00:00" "1.0.0" "basic"
               ["src_ip"; "dst_ip"; "opcode"] ∅ "" None empty_registry).2 in
  let m2 := (register_schema "2025-01-07T12:00:00" "2.0.0" "timed"
               ["src_ip"; "dst_ip"; "rate"; "label"; "hops"]
               {["rate" := "float64"; "label" := "str"; "hops" := "int"]}
               "" None m1).2 in
  let data : gmap string Z := {["src_ip" := 5%Z; "opcode" := 2%Z]} in
  migrate_features data "1.0.0" "2.0.0" m2
  = Some {["src_ip" := Copied 5%Z; "rate" := DefaultFloat;
           "label" := DefaultNone; "hops" := DefaultInt]} /\
  migrate_features data "1.0.0" "3.0.0" m2 = None /\
  match check_compatibility "1.0.0" "2.0.0" m2 with
  | Report r => compatible r = false /\ backward_compatible r = false
  | SchemaNotFound => False
  end /\
  match check_compatibility "2.0.0" "2.0.0" m2 with
  | Report r => compatible r = true
  | SchemaNotFound => False
  end.
Proof. vm_compute. done. Qed.

End SchemaExamples.

(** ** The learner: restarts, scheduling and progress *)

Section LearnerState.
Import AlertSystem ANNClassifier ContinuousLearner.

(** X22: what a restart keeps: a learner built on the state file that
    another one saved starts from the saved alert id, the last 100 history
    entries and the last 20 versions; the time of the last training is
    saved but not read back, so the first check after a restart does not
    wait for the learning interval. *)
Theorem saved_state_survives_restart (det : option ANNDetector)
    (interval samples : Z) (history : nat) (models_dir : string)
    (l : Learner) (d : Disk SavedState) :
  stats_file l = models_dir +:+ "/continuous_learning_stats.json" ->
  let l' := init det interval samples history models_dir (_save_state l d) in
  last_processed_id l' = last_processed_id l /\
  training_history l' = last_n 100 (training_history l) /\
  model_versions l' = last_n 20 (model_versions l) /\
  last_training_time l' = None /\
  forall seconds_since table,
    _should_train seconds_since table l' = true <->
    (samples <=
     Z.of_nat (length (filter (fun a => (last_processed_id l < id a)%Z)
                              table)))%Z.
Proof.
  intros Hfile. unfold init, _load_state, _save_state.
  cbn [stats_file files]. rewrite <- Hfile, lookup_insert_eq.
  cbn [last_processed_id training_history model_versions last_training_time
       s_last_processed_id s_training_history s_model_versions].
  repeat split; try done.
  - unfold _should_train. cbn.
    destruct (Z.ltb_spec
                (Z.of_nat (length (filter (fun a => (last_processed_id l < id a)%Z)
                                     table))) samples); [done | lia].
  - unfold _should_train. cbn.
    destruct (Z.ltb_spec
                (Z.of_nat (length (filter (fun a => (last_processed_id l < id a)%Z)
                                     table))) samples); [lia | done].
Qed.

End LearnerState.

Section LearnerProgress.
Import AlertSystem ANNClassifier ContinuousLearner.
Variable py_float : string -> option float.
Variable features_of : Alert -> option (list Q).

Lemma with_training_off (l : Learner) :
  is_training l = false -> with_training false (with_training true l) = l.
Proof. destruct l. cbn. by intros ->. Qed.

(** X23: a batch with too few labelled samples changes nothing: the cycle
    returns before any step, the alert id is not advanced, and the check
    that started the cycle stays true, so the same alerts are collected
    again on the next check. *)
Theorem short_batch_is_collected_again (seconds_since : string -> Q)
    (clock : Clock) (table : list Alert)
    (trained : option (Metrics * weights)) (l : Learner)
    (d : Disk SavedState) :
  is_training l = false ->
  _should_train seconds_since table l = true ->
  (Z.of_nat (length (_collect_training_data py_float features_of l table).1.1)
   < min_samples l)%Z ->
  let out := _perform_training_cycle py_float features_of clock (Some table)
               trained l d in
  out = (l, d) /\ _should_train seconds_since table out.1 = true.
Proof.
  intros Hidle Hcheck Hshort out.
  assert (out = (l, d)) as ->; [| done].
  subst out. unfold _perform_training_cycle.
  change (_collect_training_data py_float features_of
            (with_training true l) table)
    with (_collect_training_data py_float features_of l table).
  destruct (_collect_training_data py_float features_of l table)
    as [[X y] ids].
  cbn [fst] in Hshort. cbn [min_samples with_training].
  apply Z.ltb_lt in Hshort. rewrite Hshort.
  by rewrite with_training_off.
Qed.

(** The ids that [collect] returns belong to alerts of its input that got
    a label. *)
Lemma collect_ids (alerts : list Alert) (i : Z) :
  i ∈ (collect py_float features_of alerts).2 ->
  exists a, a ∈ alerts /\ id a = i /\ _auto_label_alert py_float a <> None.
Proof.
  induction alerts as [| a rest IH]; cbn; [by intros ?%elem_of_nil |].
  destruct (collect py_float features_of rest) as [[X y] ids]. cbn in IH.
  assert (i ∈ ids -> exists a0, a0 ∈ a :: rest /\ id a0 = i /\
            _auto_label_alert py_float a0 <> None) as Hrest.
  { intros H. destruct (IH H) as (a0 & H1 & H2 & H3).
    exists a0. split; [by right | done]. }
  destruct (features_of a); [| done].
  destruct (_auto_label_alert py_float a) as [label |] eqn:E; [| done].
  cbn. intros [-> | H]%elem_of_cons; [| by apply Hrest].
  exists a. split; [by left |]. split; [done | congruence].
Qed.

Lemma insert_by_id_perm (a : Alert) (l : list Alert) :
  insert_by_id a l ≡ₚ a :: l.
Proof.
  induction l as [| b rest IH]; cbn; [done |].
  destruct (id a <=? id b)%Z; [done |].
  rewrite IH. apply Permutation_swap.
Qed.

Lemma sort_by_id_perm (l : list Alert) : foldr insert_by_id [] l ≡ₚ l.
Proof.
  induction l as [| x xs IH]; cbn; [done |].
  rewrite insert_by_id_perm. by constructor.
Qed.

Lemma new_alerts_elem (l : Learner) (table : list Alert) (a : Alert) :
  a ∈ new_alerts l table -> a ∈ table /\ (last_processed_id l < id a)%Z.
Proof.
  unfold new_alerts. intros H. apply subseteq_take in H.
  rewrite sort_by_id_perm in H. apply list_elem_of_filter in H. tauto.
Qed.

Lemma max_id_elem (first : Z) (rest : list Z) :
  max_id first rest ∈ first :: rest.
Proof.
  unfold max_id. revert first.
  induction rest as [| x rest IH]; intros first; cbn; [by left |].
  specialize (IH (Z.max first x)).
  apply elem_of_cons in IH as [-> | IH].
  - destruct (Z.max_spec first x) as [[_ ->] | [_ ->]];
      [right; by left | by left].
  - right. by right.
Qed.

Lemma save_model_version_id (now : string) (metrics : option Metrics)
    (l : Learner) (d : Disk SavedState) :
  last_processed_id (_save_model_version now metrics l d).1
  = last_processed_id l.
Proof.
  unfold _save_model_version. destruct (ann_detector l); [| done].
  by destruct (save_checkpoint _ _ _) as [[] ?].
Qed.

Lemma rollback_model_id (backup : option string) (l : Learner)
    (d : Disk SavedState) :
  last_processed_id (_rollback_model backup l d).1 = last_processed_id l.
Proof.
  unfold _rollback_model. destruct backup as [b |]; [| done].
  destruct (files d !! b); [| done].
  destruct (copy2 _ _ _) as [[] ?]; [| done].
  destruct (ann_detector l); [| done].
  by destruct (reload_model _ _).
Qed.

(** X24: the id of the last processed alert never goes back: after a
    cycle it is what it was, or the larger id of an alert of the table
    that got a label. *)
Theorem last_processed_id_never_goes_back (clock : Clock)
    (table : option (list Alert)) (trained : option (Metrics * weights))
    (l : Learner) (d : Disk SavedState) :
  let l' := (_perform_training_cycle py_float features_of clock table trained
               l d).1 in
  last_processed_id l' = last_processed_id l \/
  ((last_processed_id l < last_processed_id l')%Z /\
   exists a rows, table = Some rows /\ a ∈ rows /\
     id a = last_processed_id l' /\ _auto_label_alert py_float a <> None).
Proof.
  unfold _perform_training_cycle.
  destruct table as [rows |]; [| by left].
  change (_collect_training_data py_float features_of
            (with_training true l) rows)
    with (_collect_training_data py_float features_of l rows).
  pose proof (collect_ids (new_alerts l rows)) as Hids.
  unfold _collect_training_data.
  destruct (collect py_float features_of (new_alerts l rows))
    as [[X y] ids].
  cbn [snd] in Hids. cbn [min_samples with_training].
  destruct (Z.of_nat (length X) <? min_samples l)%Z; [by left |].
  destruct (_backup_current_model _ _ _) as [backup d1].
  pose proof (incremental_train_paths trained (with_training true l))
    as (_ & _ & Hid1 & _).
  destruct (_incremental_train trained (with_training true l))
    as [metrics l1].
  cbn [snd] in Hid1.
  assert (forall l2 d2,
            (l2, d2) = (if _validate_model metrics
                        then _save_model_version (version_stamp clock)
                               metrics l1 d1
                        else _rollback_model backup l1 d1) ->
            last_processed_id l2 = last_processed_id l) as Hid2.
  { intros l2 d2 E. destruct (_validate_model metrics).
    - pose proof (save_model_version_id (version_stamp clock) metrics l1 d1).
      rewrite <- E in H. cbn in H. by rewrite H, Hid1.
    - pose proof (rollback_model_id backup l1 d1).
      rewrite <- E in H. cbn in H. by rewrite H, Hid1. }
  destruct (if _validate_model metrics then _ else _) as [l2 d2].
  specialize (Hid2 l2 d2 eq_refl).
  cbn [fst with_training update_state last_processed_id].
  destruct ids as [| i rest]; [by left |].
  right.
  pose proof (max_id_elem i rest) as Hmax.
  destruct (Hids _ Hmax) as (a & Ha & Hida & Hlabel).
  apply new_alerts_elem in Ha as [Hrow Hnew].
  split; [lia |]. exists a, rows. by rewrite Hida.
Qed.

End LearnerProgress.
Section LearnerExamples.
Import AlertSystem ANNClassifier ContinuousLearner.

Lemma saved_state_survives_restart_witness :
  let l' := init None 3600 100 (100 * 100) "models"
              (_save_state scenario_d_cycle.1 scenario_d_cycle.2) in
  last_processed_id l' = last_processed_id scenario_d_cycle.1 /\
  training_history l' = last_n 100 (training_history scenario_d_cycle.1) /\
  model_versions l' = last_n 20 (model_versions scenario_d_cycle.1) /\
  last_training_time l' = None /\
  forall seconds_since table,
    _should_train seconds_since table l' = true <->
    (100 <=
     Z.of_nat (length (filter (fun a => (last_processed_id scenario_d_cycle.1
                                         < id a)%Z) table)))%Z.
Proof.
  apply (saved_state_survives_restart None 3600 100 (100 * 100) "models"
           scenario_d_cycle.1 scenario_d_cycle.2).
  vm_compute. reflexivity.
Defined.

Lemma short_batch_is_collected_again_witness :
  let out := _perform_training_cycle Py.float_of_decimal scenario_d_features
               scenario_d_clock (Some unlabelled_table) scenario_d_trained
               scenario_d_learner scenario_d_disk in
  out = (scenario_d_learner, scenario_d_disk) /\
  _should_train (fun _ => 0%Q) unlabelled_table out.1 = true.
Proof.
  apply (short_batch_is_collected_again Py.float_of_decimal
           scenario_d_features (fun _ => 0%Q)).
  - reflexivity.
  - vm_compute. reflexivity.
  - vm_compute. reflexivity.
Defined.

(** After the cycle of Scenario D the learner is restarted: the id is the
    saved one, and a check one second after the restart does not wait. *)
Example restart_after_scenario_d :
  let l' := init None 3600 100 (100 * 100) "models" scenario_d_cycle.2 in
  last_processed_id l' = 200%Z /\
  last_training_time scenario_d_cycle.1 = Some "2025-01-06T12:00:01" /\
  last_training_time l' = None.
Proof. vm_compute. done. Qed.

End LearnerExamples.

(** ** The DFA filter: what the binding table remembers *)

Section BindingFacts.
Import Scapy DFA.

(** One check: the sender's binding is written in every case, and a
    conflict verdict leaves the observation times alone. *)
Lemma check_writes_binding (now : Q) (pkt : ARP) (s : DFAFilter) :
  ip_mac (check now pkt s).2 = <[psrc pkt := hwsrc pkt]> (ip_mac s) /\
  grat_threshold (check now pkt s).2 = grat_threshold s /\
  grat_window (check now pkt s).2 = grat_window s /\
  (is_conflict (check now pkt s).1 = true ->
   grat_counts (check now pkt s).2 = grat_counts s).
Proof.
  unfold check.
  destruct (ip_mac s !! psrc pkt) as [prev |] eqn:Hbound.
  - case_bool_decide as Hmac; cbn [fst snd].
    + done.
    + assert (prev = hwsrc pkt) as ->
        by (destruct (decide (prev = hwsrc pkt)); [done | contradiction]).
      destruct (_ >? _)%Z; cbn; (split; [| done]);
        symmetry; by apply insert_id.
  - cbn [fst snd]. destruct (_ >? _)%Z; done.
Qed.

(** X25: the binding table is last-writer-wins: after any stream it holds,
    for every sender IP, the MAC of the last frame that announced it,
    whether that frame raised an alert or not. *)
Theorem bindings_are_last_writer_wins (frames : list (Q * ARP))
    (s : DFAFilter) :
  ip_mac (run frames s).2 = bindings_after frames (ip_mac s).
Proof.
  revert s. induction frames as [| [now pkt] rest IH]; intros s; [done |].
  cbn [run bindings_after fold_left].
  destruct (check_writes_binding now pkt s) as (Hb & _).
  destruct (check now pkt s) as [v s1]. cbn [snd] in Hb.
  specialize (IH s1). destruct (run rest s1) as [vs s2].
  cbn [snd fst] in *. by rewrite IH, Hb.
Qed.

(** X26: two hosts that keep announcing the same IP in turn: every frame
    is a conflict, and none of them is counted by the flood rule. *)
Theorem contested_address_alerts_every_time (ip prev : string)
    (frames : list (Q * ARP)) (s : DFAFilter) :
  ip_mac s !! ip = Some prev ->
  contested ip prev frames ->
  Forall (fun v => is_conflict v = true) (run frames s).1 /\
  grat_counts (run frames s).2 = grat_counts s.
Proof.
  revert prev s. induction frames as [| [now pkt] rest IH];
    intros prev s Hbound Hc; [by split |].
  destruct Hc as (Hip & Hmac & Hrest). cbn [run].
  assert (is_conflict (check now pkt s).1 = true) as Hconf.
  { apply check_conflict_iff. exists prev. by rewrite Hip. }
  destruct (check_writes_binding now pkt s) as (Hb & _ & _ & Hg).
  specialize (Hg Hconf).
  destruct (check now pkt s) as [v s1]. cbn [fst snd] in *.
  assert (ip_mac s1 !! ip = Some (hwsrc pkt)) as Hbound1
    by (rewrite Hb, Hip; apply lookup_insert_eq).
  destruct (IH (hwsrc pkt) s1 Hbound1 Hrest) as [I1 I2].
  destruct (run rest s1) as [vs s2]. cbn [fst snd] in *.
  split; [by constructor | congruence].
Qed.

End BindingFacts.

Section BindingExamples.
Import Scapy DFA.

Lemma contested_address_alerts_every_time_witness :
  Forall (fun v => is_conflict v = true)
    (run tug_of_war
       (check 0 {| psrc := "192.168.1.1"; pdst := "192.168.1.50";
                   hwsrc := "AA:BB:CC:11:22:33";
                   hwdst := "00:00:00:00:00:00"; op := 2 |} DFA.new).2).1 /\
  grat_counts
    (run tug_of_war
       (check 0 {| psrc := "192.168.1.1"; pdst := "192.168.1.50";
                   hwsrc := "AA:BB:CC:11:22:33";
                   hwdst := "00:00:00:00:00:00"; op := 2 |} DFA.new).2).2
  = grat_counts
      (check 0 {| psrc := "192.168.1.1"; pdst := "192.168.1.50";
                  hwsrc := "AA:BB:CC:11:22:33";
                  hwdst := "00:00:00:00:00:00"; op := 2 |} DFA.new).2.
Proof.
  apply (contested_address_alerts_every_time "192.168.1.1"
           "AA:BB:CC:11:22:33").
  - reflexivity.
  - vm_compute. repeat split; discriminate.
Defined.

(** The twenty frames of [tug_of_war] arrive within two seconds from two
    MACs; the flood rule never counts one of them. *)
Example tug_of_war_is_no_flood :
  map is_flood (run tug_of_war
    (check 0 {| psrc := "192.168.1.1"; pdst := "192.168.1.50";
                hwsrc := "AA:BB:CC:11:22:33";
                hwdst := "00:00:00:00:00:00"; op := 2 |} DFA.new).2).1
  = repeat false 20.
Proof. vm_compute. reflexivity. Qed.

End BindingExamples.

(** ** The learning endpoints *)

Section ApiFacts.
Import ANNClassifier ContinuousLearner.

Lemma ensure_detector_names (built : ANNDetector) (models_dir : string)
    (d : Disk SavedState) (s : Api.State) :
  Api.api_learner s = None ->
  (Api.detector s = None <-> Api.core_learner s = None) ->
  let s' := Api._ensure_detector built models_dir d s in
  Api.api_learner s' = None /\
  (exists l, Api.core_learner s' = Some l) /\
  (exists det, Api.detector s' = Some det).
Proof.
  intros Hapi Hcore. unfold Api._ensure_detector.
  destruct (Api.detector s) as [det |] eqn:E.
  - split; [done |]. split; [| by eexists].
    destruct (Api.core_learner s) as [l |]; [by eexists |].
    destruct Hcore as [_ H]. by specialize (H eq_refl).
  - cbn. rewrite Hapi. cbn. split; [done |]. split; by eexists.
Qed.

(** X27: the learning endpoints never see the learner: whatever
    [_ensure_detector] initialises, the name [continuous_learner] that
    api.py imported stays [None], so the status endpoint reports the
    system as not enabled and the others answer 503, while the learner
    exists in its own module. *)
Theorem learning_endpoints_never_see_the_learner
    (starts : list (ANNDetector * string * Disk SavedState)) :
  let s := ensure_all starts Api.loaded in
  Api.api_learner s = None /\
  Api.get_learning_status s = None /\
  Api.trigger_training s
  = Api.HttpError 503 "Continuous learning not initialized" /\
  (forall limit,
     Api.get_training_history limit s
     = Api.HttpError 503 "Continuous learning not initialized") /\
  (starts <> [] -> exists l, Api.core_learner s = Some l).
Proof.
  assert (forall starts s,
            Api.api_learner s = None ->
            (Api.detector s = None <-> Api.core_learner s = None) ->
            Api.api_learner (ensure_all starts s) = None /\
            (starts <> [] \/ Api.core_learner s <> None ->
             exists l, Api.core_learner (ensure_all starts s) = Some l))
    as Hinv.
  { clear starts. induction starts as [| [[built dir] d] rest IH];
      intros s Hapi Hcore.
    - cbn. split; [done |]. intros [H | H]; [done |].
      destruct (Api.core_learner s); [by eexists | done].
    - cbn [ensure_all].
      destruct (ensure_detector_names built dir d s Hapi Hcore)
        as (H1 & [l Hl] & [det Hdet]).
      destruct (IH (Api._ensure_detector built dir d s) H1) as [I1 I2].
      { rewrite Hl, Hdet. split; discriminate. }
      split; [done |]. intros _. apply I2. right. by rewrite Hl. }
  destruct (Hinv starts Api.loaded eq_refl) as [H1 H2]; [done |].
  cbn zeta. unfold Api.get_learning_status, Api.trigger_training,
    Api.get_training_history. rewrite H1.
  repeat split; try done. intros Hne. apply H2. by left.
Qed.

End ApiFacts.

Section ApiExamples.
Import ANNClassifier ContinuousLearner.

(** The sniffer is started once, on the disk that the cycle of Scenario D
    left: the learner exists, with the saved id, and the status endpoint
    reports the system as not enabled. *)
Example status_after_start :
  let s := Api._ensure_detector loaded_detector "models" scenario_d_cycle.2
             Api.loaded in
  option_map last_processed_id (Api.core_learner s) = Some 200%Z /\
  Api.get_learning_status s = None.
Proof. vm_compute. done. Qed.

End ApiExamples.

Section LearnerBacklog.
Import AlertSystem ANNClassifier ContinuousLearner.
Variable py_float : string -> option float.
Variable features_of : Alert -> option (list Q).

Lemma insert_by_id_app (x : Alert) (l1 l2 : list Alert) :
  (forall b, b ∈ l2 -> (id x < id b)%Z) ->
  insert_by_id x (l1 ++ l2) = insert_by_id x l1 ++ l2.
Proof.
  intros H. induction l1 as [| c l1 IH]; cbn.
  - destruct l2 as [| b r]; [done |]. cbn.
    assert ((id x <=? id b)%Z = true) as ->; [| done].
    apply Z.leb_le. specialize (H b (list_elem_of_here _ _)). lia.
  - destruct (id x <=? id c)%Z; [done |]. by rewrite IH.
Qed.

Lemma sort_by_id_app (xs ys : list Alert) :
  (forall a b, a ∈ xs -> b ∈ ys -> (id a < id b)%Z) ->
  foldr insert_by_id [] (xs ++ ys)
  = foldr insert_by_id [] xs ++ foldr insert_by_id [] ys.
Proof.
  intros H. induction xs as [| x xs IH]; [done |]. cbn.
  rewrite IH by (intros a b Ha Hb; apply H; [by right | done]).
  apply insert_by_id_app. intros b Hb.
  rewrite sort_by_id_perm in Hb. apply H; [by left | done].
Qed.

Lemma new_alerts_of_full_backlog (l : Learner) (table more : list Alert) :
  (max_history l
   <= length (filter (fun a => (last_processed_id l < id a)%Z) table))%nat ->
  (forall a b, a ∈ table -> b ∈ more -> (id a < id b)%Z) ->
  new_alerts l (table ++ more) = new_alerts l table.
Proof.
  intros Hfull Hlater. unfold new_alerts.
  rewrite filter_app, sort_by_id_app.
  - apply take_app_le.
    by rewrite (Permutation_length (sort_by_id_perm _)).
  - intros a b Ha%list_elem_of_filter Hb%list_elem_of_filter.
    apply Hlater; tauto.
Qed.

(** X28: a cycle reads the [max_history] oldest unprocessed alerts only:
    while that many are waiting, alerts with larger ids have no effect on
    it. *)
Theorem full_backlog_hides_later_alerts (clock : Clock)
    (table more : list Alert) (trained : option (Metrics * weights))
    (l : Learner) (d : Disk SavedState) :
  (max_history l
   <= length (filter (fun a => (last_processed_id l < id a)%Z) table))%nat ->
  (forall a b, a ∈ table -> b ∈ more -> (id a < id b)%Z) ->
  _perform_training_cycle py_float features_of clock (Some (table ++ more))
    trained l d
  = _perform_training_cycle py_float features_of clock (Some table)
      trained l d.
Proof.
  intros Hfull Hlater. unfold _perform_training_cycle, _collect_training_data.
  by rewrite (new_alerts_of_full_backlog (with_training true l) table more).
Qed.

End LearnerBacklog.
Section BacklogExamples.
Import AlertSystem ANNClassifier ContinuousLearner.

Lemma full_backlog_hides_later_alerts_witness :
  _perform_training_cycle Py.float_of_decimal scenario_d_features
    scenario_d_clock (Some (waiting_two ++ later_one)) scenario_d_trained
    learner_of_two scenario_d_disk
  = _perform_training_cycle Py.float_of_decimal scenario_d_features
      scenario_d_clock (Some waiting_two) scenario_d_trained
      learner_of_two scenario_d_disk.
Proof.
  apply (full_backlog_hides_later_alerts Py.float_of_decimal
           scenario_d_features).
  - vm_compute. lia.
  - intros a b Ha Hb.
    assert (Forall (fun a => Forall (fun b => (id a < id b)%Z) later_one)
              waiting_two) as H
      by (repeat (constructor; [try (cbn; lia) |]); constructor).
    rewrite Forall_forall in H. specialize (H a Ha).
    rewrite Forall_forall in H. exact (H b Hb).
Defined.

(** The later alert of the filter would be labelled and used if it were
    read; with the two older alerts waiting it never is. *)
Example later_alert_is_never_used :
  (_perform_training_cycle Py.float_of_decimal scenario_d_features
     scenario_d_clock (Some (waiting_two ++ later_one)) scenario_d_trained
     learner_of_two scenario_d_disk).1 = learner_of_two /\
  last_processed_id
    (_perform_training_cycle Py.float_of_decimal scenario_d_features
       scenario_d_clock (Some later_one) scenario_d_trained
       learner_of_two scenario_d_disk).1 = 3%Z.
Proof. vm_compute. done. Qed.

End BacklogExamples.

(** ** The frequency feature of live packets *)

Section FrequencyFacts.
Import Utils.

Lemma index_bound (c : string) (cols : list string) (i : nat) :
  index c cols = Some i -> (i < length cols)%nat.
Proof.
  revert i. induction cols as [| x rest IH]; intros i; cbn; [done |].
  case_bool_decide; [intros [= <-]; lia |].
  destruct (index c rest) as [j |]; [| done].
  cbn. intros [= <-]. specialize (IH j eq_refl). lia.
Qed.

Lemma set_column_length (cols : list string) (c : string) (v : Q)
    (vec : list Q) :
  length (set_column cols c v vec) = length vec.
Proof.
  unfold set_column. destruct (index c cols); [apply length_insert | done].
Qed.

Lemma features_length (now : Q) (pkt : packet) (cols : list string)
    (st : State) :
  length (features_from_packet now pkt cols st).1 = length cols.
Proof.
  unfold features_from_packet.
  destruct (source pkt) as [[| ? ?] |]; destruct pkt; cbn;
    rewrite ?set_column_length, ?length_replicate; done.
Qed.

Lemma readings_of_snoc (src : string) (packets : list (Q * packet))
    (now : Q) (pkt : packet) :
  readings_of src (packets ++ [(now, pkt)]) =
  readings_of src packets ++
    (if bool_decide (source pkt = Some src) then [now] else []).
Proof.
  unfold readings_of. rewrite filter_app, map_app. f_equal.
  rewrite filter_cons, filter_nil. cbn.
  destruct (decide (source pkt = Some src)) as [E | E].
  - by rewrite bool_decide_eq_true_2.
  - by rewrite bool_decide_eq_false_2.
Qed.

Lemma readings_of_elem (src : string) (packets : list (Q * packet))
    (t : Q) :
  t ∈ readings_of src packets -> t ∈ map fst packets.
Proof.
  unfold readings_of. intros H. apply list_elem_of_fmap in H as (p & -> & Hp).
  apply list_elem_of_filter in Hp as [_ Hp].
  apply list_elem_of_fmap. by exists p.
Qed.

Lemma last_second_snoc (now : Q) (readings : list Q) :
  last_second now (readings ++ [now]) = last_second now readings ++ [now].
Proof.
  unfold last_second. rewrite filter_app. f_equal.
  rewrite filter_cons, filter_nil.
  destruct (decide (Py.Qgtb (now - now) 1 = false)) as [E | E]; [done |].
  exfalso. apply E. apply Qgtb_false. lra.
Qed.

(** A window that was current at [t] is cut down to the window at a later
    reading. *)
Lemma last_second_later (now t : Q) (readings : list Q) :
  (t <= now)%Q ->
  last_second now (last_second t readings) = last_second now readings.
Proof.
  intros Hle. unfold last_second. rewrite list_filter_filter.
  apply list_filter_iff. intros x. split; [tauto |].
  intros H. split; [done |].
  apply Qgtb_false. apply Qgtb_false in H. lra.
Qed.

Lemma last_elem {A} (l : list A) (x : A) : last l = Some x -> x ∈ l.
Proof.
  intros H. induction l as [| y [| z rest] IH]; [done | |].
  - injection H as ->. by left.
  - right. by apply IH.
Qed.

(** The window that a packet from [src] leaves, when all readings so far
    are at most [now]. *)
Lemma window_after_packet (packets : list (Q * packet)) (now : Q)
    (pkt : packet) (cols : list string) (st : State) (src : string) :
  windows_current packets st ->
  Forall (fun t => (t <= now)%Q) (map fst packets) ->
  source pkt = Some src -> src <> "" ->
  _counter_window (features_from_packet now pkt cols st).2 !! src
  = Some (last_second now (readings_of src packets) ++ [now]).
Proof.
  intros Hcur Hle Hsrc Hne. unfold features_from_packet. rewrite Hsrc.
  destruct src as [| c src]; [done |]. cbn [snd _counter_window].
  rewrite lookup_insert_eq. f_equal. f_equal.
  rewrite (Hcur _ Hne).
  destruct (last (readings_of (String c src) packets)) as [t |] eqn:E; cbn.
  - apply last_second_later.
    rewrite Forall_forall in Hle. apply Hle.
    by apply (readings_of_elem (String c src)), last_elem.
  - apply last_None in E. by rewrite E.
Qed.

Lemma windows_stay_current (packets : list (Q * packet)) (now : Q)
    (pkt : packet) (cols : list string) (st : State) :
  windows_current packets st ->
  Forall (fun t => (t <= now)%Q) (map fst packets) ->
  windows_current (packets ++ [(now, pkt)])
    (features_from_packet now pkt cols st).2.
Proof.
  intros Hcur Hle src Hne. rewrite readings_of_snoc.
  destruct (decide (source pkt = Some src)) as [E | E].
  - rewrite bool_decide_eq_true_2 by done.
    rewrite last_snoc, last_second_snoc.
    by apply window_after_packet.
  - rewrite bool_decide_eq_false_2 by done. rewrite app_nil_r.
    rewrite <- (Hcur _ Hne). unfold features_from_packet.
    destruct (source pkt) as [[| c s] |]; [done | | done].
    cbn [snd _counter_window]. apply lookup_insert_ne. congruence.
Qed.

Lemma readings_before (ts : list Q) (now : Q) (rest : list Q) :
  StronglySorted Qle (ts ++ now :: rest) ->
  Forall (fun t => (t <= now)%Q) ts.
Proof.
  intros H. apply Forall_forall. intros t Ht.
  apply (StronglySorted_app_1_elem_of Qle ts (now :: rest)); [done | done |].
  by left.
Qed.

Lemma features_all_current (packets pre : list (Q * packet))
    (cols : list string) (st : State) :
  windows_current pre st ->
  StronglySorted Qle (map fst (pre ++ packets)) ->
  windows_current (pre ++ packets) (features_all packets cols st).
Proof.
  revert pre st. induction packets as [| [now pkt] rest IH];
    intros pre st Hcur Hsorted.
  - by rewrite app_nil_r.
  - cbn [features_all].
    replace (pre ++ (now, pkt) :: rest) with ((pre ++ [(now, pkt)]) ++ rest)
      by (by rewrite <- app_assoc).
    apply IH.
    + apply windows_stay_current; [done |].
      rewrite map_app in Hsorted. cbn in Hsorted.
      by apply (readings_before (map fst pre) now (map fst rest)).
    + by rewrite <- app_assoc.
Qed.

(** X29: for a stream in time order, the window that a packet leaves for
    its sender holds the readings of that sender's packets of the last
    second, this one included, and their number is what the packet's
    frequency column gets; the vector has one entry per column. *)
Theorem frequency_counts_the_last_second (packets : list (Q * packet))
    (now : Q) (pkt : packet) (src : string) (cols : list string) :
  StronglySorted Qle (map fst packets ++ [now]) ->
  source pkt = Some src -> src <> "" ->
  let st := features_all packets cols Utils.new in
  let out := features_from_packet now pkt cols st in
  let seen := last_second now (readings_of src packets) ++ [now] in
  length out.1 = length cols /\
  _counter_window out.2 !! src = Some seen /\
  forall i, index "src2dst_packets" cols = Some i ->
    out.1 !! i = Some (inject_Z (Z.of_nat (length seen)) / 1)%Q.
Proof.
  intros Hsorted Hsrc Hne st out seen.
  assert (windows_current packets st) as Hcur.
  { apply (features_all_current packets [] cols Utils.new).
    - intros s _. unfold readings_of. rewrite filter_nil. cbn.
      apply lookup_empty.
    - cbn. by apply StronglySorted_app_1_l in Hsorted. }
  assert (Forall (fun t => (t <= now)%Q) (map fst packets)) as Hle
    by (by apply (readings_before (map fst packets) now [])).
  pose proof (window_after_packet packets now pkt cols st src Hcur Hle
                Hsrc Hne) as Hwin.
  split; [apply features_length |]. split; [exact Hwin |].
  intros i Hi. subst out. unfold features_from_packet in *.
  rewrite Hsrc in *. destruct src as [| c src]; [done |].
  cbn [fst snd _counter_window] in *.
  rewrite lookup_insert_eq in Hwin. injection Hwin as Hwin.
  rewrite Hwin. cbn [fold_left]. fold seen.
  unfold set_column at 1. rewrite Hi.
  apply list_lookup_insert_eq.
  rewrite !set_column_length.
  apply index_bound in Hi.
  destruct pkt; cbn; rewrite ?set_column_length, length_replicate; done.
Qed.

End FrequencyFacts.
Section FrequencyExamples.
Import Scapy Utils.

Lemma frequency_counts_the_last_second_witness :
  let cols := ["opcode"; "src2dst_packets"] in
  let st := features_all three_replies cols Utils.new in
  let out := features_from_packet 1.4 reply_from_5 cols st in
  let seen :=
    last_second 1.4 (readings_of "10.0.0.5" three_replies) ++ [1.4%Q] in
  length out.1 = length cols /\
  _counter_window out.2 !! "10.0.0.5" = Some seen /\
  forall i, index "src2dst_packets" cols = Some i ->
    out.1 !! i = Some (inject_Z (Z.of_nat (length seen)) / 1)%Q.
Proof.
  apply (frequency_counts_the_last_second three_replies 1.4 reply_from_5
           "10.0.0.5" ["opcode"; "src2dst_packets"]).
  - cbn. repeat (constructor; [| repeat constructor; unfold Qle; cbn; lia]).
    constructor.
  - reflexivity.
  - discriminate.
Defined.

(** The fourth reply, at 1.4 s: the one at 0 s has left the window. *)
Example fourth_reply_features :
  (features_from_packet 1.4 reply_from_5 ["opcode"; "src2dst_packets"]
     (features_all three_replies ["opcode"; "src2dst_packets"] Utils.new)).1
  = [2%Q; (3 / 1)%Q].
Proof. vm_compute. reflexivity. Qed.

End FrequencyExamples.

(** ** The packet buffer: every packet is accounted for *)

Section BufferFacts.
Import PacketBuffer.
Context {P : Type}.

(** What one returning [put] does to a buffer that keeps statistics. *)
Lemma put_accounts (packet : P) (block : bool) (timeout : option Q)
    (b b' : PacketBuffer P) (ok : bool) :
  enable_stats b = true ->
  put packet block timeout b = Returned ok b' ->
  enable_stats b' = true /\ max_size b' = max_size b /\
  (total_received (stats b') + total_dropped (stats b')
   = total_received (stats b) + total_dropped (stats b) + 1)%Z /\
  (total_received (stats b') - Z.of_nat (length (queue b'))
   = total_received (stats b) - Z.of_nat (length (queue b)))%Z /\
  total_processed (stats b') = total_processed (stats b) /\
  ((0 < max_size b)%Z ->
   (Z.of_nat (length (queue b)) <= max_size b)%Z ->
   (Z.of_nat (length (queue b')) <= max_size b)%Z).
Proof.
  intros Hs. unfold put, dropped, added, is_full. rewrite Hs.
  cbn [enable_stats with_queue].
  destruct (bool_decide (overflow_strategy b = "drop"));
    destruct (0 <? max_size b)%Z eqn:Hpos;
    destruct (max_size b <=? Z.of_nat (length (queue b)))%Z eqn:Hfull;
    destruct block; destruct timeout as [t |];
    try destruct (Py.Qltb t 0);
    cbn; rewrite ?Hs; intros E; try discriminate;
    injection E as <- <-; cbn; rewrite ?length_app; cbn;
    apply Z.leb_gt in Hfull || apply Z.leb_le in Hfull;
    repeat split; try done; lia.
Qed.

Lemma get_batch_accounts (reads : nat) (b : PacketBuffer P) :
  enable_stats b = true ->
  let b' := (get_batch reads b).2 in
  enable_stats b' = true /\ max_size b' = max_size b /\
  total_received (stats b') = total_received (stats b) /\
  total_dropped (stats b') = total_dropped (stats b) /\
  (total_processed (stats b') + Z.of_nat (length (queue b'))
   = total_processed (stats b) + Z.of_nat (length (queue b)))%Z /\
  (length (queue b') <= length (queue b))%nat.
Proof.
  intros Hs. unfold get_batch.
  set (n := Nat.min reads (Z.to_nat (batch_size b))).
  pose proof (take_drop n (queue b)) as Hsplit.
  apply (f_equal length) in Hsplit. rewrite length_app in Hsplit.
  destruct (take n (queue b)) as [| x xs] eqn:E; cbn [snd].
  - cbn in *. repeat split; try done; lia.
  - cbn [enable_stats with_queue]. rewrite Hs. cbn in *.
    repeat split; try done; lia.
Qed.

(** X30: the buffer accounts for every packet: when statistics are kept,
    each call of [put] that returns is counted once, as received or as
    dropped; the packets received are those handed out in batches and those
    still in the queue; and a bounded queue never holds more than its
    bound. *)
Theorem buffer_accounts_for_every_packet (ops : list (@buffer_op P))
    (bound batch : Z) (timeout : Q) (strategy : string) :
  let r := run_buffer ops (init bound batch timeout strategy true) in
  (total_received (stats r.2) + total_dropped (stats r.2)
   = Z.of_nat r.1)%Z /\
  (total_received (stats r.2)
   = total_processed (stats r.2) + Z.of_nat (size r.2))%Z /\
  ((0 < bound)%Z -> (Z.of_nat (size r.2) <= bound)%Z).
Proof.
  assert (forall ops (b : PacketBuffer P),
            enable_stats b = true ->
            let r := run_buffer ops b in
            max_size r.2 = max_size b /\
            (total_received (stats r.2) + total_dropped (stats r.2)
             = total_received (stats b) + total_dropped (stats b)
               + Z.of_nat r.1)%Z /\
            (total_received (stats r.2) - total_processed (stats r.2)
               - Z.of_nat (length (queue r.2))
             = total_received (stats b) - total_processed (stats b)
               - Z.of_nat (length (queue b)))%Z /\
            ((0 < max_size b)%Z ->
             (Z.of_nat (length (queue b)) <= max_size b)%Z ->
             (Z.of_nat (length (queue r.2)) <= max_size b)%Z)) as Hinv.
  { clear. induction ops as [| [packet block timeout | reads] rest IH];
      intros b Hs.
    - cbn. repeat split; try done; lia.
    - cbn [run_buffer].
      destruct (put packet block timeout b) as [ok b' | |] eqn:E;
        [| by apply IH | by apply IH].
      destruct (put_accounts packet block timeout b b' ok Hs E)
        as (H1 & H2 & H3 & H4 & H5 & H6).
      specialize (IH b' H1). destruct (run_buffer rest b') as [n b''].
      cbn [fst snd] in *. destruct IH as (I1 & I2 & I3 & I4).
      rewrite H2 in *. repeat split; try done; try lia.
      all: intros Hpos Hle; apply I4; [done |]; by apply H6.
    - cbn [run_buffer].
      destruct (get_batch_accounts reads b Hs) as (H1 & H2 & H3 & H4 & H5 & H6).
      specialize (IH (get_batch reads b).2 H1).
      destruct (run_buffer rest (get_batch reads b).2) as [n b''].
      cbn [fst snd] in *. destruct IH as (I1 & I2 & I3 & I4).
      rewrite H2 in *. repeat split; try done; try lia.
      all: intros Hpos Hle; apply I4; [done |]; lia. }
  specialize (Hinv ops (init bound batch timeout strategy true) eq_refl).
  cbn zeta in *. destruct (run_buffer ops _) as [n b]. cbn [fst snd] in *.
  cbn [init max_size stats queue no_stats total_received total_dropped
       total_processed length] in Hinv.
  destruct Hinv as (I1 & I2 & I3 & I4). unfold size.
  repeat split; try lia. all: intros Hpos; apply I4; lia.
Qed.

End BufferFacts.

Section BufferExamples.
Import PacketBuffer.

(** A buffer for two packets with the drop strategy: four packets are put,
    a batch is taken, one more packet is put. *)
Example drops_are_counted :
  let r := run_buffer
             [PutOp 1%nat true None; PutOp 2%nat true None;
              PutOp 3%nat true None; PutOp 4%nat true None;
              GetOp 32; PutOp 5%nat true None]
             (init 2 32 0.1 "drop" true) in
  r.1 = 5%nat /\ queue r.2 = [5%nat] /\
  total_received (stats r.2) = 3%Z /\ total_dropped (stats r.2) = 2%Z /\
  total_processed (stats r.2) = 2%Z.
Proof. vm_compute. done. Qed.

(** With the block strategy the third [put] waits for a consumer. *)
Example full_buffer_blocks :
  put 3%nat true None
    (run_buffer [PutOp 1%nat true None; PutOp 2%nat true None]
       (init 2 32 0.1 "block" true)).2
  = Blocked.
Proof. vm_compute. reflexivity. Qed.

End BufferExamples.

Section ConfidenceFacts.

(** The comparison with 0.4 that the handler makes comes out in binary64
    as it does on the rationals of the embedding. *)
Example vendor_threshold_in_binary64 (s d b l : bool) :
  PrimFloat.ltb 0.4 (confidence_binary64 s d b l)
  = b && (s || d || l) || s && l.
Proof. destruct s, d, b, l; vm_compute; reflexivity. Qed.

End ConfidenceFacts.
